(** * Pantry scraper: fingerprint store, extraction cascades and job control

    A shallow embedding of [pantry_scraper/foodpantries-scraper.py] (the
    record, its fingerprint and merge, the deduplicating store and the two
    page scrapers) and of [pantry_scraper/flask-scraper-backend.py] (its page
    scraper and the background job with its start and stop requests),
    followed by the properties C1 to C10 of the specification.

    Python [str] values are modelled by [string]; a character stands for a
    code point below 256, so that [lower], [strip], [len] and the UTF-8
    [encode] are the functions Python computes on such text.  The store is a
    [gmap] with a [gset] of keys, as the class keeps a dict and a set.  The
    libraries the scrapers call ([requests], [BeautifulSoup], [re], [geopy])
    are the methods of the class [Web]; the worker thread and the requests
    that reach it are the events of a step function on the job. *)

From Stdlib Require Import ZArith NArith String Ascii List Bool Lia.
From stdpp Require Import gmap strings list.

Open Scope string_scope.

(** ** Python string primitives *)

Module PyStr.

Definition code (c : ascii) : N := N_of_ascii c.

(** [str.isspace] on one character. *)
Definition isspace (c : ascii) : bool :=
  let n := code c in
  ((9 <=? n) && (n <=? 13) || (28 <=? n) && (n <=? 32)
   || (n =? 133) || (n =? 160))%N.

(** The class [\d] of [re]. *)
Definition isdigit (c : ascii) : bool :=
  let n := code c in ((48 <=? n) && (n <=? 57))%N.

Definition lower_char (c : ascii) : ascii :=
  let n := code c in
  if ((65 <=? n) && (n <=? 90)
      || (192 <=? n) && (n <=? 222) && negb (n =? 215))%N
  then ascii_of_N (n + 32) else c.

(** [s.lower()] *)
Fixpoint lower (s : string) : string :=
  match s with
  | EmptyString => EmptyString
  | String c r => String (lower_char c) (lower r)
  end.

Fixpoint lstrip (s : string) : string :=
  match s with
  | EmptyString => EmptyString
  | String c r => if isspace c then lstrip r else s
  end.

Fixpoint rstrip (s : string) : string :=
  match s with
  | EmptyString => EmptyString
  | String c r =>
      match rstrip r with
      | EmptyString => if isspace c then EmptyString else String c EmptyString
      | r' => String c r'
      end
  end.

(** [s.strip()] *)
Definition strip (s : string) : string := rstrip (lstrip s).

(** [len(s)] *)
Definition len (s : string) : nat := String.length s.

(** [re.sub(r'\D', '', s)]: every character that is not a digit is removed. *)
Fixpoint sub_non_digits (s : string) : string :=
  match s with
  | EmptyString => EmptyString
  | String c r => if isdigit c then String c (sub_non_digits r)
                  else sub_non_digits r
  end.

(** [s.startswith(p)] *)
Fixpoint startswith (p s : string) : bool :=
  match p, s with
  | EmptyString, _ => true
  | String a p', String b s' => if Ascii.eqb a b then startswith p' s' else false
  | String _ _, EmptyString => false
  end.

(** [p in s] *)
Fixpoint contains (p s : string) : bool :=
  startswith p s ||
  match s with
  | EmptyString => false
  | String _ s' => contains p s'
  end.

Fixpoint drop (n : nat) (s : string) : string :=
  match n, s with
  | O, _ => s
  | S n', String _ r => drop n' r
  | S _, EmptyString => EmptyString
  end.

(** [s.replace(old, '')] for a non-empty [old]: the occurrences of [old] are
    removed from left to right, without overlap.  [fuel] bounds the number of
    characters still to scan. *)
Fixpoint remove_all_fuel (fuel : nat) (old s : string) : string :=
  match fuel with
  | O => s
  | S fuel' =>
      match s with
      | EmptyString => EmptyString
      | String c r =>
          if startswith old s
          then remove_all_fuel fuel' old (drop (len old) s)
          else String c (remove_all_fuel fuel' old r)
      end
  end.

Definition remove_all (old s : string) : string :=
  remove_all_fuel (S (len s)) old s.

(** [s.encode()]: UTF-8 for code points below 256. *)
Fixpoint encode (s : string) : list Z :=
  match s with
  | EmptyString => []
  | String c r =>
      let n := Z.of_N (code c) in
      if (n <? 128)%Z then n :: encode r
      else Z.lor 192 (Z.shiftr n 6) :: Z.lor 128 (Z.land n 63) :: encode r
  end.

(** Truth value of a [str]: only the empty string is false. *)
Definition truthy (s : string) : bool :=
  match s with EmptyString => false | _ => true end.

(** Truth value of an [Optional[str]]. *)
Definition otruthy (o : option string) : bool :=
  match o with Some s => truthy s | None => false end.

End PyStr.

(** ** MD5 (RFC 1321), as [hashlib.md5(...).hexdigest()] computes it *)

Module MD5.
Open Scope Z_scope.

Definition w32 (x : Z) : Z := x mod 2 ^ 32.

Definition rotl (x c : Z) : Z :=
  w32 (Z.lor (Z.shiftl x c) (Z.shiftr x (32 - c))).

Definition lnot32 (x : Z) : Z := Z.lxor x 4294967295.

Definition K : list Z :=
  [ 3614090360; 3905402710; 606105819; 3250441966; 4118548399; 1200080426; 2821735955; 4249261313;
    1770035416; 2336552879; 4294925233; 2304563134; 1804603682; 4254626195; 2792965006; 1236535329;
    4129170786; 3225465664; 643717713; 3921069994; 3593408605; 38016083; 3634488961; 3889429448;
    568446438; 3275163606; 4107603335; 1163531501; 2850285829; 4243563512; 1735328473; 2368359562;
    4294588738; 2272392833; 1839030562; 4259657740; 2763975236; 1272893353; 4139469664; 3200236656;
    681279174; 3936430074; 3572445317; 76029189; 3654602809; 3873151461; 530742520; 3299628645;
    4096336452; 1126891415; 2878612391; 4237533241; 1700485571; 2399980690; 4293915773; 2240044497;
    1873313359; 4264355552; 2734768916; 1309151649; 4149444226; 3174756917; 718787259; 3951481745 ].

Definition shifts : list Z :=
  [ 7; 12; 17; 22; 7; 12; 17; 22; 7; 12; 17; 22; 7; 12; 17; 22;
    5; 9; 14; 20; 5; 9; 14; 20; 5; 9; 14; 20; 5; 9; 14; 20;
    4; 11; 16; 23; 4; 11; 16; 23; 4; 11; 16; 23; 4; 11; 16; 23;
    6; 10; 15; 21; 6; 10; 15; 21; 6; 10; 15; 21; 6; 10; 15; 21 ].

(** Padding: one [0x80] byte, zeros up to 56 modulo 64, then the bit length
    as eight little-endian bytes. *)
Definition le_bytes (n : nat) (x : Z) : list Z :=
  map (fun i => Z.land (Z.shiftr x (8 * Z.of_nat i)) 255) (seq 0 n).

Definition pad (msg : list Z) : list Z :=
  let l := Z.of_nat (length msg) in
  let zeros := Z.to_nat ((55 - l) mod 64) in
  msg ++ 128 :: repeat 0 zeros ++ le_bytes 8 (w32 (8 * l) + 2 ^ 32 * w32 ((8 * l) / 2 ^ 32)).

Fixpoint words (n : nat) (bs : list Z) : list Z :=
  match n with
  | O => []
  | S n' =>
      match bs with
      | b0 :: b1 :: b2 :: b3 :: r =>
          (b0 + 256 * b1 + 65536 * b2 + 16777216 * b3) :: words n' r
      | _ => []
      end
  end.

Definition round (M : list Z) (st : Z * Z * Z * Z) (i : nat) : Z * Z * Z * Z :=
  let '(A, B, C, D) := st in
  let zi := Z.of_nat i in
  let '(F, g) :=
    if zi <? 16 then (Z.lor (Z.land B C) (Z.land (lnot32 B) D), zi)
    else if zi <? 32 then (Z.lor (Z.land D B) (Z.land (lnot32 D) C), (5 * zi + 1) mod 16)
    else if zi <? 48 then (Z.lxor (Z.lxor B C) D, (3 * zi + 5) mod 16)
    else (Z.lxor C (Z.lor B (lnot32 D)), (7 * zi) mod 16) in
  let F' := w32 (F + A + nth i K 0 + nth (Z.to_nat g) M 0) in
  (D, w32 (B + rotl F' (nth i shifts 0)), B, C).

Definition block (st : Z * Z * Z * Z) (M : list Z) : Z * Z * Z * Z :=
  let '(a0, b0, c0, d0) := st in
  let '(A, B, C, D) := fold_left (round M) (seq 0 64) st in
  (w32 (a0 + A), w32 (b0 + B), w32 (c0 + C), w32 (d0 + D)).

Fixpoint blocks (n : nat) (st : Z * Z * Z * Z) (bs : list Z) : Z * Z * Z * Z :=
  match n with
  | O => st
  | S n' => blocks n' (block st (words 16 bs)) (skipn 64 bs)
  end.

Definition digest (msg : list Z) : list Z :=
  let p := pad msg in
  let '(a, b, c, d) :=
    blocks (length p / 64) (1732584193, 4023233417, 2562383102, 271733878) p in
  le_bytes 4 a ++ le_bytes 4 b ++ le_bytes 4 c ++ le_bytes 4 d.

Definition hex_digit (x : Z) : ascii :=
  ascii_of_N (Z.to_N (if x <? 10 then 48 + x else 87 + x)).

Fixpoint hex (bs : list Z) : string :=
  match bs with
  | [] => EmptyString
  | b :: r => String (hex_digit (b / 16)) (String (hex_digit (b mod 16)) (hex r))
  end.

Definition hexdigest (msg : list Z) : string := hex (digest msg).

End MD5.

(** ** The record and its fingerprint ([foodpantries-scraper.py], 11-50) *)

Import PyStr.

Record Pantry := mkPantry {
  name : string;
  address : option string;
  city : option string;
  state : option string;
  zip : option string;
  phone : option string;
  fax : option string;
  email : option string;
  website : option string;
  hours : option string;
  description : option string;
  requirements : option string;
  source_url : option string;
  source_site : option string
}.

(** [name_norm], [addr_norm] and [phone_norm] of [get_fingerprint], and the
    value of [self.zip or '']. *)
Definition name_norm (self : Pantry) : string :=
  if truthy (name self) then strip (lower (name self)) else "".

Definition addr_norm (self : Pantry) : string :=
  match address self with
  | Some a => if truthy a then strip (lower a) else ""
  | None => ""
  end.

Definition phone_norm (self : Pantry) : string :=
  match phone self with
  | Some p => if truthy p then sub_non_digits p else ""
  | None => ""
  end.

Definition zip_or_empty (self : Pantry) : string :=
  match zip self with
  | Some z => if truthy z then z else ""
  | None => ""
  end.

Definition fingerprint_str (self : Pantry) : string :=
  name_norm self ++ "|" ++ addr_norm self ++ "|" ++ phone_norm self
  ++ "|" ++ zip_or_empty self.

Definition get_fingerprint (self : Pantry) : string :=
  MD5.hexdigest (encode (fingerprint_str self)).

(** One iteration of the loop of [merge_with], on a field of type [str]
    and on a field of type [Optional[str]]. *)
Definition merge_str (self_val other_val : string) : string :=
  if truthy self_val && truthy other_val
  then (if (len other_val <=? len self_val)%nat then self_val else other_val)
  else (if truthy self_val then self_val else other_val).

Definition merge_opt (self_val other_val : option string) : option string :=
  match self_val, other_val with
  | Some x, Some y =>
      if truthy x && truthy y
      then (if (len y <=? len x)%nat then self_val else other_val)
      else (if truthy x then self_val else other_val)
  | Some x, None => if truthy x then self_val else other_val
  | None, _ => other_val
  end.

Definition merge_with (self other : Pantry) : Pantry :=
  {| name := merge_str (name self) (name other);
     address := merge_opt (address self) (address other);
     city := merge_opt (city self) (city other);
     state := merge_opt (state self) (state other);
     zip := merge_opt (zip self) (zip other);
     phone := merge_opt (phone self) (phone other);
     fax := merge_opt (fax self) (fax other);
     email := merge_opt (email self) (email other);
     website := merge_opt (website self) (website other);
     hours := merge_opt (hours self) (hours other);
     description := merge_opt (description self) (description other);
     requirements := merge_opt (requirements self) (requirements other);
     source_url := merge_opt (source_url self) (source_url other);
     source_site := merge_opt (source_site self) (source_site other) |}.

(** The fields of the dataclass, and [getattr]. *)
Inductive field :=
  | f_name | f_address | f_city | f_state | f_zip | f_phone | f_fax | f_email
  | f_website | f_hours | f_description | f_requirements | f_source_url
  | f_source_site.

Definition getattr (p : Pantry) (f : field) : option string :=
  match f with
  | f_name => Some (name p)
  | f_address => address p
  | f_city => city p
  | f_state => state p
  | f_zip => zip p
  | f_phone => phone p
  | f_fax => fax p
  | f_email => email p
  | f_website => website p
  | f_hours => hours p
  | f_description => description p
  | f_requirements => requirements p
  | f_source_url => source_url p
  | f_source_site => source_site p
  end.

(** ** The deduplicating store ([foodpantries-scraper.py], 53-87) *)

Inductive exn := KeyError (key : string).

Inductive py_result (A : Type) :=
  | Returns (a : A)
  | Raises (e : exn).
Arguments Returns {A} a.
Arguments Raises {A} e.

Record DeduplicatedPantryDatabase := mkDB {
  pantries : gmap string Pantry;
  fingerprints : gset string
}.

(** [__init__] *)
Definition new_database : DeduplicatedPantryDatabase :=
  {| pantries := ∅; fingerprints := ∅ |}.

Definition add_pantry (self : DeduplicatedPantryDatabase) (pantry : Pantry)
  : py_result (bool * DeduplicatedPantryDatabase) :=
  let fingerprint := get_fingerprint pantry in
  if decide (fingerprint ∈ fingerprints self) then
    match pantries self !! fingerprint with
    | Some existing =>
        Returns (false,
                 {| pantries := <[fingerprint := merge_with existing pantry]> (pantries self);
                    fingerprints := fingerprints self |})
    | None => Raises (KeyError fingerprint)
    end
  else
    Returns (true,
             {| pantries := <[fingerprint := pantry]> (pantries self);
                fingerprints := {[fingerprint]} ∪ fingerprints self |}).

(** The stored entries, and the records [get_all] lists. *)
Definition entries (self : DeduplicatedPantryDatabase) : list (string * Pantry) :=
  map_to_list (pantries self).

Definition get_all (self : DeduplicatedPantryDatabase) : list Pantry :=
  (entries self).*2.

(** A run of [add_pantry] calls, in order; it stops at the first exception. *)
Fixpoint add_all (ps : list Pantry) (db : DeduplicatedPantryDatabase)
  : py_result DeduplicatedPantryDatabase :=
  match ps with
  | [] => Returns db
  | p :: ps' =>
      match add_pantry db p with
      | Returns (_, db') => add_all ps' db'
      | Raises e => Raises e
      end
  end.

(** The two fields of the store describe the same set of keys. *)
Definition consistent (db : DeduplicatedPantryDatabase) : Prop :=
  fingerprints db = dom (pantries db).

(** [sum(1 for p in pantries if ...)] *)
Fixpoint count_where (f : Pantry -> bool) (l : list Pantry) : nat :=
  match l with
  | [] => 0
  | p :: rest => ((if f p then 1 else 0) + count_where f rest)%nat
  end.

(** The dictionary [get_stats] returns; [sources] is filled in by
    [MultiSourceScraper.get_results]. *)
Record Stats := mkStats {
  total : nat;
  with_website : nat;
  with_phone : nat;
  with_email : nat;
  with_hours : nat;
  sources : gmap string nat
}.

Definition get_stats (self : DeduplicatedPantryDatabase) : Stats :=
  let pantries := get_all self in
  {| total := length pantries;
     with_website := count_where (fun p => otruthy (website p)) pantries;
     with_phone := count_where (fun p => otruthy (phone p)) pantries;
     with_email := count_where (fun p => otruthy (email p)) pantries;
     with_hours := count_where (fun p => otruthy (hours p)) pantries;
     sources := ∅ |}.

(** ** What the scrapers take from their libraries

    [requests], [BeautifulSoup], [re] and [geopy] are outside the repository.
    A parsed page is the record of what the scrapers read from its soup, and
    the library calls are the methods of [Web]. *)

Record Anchor := mkAnchor {
  href : string;                  (* link.get('href', '') *)
  anchor_text : string;           (* link.get_text() *)
  parent_text : option string     (* link.parent.get_text(), when link.parent *)
}.

Record Soup := mkSoup {
  get_text : string;              (* soup.get_text() *)
  get_text_lines : string;        (* soup.get_text(separator='\n') *)
  find_h1 : option string;        (* soup.find('h1').get_text() *)
  find_title : option string;     (* soup.find('title').get_text() *)
  find_all_a : list Anchor        (* soup.find_all('a', href=True) *)
}.

Inductive re_flag := IGNORECASE | MULTILINE | DOTALL.

Record GeoData := mkGeo {
  latitude : Z;
  longitude : Z;
  geocoded_address : string;
  note : option string
}.

Class Web := {
  (** [BeautifulSoup(session.get(url, timeout=10).content, 'html.parser')];
      [None] when the request raises. *)
  fetch : string -> option Soup;
  (** [re.search(pattern, text, flags)]; a match gives its groups by number. *)
  re_search : string -> list re_flag -> string -> option (nat -> string);
  (** [NominatimGeocoder.geocode_address] *)
  geocode_address : option string -> option string -> option string
                    -> option string -> option GeoData;
  (** [get_state_urls] followed by [scrape_state_page]: the detail URLs of a
      state, [None] when the state is not listed. *)
  state_pantry_urls : string -> option (list string)
}.

(** The loop [for pattern in ..._patterns] of the hours, description and
    requirements extractions: search, take the group, strip, keep the text
    if it is shorter than the cap and leave the loop.  The second component
    lists the patterns handed to [re.search], in order. *)
Fixpoint cascade `{Web} (flags : list re_flag) (group_of : string -> nat)
    (cap : nat) (page_text : string) (patterns : list string)
  : option string * list string :=
  match patterns with
  | [] => (None, [])
  | pattern :: rest =>
      match re_search pattern flags page_text with
      | Some m =>
          let t := strip (m (group_of pattern)) in
          if (len t <? cap)%nat then (Some t, [pattern])
          else let '(r, tried) := cascade flags group_of cap page_text rest in
               (r, pattern :: tried)
      | None =>
          let '(r, tried) := cascade flags group_of cap page_text rest in
          (r, pattern :: tried)
      end
  end.

(** The loop over [phone_patterns]: the first match wins. *)
Fixpoint first_match `{Web} (flags : list re_flag) (page_text : string)
    (patterns : list string) : option string :=
  match patterns with
  | [] => None
  | pattern :: rest =>
      match re_search pattern flags page_text with
      | Some m => Some (strip (m 1%nat))
      | None => first_match flags page_text rest
      end
  end.

(** [any(indicator in link_text for indicator in indicators)] *)
Definition any_in (indicators : list string) (link_text : string) : bool :=
  existsb (fun indicator => contains indicator link_text) indicators.

(** *** [FoodPantriesScraper.scrape_pantry_details] *)

Definition fp_hours_patterns : list string :=
  [ "(?:Pantry|Food Pantry|Distribution)?\s*Hours?:\s*([^\n]+(?:\n(?![A-Z][a-z]+:)[^\n]+)*)" ].

Definition fp_hours `{Web} (page_text : string) : option string * list string :=
  cascade [IGNORECASE] (fun _ => 1%nat) 500 page_text fp_hours_patterns.

Definition fp_requirements `{Web} (page_text : string) : option string :=
  match re_search "Requirements?:\s*([^\n]+(?:\n(?![A-Z][a-z]+:)[^\n]+)*)"
                  [IGNORECASE] page_text with
  | Some req_match =>
      let req_text := strip (req_match 1%nat) in
      if (len req_text <? 500)%nat then Some req_text else None
  | None => None
  end.

(** The loop over [soup.find_all('a', href=True)] (lines 225-242); the
    result is [(email, website)]. *)
Fixpoint scan_links (links : list Anchor) (email : option string)
  : option string * option string :=
  match links with
  | [] => (email, None)
  | link :: rest =>
      let href := strip (href link) in
      if contains "mailto:" href then
        let email_addr := strip (remove_all "mailto:" href) in
        if contains "@" email_addr && negb (otruthy email)
        then scan_links rest (Some email_addr)
        else scan_links rest email
      else if startswith "http" href && negb (contains "foodpantries.org" href) then
        let link_text := lower (strip (anchor_text link)) in
        let parent_text :=
          match parent_text link with Some t => strip t | None => "" end in
        if any_in ["website"; "visit"; "home"; "more info"] link_text
        then (email, Some href)
        else if contains "website" (lower parent_text)
        then (email, Some href)
        else scan_links rest email
      else scan_links rest email
  end.

Definition scrape_pantry_details `{Web} (pantry_url : string) : option Pantry :=
  match fetch pantry_url with
  | None => None
  | Some soup =>
      let page_text := get_text soup in
      let name :=
        match re_search "^([^\n]+)\s*Contact Information" [MULTILINE] page_text with
        | Some name_match => Some (strip (name_match 1%nat))
        | None => None
        end in
      match name with
      | None => None
      | Some name =>
          if negb (truthy name) then None else
          let contact_section :=
            re_search "Contact Information\s*(.+?)\s*([^,\n]+),\s*([A-Z]{2})\s*-\s*(\d{5})"
                      [DOTALL] page_text in
          let phone_match :=
            re_search "Phone:\s*(\([0-9]{3}\)\s*[0-9]{3}-[0-9]{4})" [] page_text in
          let fax_match :=
            re_search "Fax Number:\s*(\([0-9]{3}\)\s*[0-9]{3}-[0-9]{4})" [] page_text in
          let '(email, website) := scan_links (find_all_a soup) None in
          Some {| name := name;
                  address := (fun m : nat -> string => strip (m 1%nat)) <$> contact_section;
                  city := (fun m : nat -> string => strip (m 2%nat)) <$> contact_section;
                  state := (fun m : nat -> string => m 3%nat) <$> contact_section;
                  zip := (fun m : nat -> string => m 4%nat) <$> contact_section;
                  phone := (fun m : nat -> string => strip (m 1%nat)) <$> phone_match;
                  fax := (fun m : nat -> string => strip (m 1%nat)) <$> fax_match;
                  email := email;
                  website := website;
                  hours := (fp_hours page_text).1;
                  description := None;
                  requirements := fp_requirements page_text;
                  source_url := Some pantry_url;
                  source_site := Some "foodpantries.org" |}
      end
  end.

(** *** [Network211Scraper.scrape_pantry_detail] *)

(** [s.split('|')[0]] *)
Fixpoint before_bar (s : string) : string :=
  match s with
  | EmptyString => EmptyString
  | String c r => if Ascii.eqb c "|"%char then EmptyString else String c (before_bar r)
  end.

Definition n211_phone_patterns : list string :=
  [ "Phone:?\s*(\(\d{3}\)\s*\d{3}-\d{4})";
    "Phone:?\s*(\d{3}-\d{3}-\d{4})";
    "Tel:?\s*(\(\d{3}\)\s*\d{3}-\d{4})" ].

Definition n211_hours_patterns : list string :=
  [ "Hours?:?\s*([^\n]+(?:\n(?![A-Z][a-z]+:)[^\n]+){0,5})";
    "Open:?\s*([^\n]+(?:\n(?![A-Z][a-z]+:)[^\n]+){0,3})" ].

Definition n211_desc_patterns : list string :=
  [ "Description:?\s*([^\n]+(?:\n(?![A-Z][a-z]+:)[^\n]+){0,10})";
    "Service Description:?\s*([^\n]+(?:\n(?![A-Z][a-z]+:)[^\n]+){0,10})" ].

Definition n211_req_patterns : list string :=
  [ "Eligibility:?\s*([^\n]+(?:\n(?![A-Z][a-z]+:)[^\n]+){0,5})";
    "Requirements?:?\s*([^\n]+(?:\n(?![A-Z][a-z]+:)[^\n]+){0,5})" ].

Definition n211_hours `{Web} (page_text : string) : option string * list string :=
  cascade [IGNORECASE] (fun _ => 1%nat) 500 page_text n211_hours_patterns.

Definition n211_description `{Web} (page_text : string) : option string * list string :=
  cascade [IGNORECASE] (fun _ => 1%nat) 1000 page_text n211_desc_patterns.

Definition n211_requirements `{Web} (page_text : string) : option string * list string :=
  cascade [IGNORECASE] (fun _ => 1%nat) 500 page_text n211_req_patterns.

(** The website loop of the 211 scraper (lines 387-393). *)
Fixpoint n211_website (links : list Anchor) : option string :=
  match links with
  | [] => None
  | link :: rest =>
      let href := href link in
      if startswith "http" href && negb (contains "communityos.org" href)
         && negb (contains "211" href) then
        let link_text := lower (strip (anchor_text link)) in
        if contains "website" link_text || contains "visit" link_text
           || contains "home" link_text
        then Some href
        else n211_website rest
      else n211_website rest
  end.

(** The name of a profile page: the [h1], else the title up to its first
    bar. *)
Definition n211_name (soup : Soup) : option string :=
  let name :=
    match find_h1 soup with
    | Some h1 => Some (strip h1)
    | None => None
    end in
  if negb (otruthy name) then
    match find_title soup with
    | Some title => Some (strip (before_bar (strip title)))
    | None => name
    end
  else name.

Definition scrape_pantry_detail `{Web} (region url : string) : option Pantry :=
  match fetch url with
  | None => None
  | Some soup =>
      let page_text := get_text_lines soup in
      match n211_name soup with
      | None => None
      | Some name =>
          if negb (truthy name) then None else
          let addr_match :=
            re_search "([^\n]+)\n([^,\n]+),\s*([A-Z]{2})\s+(\d{5}(?:-\d{4})?)" [] page_text in
          let email_match := re_search "[\w\.-]+@[\w\.-]+\.\w+" [] page_text in
          Some {| name := name;
                  address := (fun m : nat -> string => strip (m 1%nat)) <$> addr_match;
                  city := (fun m : nat -> string => strip (m 2%nat)) <$> addr_match;
                  state := (fun m : nat -> string => m 3%nat) <$> addr_match;
                  zip := (fun m : nat -> string => m 4%nat) <$> addr_match;
                  phone := first_match [IGNORECASE] page_text n211_phone_patterns;
                  fax := None;
                  email := (fun m : nat -> string => m 0%nat) <$> email_match;
                  website := n211_website (find_all_a soup);
                  hours := (n211_hours page_text).1;
                  description := (n211_description page_text).1;
                  requirements := (n211_requirements page_text).1;
                  source_url := Some url;
                  source_site := Some ("211 " ++ region) |}
      end
  end.

(** ** The detail pages of a state ([foodpantries-scraper.py], 121-155;
       [flask-scraper-backend.py], 201-256) *)

(** [self.base_url] of [FoodPantriesScraper] *)
Definition base_url : string := "https://www.foodpantries.org".

(** [href if href.startswith('http') else self.base_url + href] *)
Definition absolute (href : string) : string :=
  if startswith "http" href then href else base_url ++ href.

(** The loop over the links of one page: the target of a link whose [href]
    contains [marker] is appended to [urls] unless it is there already. *)
Fixpoint gather (marker : string) (links : list Anchor) (urls : list string)
  : list string :=
  match links with
  | [] => urls
  | link :: rest =>
      if contains marker (href link) then
        if bool_decide (absolute (href link) ∈ urls) then gather marker rest urls
        else gather marker rest (urls ++ [absolute (href link)])%list
      else gather marker rest urls
  end.

(** The loop [for city_url in city_urls]; a city page whose request raises
    is passed over. *)
Fixpoint gather_cities `{Web} (city_urls pantry_urls : list string) : list string :=
  match city_urls with
  | [] => pantry_urls
  | city_url :: rest =>
      match fetch city_url with
      | Some city_soup =>
          gather_cities rest (gather "/li/" (find_all_a city_soup) pantry_urls)
      | None => gather_cities rest pantry_urls
      end
  end.

Definition scrape_state_page `{Web} (state_url : string) : list string :=
  match fetch state_url with
  | None => []
  | Some soup => gather_cities (gather "/ci/" (find_all_a soup) []) []
  end.

(** ** The background job of [flask-scraper-backend.py] *)

Module Backend.

(** The dictionary [data] built by [scrape_pantry_details]; the time stamp
    [scraped_at] is left out, and [geo] holds the keys that
    [data.update(geo_data)] adds. *)
Record PantryData := mkData {
  url : string;
  name : option string;
  address : option string;
  city : option string;
  state : option string;
  zip : option string;
  phone : option string;
  fax : option string;
  email : option string;
  website : option string;
  hours : option string;
  description : option string;
  requirements : option string;
  geo : option GeoData
}.

Definition hours_patterns : list string :=
  [ "(?:Pantry|Food Pantry|Distribution)?\s*Hours?:\s*([^\n]+(?:\n(?![A-Z][a-z]+:)[^\n]+)*)";
    "(?:Monday|Tuesday|Wednesday|Thursday|Friday|Saturday|Sunday)[^\n]*(?:\d{1,2}:\d{2}[ap]m)[^\n]*" ].

(** [0 if 'day' in pattern.lower() else 1] *)
Definition hours_group (pattern : string) : nat :=
  if contains "day" (lower pattern) then 0%nat else 1%nat.

Definition extract_hours `{Web} (page_text : string) : option string * list string :=
  cascade [IGNORECASE] hours_group 500 page_text hours_patterns.

Definition extract_requirements `{Web} (page_text : string) : option string :=
  match re_search "Requirements?:\s*([^\n]+(?:\n(?![A-Z][a-z]+:)[^\n]+)*)"
                  [IGNORECASE] page_text with
  | Some req_match =>
      let req_text := strip (req_match 1%nat) in
      if (len req_text <? 500)%nat then Some req_text else None
  | None => None
  end.

(** The loop over the links (lines 339-348), on [data['email']] and
    [data['website']]. *)
Fixpoint scan_links (links : list Anchor) (email website : option string)
  : option string * option string :=
  match links with
  | [] => (email, website)
  | link :: rest =>
      let href := href link in
      if contains "mailto:" href then
        let addr := strip (remove_all "mailto:" href) in
        if contains "@" addr && negb (otruthy email)
        then scan_links rest (Some addr) website
        else scan_links rest email website
      else if startswith "http" href && negb (contains "foodpantries.org" href) then
        match website with
        | Some w =>
            if negb (truthy w) || (len href <? len w)%nat
            then scan_links rest email (Some href)
            else scan_links rest email website
        | None => scan_links rest email (Some href)
        end
      else scan_links rest email website
  end.

Definition scrape_pantry_details `{Web} (pantry_url : string) : option PantryData :=
  match fetch pantry_url with
  | None => None
  | Some soup =>
      let page_text := get_text soup in
      let name_match :=
        re_search "^([^\n]+)\s*Contact Information" [MULTILINE] page_text in
      let contact_section :=
        re_search "Contact Information\s*(.+?)\s*([^,\n]+),\s*([A-Z]{2})\s*-\s*(\d{5})"
                  [DOTALL] page_text in
      let phone_match :=
        re_search "Phone:\s*(\([0-9]{3}\)\s*[0-9]{3}-[0-9]{4})" [] page_text in
      let fax_match :=
        re_search "Fax Number:\s*(\([0-9]{3}\)\s*[0-9]{3}-[0-9]{4})" [] page_text in
      let '(email, website) := scan_links (find_all_a soup) None None in
      Some {| url := pantry_url;
              name := (fun m : nat -> string => strip (m 1%nat)) <$> name_match;
              address := (fun m : nat -> string => strip (m 1%nat)) <$> contact_section;
              city := (fun m : nat -> string => strip (m 2%nat)) <$> contact_section;
              state := (fun m : nat -> string => m 3%nat) <$> contact_section;
              zip := (fun m : nat -> string => m 4%nat) <$> contact_section;
              phone := (fun m : nat -> string => strip (m 1%nat)) <$> phone_match;
              fax := (fun m : nat -> string => strip (m 1%nat)) <$> fax_match;
              email := email;
              website := website;
              hours := (extract_hours page_text).1;
              description := None;
              requirements := extract_requirements page_text;
              geo := None |}
  end.

(** The texts written to [scraping_state['status']]. *)
Inductive status_text :=
  | NoStatus                                  (* '' *)
  | Starting                                  (* 'Starting...' *)
  | FetchingStateInformation                  (* 'Fetching state information...' *)
  | StateNotFound (state : string)            (* 'State "..." not found' *)
  | FindingPantries (state : string)          (* 'Finding pantries in ...' *)
  | NoPantriesFound                           (* 'No pantries found' *)
  | ScrapingPantry (i n : nat)                (* 'Scraping pantry i of n...' *)
  | Geocoding (i n : nat)                     (* 'Geocoding i/n (FREE)...' *)
  | StoppedByUser                             (* 'Stopped by user' *)
  | Completed (count : nat)                   (* 'Completed! Scraped count pantries' *)
  | ErrorStatus (message : string).           (* 'Error: message' *)

(** The global [scraping_state]. *)
Record ScrapingState := mkState {
  is_scraping : bool;
  current : nat;
  total : nat;
  status : status_text;
  data : list PantryData;
  stop_event : bool
}.

(** A value of [data.get('limit')] other than [None]: a JSON integer, a
    boolean, or a float, a string, an array or an object, of which the
    worker reads the truth value before the slice rejects it. *)
Inductive limit_value :=
  | IntLimit (n : Z)
  | BoolLimit (b : bool)
  | OtherLimit (truthy : bool).

(** Where the thread running [scrape_in_background] stands. *)
Inductive thread :=
  | NoThread
  | Begin (state : string) (limit : option limit_value) (geocode : bool)
  | Discover (state : string) (limit : option limit_value) (geocode : bool)
  | LoopHead (geocode : bool) (i n : nat) (rest : list string)
  | Body (geocode : bool) (i n : nat) (url : string) (rest : list string)
  | AfterLoop.

(** The job: the shared dictionary, the worker thread, and the detail pages
    the worker has asked for since the run was started. *)
Record Job := mkJob {
  scraping_state : ScrapingState;
  worker : thread;
  requested : list string
}.

Definition initial_state : ScrapingState :=
  {| is_scraping := false; current := 0; total := 0; status := NoStatus;
     data := []; stop_event := false |}.

Definition initial_job : Job :=
  {| scraping_state := initial_state; worker := NoThread; requested := [] |}.

(** The body of a [POST /api/scrape] request, after [data.get]: the state,
    a string when the body names one (a body whose state is not a string is
    not described); the limit, any JSON value; the truth value of
    [geocode]. *)
Record ScrapeRequest := mkRequest {
  req_state : option string;
  req_limit : option limit_value;
  req_geocode : bool
}.

Inductive response :=
  | Ok200 (message : string)
  | Error400 (error : string).

(** [pantry_urls[:limit]] *)
Definition slice_to (limit : Z) (l : list string) : list string :=
  if (0 <=? limit)%Z then firstn (Z.to_nat limit) l
  else firstn (length l - Z.to_nat (- limit)) l.

Definition apply_limit (limit : option Z) (l : list string) : list string :=
  match limit with
  | Some n => if (n =? 0)%Z then l else slice_to n l
  | None => l
  end.

(** [str(e)] for the [TypeError] of a slice. *)
Definition slice_error : string :=
  "slice indices must be integers or None or have an __index__ method".

(** [if limit: pantry_urls = pantry_urls[:limit]] in [scrape_in_background],
    where the limit is what the request holds: [None] where the slice
    raises [TypeError].  [True] slices as 1. *)
Definition limit_pages (limit : option limit_value) (pantry_urls : list string)
  : option (list string) :=
  match limit with
  | None => Some pantry_urls
  | Some (IntLimit n) => Some (apply_limit (Some n) pantry_urls)
  | Some (BoolLimit b) => Some (if b then slice_to 1 pantry_urls else pantry_urls)
  | Some (OtherLimit truthy) => if truthy then None else Some pantry_urls
  end.

Definition start_scrape (request : ScrapeRequest) (job : Job) : response * Job :=
  let s := scraping_state job in
  if is_scraping s then (Error400 "Scraping already in progress", job)
  else
    match req_state request with
    | Some state =>
        if negb (truthy state) then (Error400 "State is required", job)
        else
          (Ok200 "Scraping started",
           {| scraping_state :=
                {| is_scraping := true; current := 0; total := 0;
                   status := Starting; data := []; stop_event := stop_event s |};
              worker := Begin state (req_limit request) (req_geocode request);
              requested := [] |})
    | None => (Error400 "State is required", job)
    end.

Definition stop_scrape (job : Job) : response * Job :=
  let s := scraping_state job in
  (Ok200 "Stop signal sent",
   {| scraping_state :=
        {| is_scraping := is_scraping s; current := current s; total := total s;
           status := status s; data := data s; stop_event := true |};
      worker := worker job;
      requested := requested job |}).

(** The geocoding step of the loop body: the record after
    [data.update(geo_data)], and whether the geocoder was called. *)
Definition geocode_record `{Web} (geocode : bool) (d : PantryData) : PantryData * bool :=
  if geocode && otruthy (address d) && otruthy (city d) && otruthy (state d) then
    match geocode_address (address d) (city d) (state d) (zip d) with
    | Some geo_data =>
        ({| url := url d; name := name d; address := address d; city := city d;
            state := state d; zip := zip d; phone := phone d; fax := fax d;
            email := email d; website := website d; hours := hours d;
            description := description d; requirements := requirements d;
            geo := Some geo_data |}, true)
    | None => (d, true)
    end
  else (d, false).

(** One step of [scrape_in_background], between two points at which a
    request that arrives in between changes what the worker does: the
    clearing of the signal, the search for the pages with the limit, the
    check at the head of the loop, the processing of a page, and the end of
    the run.  Of the calls inside the [try], [get_state_urls],
    [scrape_state_page], [scrape_pantry_details] and [geocode_address] catch
    their own exceptions; the slice [pantry_urls[:limit]] raises for a limit
    that is true and not an integer, and the [except] branch then writes the
    status.  The last writes of a run, which are [is_scraping = False]
    before an early [return], the status after the loop or in [except], and
    [is_scraping = False] in [finally], are one step with the end of the
    thread: the thread reads nothing in between, so a job with one run sees
    no difference; a run started in between is not described. *)
Definition worker_step `{Web} (job : Job) : Job :=
  let s := scraping_state job in
  match worker job with
  | NoThread => job
  | Begin state limit geocode =>
      {| scraping_state :=
           {| is_scraping := is_scraping s; current := current s; total := total s;
              status := status s; data := data s; stop_event := false |};
         worker := Discover state limit geocode;
         requested := requested job |}
  | Discover state limit geocode =>
      match state_pantry_urls state with
      | None =>
          {| scraping_state :=
               {| is_scraping := false; current := current s; total := total s;
                  status := StateNotFound state; data := data s;
                  stop_event := stop_event s |};
             worker := NoThread;
             requested := requested job |}
      | Some [] =>
          {| scraping_state :=
               {| is_scraping := false; current := current s; total := total s;
                  status := NoPantriesFound; data := data s;
                  stop_event := stop_event s |};
             worker := NoThread;
             requested := requested job |}
      | Some pantry_urls =>
          match limit_pages limit pantry_urls with
          | Some pantry_urls =>
              {| scraping_state :=
                   {| is_scraping := is_scraping s; current := current s;
                      total := length pantry_urls;
                      status := FindingPantries state; data := [];
                      stop_event := stop_event s |};
                 worker := LoopHead geocode 0 (length pantry_urls) pantry_urls;
                 requested := requested job |}
          | None =>
              {| scraping_state :=
                   {| is_scraping := false; current := current s; total := total s;
                      status := ErrorStatus slice_error; data := data s;
                      stop_event := stop_event s |};
                 worker := NoThread;
                 requested := requested job |}
          end
      end
  | LoopHead geocode i n [] =>
      {| scraping_state := s; worker := AfterLoop; requested := requested job |}
  | LoopHead geocode i n (url :: rest) =>
      if stop_event s then
        {| scraping_state :=
             {| is_scraping := is_scraping s; current := current s; total := total s;
                status := StoppedByUser; data := data s; stop_event := stop_event s |};
           worker := AfterLoop;
           requested := requested job |}
      else
        {| scraping_state :=
             {| is_scraping := is_scraping s; current := i + 1; total := total s;
                status := ScrapingPantry (i + 1) n; data := data s;
                stop_event := stop_event s |};
           worker := Body geocode i n url rest;
           requested := requested job |}
  | Body geocode i n url rest =>
      match scrape_pantry_details url with
      | Some d =>
          let '(d', called) := geocode_record geocode d in
          {| scraping_state :=
               {| is_scraping := is_scraping s; current := current s; total := total s;
                  status := if called then Geocoding (i + 1) n else status s;
                  data := data s ++ [d']; stop_event := stop_event s |};
             worker := LoopHead geocode (i + 1) n rest;
             requested := requested job ++ [url] |}
      | None =>
          {| scraping_state := s;
             worker := LoopHead geocode (i + 1) n rest;
             requested := requested job ++ [url] |}
      end
  | AfterLoop =>
      {| scraping_state :=
           {| is_scraping := false; current := current s; total := total s;
              status := if stop_event s then status s else Completed (length (data s));
              data := data s; stop_event := stop_event s |};
         worker := NoThread;
         requested := requested job |}
  end.

(** What can happen to the job: the worker advances, or a request arrives.
    A request is handled in one step, as by a server that handles one
    request at a time: [start_scrape] tests [is_scraping] and sets it
    further down, and the job has no state in between.  Two start requests
    handled at once, both past the test before either sets the flag, and
    two runs at once are not described: [Job] holds the thread of one
    run. *)
Inductive event :=
  | Tick
  | Stop
  | Start (request : ScrapeRequest).

Definition step `{Web} (job : Job) (e : event) : Job :=
  match e with
  | Tick => worker_step job
  | Stop => (stop_scrape job).2
  | Start request => (start_scrape request job).2
  end.

Definition run `{Web} (events : list event) (job : Job) : Job :=
  fold_left step events job.

(** The worker is in its loop, has finished page [k] and not finished page
    [k + 1]. *)
Definition completed (job : Job) : option nat :=
  match worker job with
  | LoopHead _ i _ _ => Some i
  | Body _ i _ _ _ => Some i
  | _ => None
  end.

(** The pages of the loop: those asked for and those still to come. *)
Definition run_urls (job : Job) : list string :=
  match worker job with
  | LoopHead _ _ _ rest => requested job ++ rest
  | Body _ _ _ url rest => requested job ++ url :: rest
  | _ => requested job
  end.

(** The pages the loop has not started. *)
Definition unstarted (job : Job) : list string :=
  match worker job with
  | LoopHead _ _ _ rest => rest
  | Body _ _ _ _ rest => rest
  | _ => []
  end.

Definition is_tick (e : event) : bool :=
  match e with Tick => true | _ => false end.

(** The number of worker steps among the events. *)
Fixpoint ticks (events : list event) : nat :=
  match events with
  | [] => 0
  | e :: rest => (if is_tick e then 1 else 0) + ticks rest
  end.

Definition is_start (e : event) : bool :=
  match e with Start _ => true | _ => false end.

End Backend.

(** ** The coordinator of the sources ([foodpantries-scraper.py], 264-285
       and 458-542) *)

(** [Network211Scraper.COMMUNITYOS_SITES] *)
Definition COMMUNITYOS_SITES : list (string * string) :=
  [("wisconsin", "https://211wisconsin.communityos.org");
   ("pennsylvania", "https://pa211.communityos.org");
   ("indiana", "https://in211.communityos.org");
   ("ventura", "https://211ventura.org");
   ("sacramento", "https://211sacramento.org")].

(** [Network211Scraper.__init__]: the [base_url] of the scraper, [None]
    where it raises [ValueError]. *)
Definition network211_base_url (region : string) : option string :=
  snd <$> find (fun site => String.eqb (fst site) (lower region)) COMMUNITYOS_SITES.

(** What the coordinator takes from the two sites. *)
Class Sites := {
  (** [FoodPantriesScraper.get_state_urls]: the url and the count of each
      state, by its name. *)
  get_state_urls : gmap string (string * Z);
  (** The list [Network211Scraper.search_food_pantries] has gathered from
      the search page of [base_url] when it comes to the limit; [None] when
      the search raises. *)
  search_links : string -> option (list string)
}.

(** The end of [search_food_pantries]: the limit, and [[]] for a search
    that raised. *)
Definition search_food_pantries `{Sites} (base_url : string) (limit : option Z)
  : list string :=
  match search_links base_url with
  | Some pantry_urls => Backend.apply_limit limit pantry_urls
  | None => []
  end.

Record MultiSourceScraper := mkScraper {
  database : DeduplicatedPantryDatabase;
  source_counts : gmap (option string) nat
}.

(** [MultiSourceScraper.__init__] *)
Definition new_scraper : MultiSourceScraper :=
  {| database := new_database; source_counts := ∅ |}.

(** The body of [if pantry:] in the two loops: the record goes to the
    store and the count of its site goes up by one. *)
Definition record_pantry (pantry : Pantry) (self : MultiSourceScraper)
  : py_result MultiSourceScraper :=
  match add_pantry (database self) pantry with
  | Returns (is_new, db) =>
      let source := source_site pantry in
      Returns {| database := db;
                 source_counts :=
                   <[source := (default 0 (source_counts self !! source) + 1)%nat]>
                     (source_counts self) |}
  | Raises e => Raises e
  end.

(** The loop [for i, url in enumerate(pantry_urls, 1)] of [_scrape_foodpantries]
    and of [_scrape_211], inside their [try]: an exception of [add_pantry]
    ends the loop and leaves what the loop has done so far. *)
Fixpoint scrape_urls (scrape : string -> option Pantry) (pantry_urls : list string)
    (self : MultiSourceScraper) : MultiSourceScraper :=
  match pantry_urls with
  | [] => self
  | url :: rest =>
      match scrape url with
      | Some pantry =>
          match record_pantry pantry self with
          | Returns self' => scrape_urls scrape rest self'
          | Raises _ => self
          end
      | None => scrape_urls scrape rest self
      end
  end.

Definition _scrape_foodpantries `{Web} `{Sites} (state_name : string)
    (limit : option Z) (self : MultiSourceScraper) : MultiSourceScraper :=
  match get_state_urls !! state_name with
  | None => self
  | Some (state_url, _) =>
      scrape_urls scrape_pantry_details
        (Backend.apply_limit limit (scrape_state_page state_url)) self
  end.

Definition _scrape_211 `{Web} `{Sites} (region : string) (limit : option Z)
    (self : MultiSourceScraper) : MultiSourceScraper :=
  match network211_base_url region with
  | None => self
  | Some base_url =>
      scrape_urls (scrape_pantry_detail region)
        (search_food_pantries base_url limit) self
  end.

(** The body of [for source in sources] *)
Definition scrape_source `{Web} `{Sites} (state_name : string) (limit : option Z)
    (source : string) (self : MultiSourceScraper) : MultiSourceScraper :=
  if String.eqb source "foodpantries.org" then
    _scrape_foodpantries state_name limit self
  else if startswith "211-" source then
    _scrape_211 (remove_all "211-" source) limit self
  else self.

Definition scrape_state `{Web} `{Sites} (state_name : string) (limit : option Z)
    (sources : option (list string)) (self : MultiSourceScraper)
  : MultiSourceScraper :=
  fold_left (fun self source => scrape_source state_name limit source self)
            (default ["foodpantries.org"] sources) self.

(** * Definitions used to state the properties *)

(** ** Sample records *)

Definition blank_pantry (n : string) : Pantry :=
  {| name := n; address := None; city := None; state := None; zip := None;
     phone := None; fax := None; email := None; website := None; hours := None;
     description := None; requirements := None; source_url := None;
     source_site := None |}.

Definition community_pantry : Pantry :=
  {| name := "Community Pantry"; address := Some "123 Elm St";
     city := Some "Springfield"; state := Some "IL"; zip := Some "62701";
     phone := Some "(555) 123-4567"; fax := None; email := None; website := None;
     hours := None; description := None; requirements := None;
     source_url := None; source_site := Some "foodpantries.org" |}.

(** The same site as another source writes it. *)
Definition community_pantry_211 : Pantry :=
  {| name := "  COMMUNITY PANTRY "; address := Some "123 ELM ST ";
     city := None; state := None; zip := Some "62701";
     phone := Some "555-123-4567"; fax := None; email := None;
     website := Some "http://x.org"; hours := None; description := None;
     requirements := None; source_url := None;
     source_site := Some "211 wisconsin" |}.

(** The comparison keys in the words of the specification: text lower-cased
    and trimmed, the digits of a phone number, and an absent value read as
    the empty string. *)
Definition absent_as_empty (o : option string) : string :=
  match o with Some s => s | None => "" end.

Definition lower_trim (s : string) : string := strip (lower s).

Definition digit_sequence (s : string) : string := sub_non_digits s.

(** The policy in the words of the specification, a value being present
    when it is not [None]: the longer value when both are present, the
    stored one on equal lengths; the present one when one is present;
    absent when none is. *)
Definition merge_policy (a b : option string) : option string :=
  match a, b with
  | Some x, Some y => if (len y <=? len x)%nat then Some x else Some y
  | Some x, None => Some x
  | None, Some y => Some y
  | None, None => None
  end.

(** The policy [merge_with] follows: the same, but for a stored empty
    string and no incoming value. *)
Definition merge_policy_of_code (a b : option string) : option string :=
  match a, b with
  | Some "", None => None
  | _, _ => merge_policy a b
  end.

(** The two records of the example of the specification. *)
Definition phone_only_pantry : Pantry :=
  {| name := "Community Pantry"; address := None; city := None; state := None;
     zip := None; phone := Some "555-0100"; fax := None; email := None;
     website := None; hours := None; description := None;
     requirements := None; source_url := None; source_site := None |}.

Definition website_only_pantry : Pantry :=
  {| name := "Community Pantry"; address := None; city := None; state := None;
     zip := None; phone := None; fax := None; email := None;
     website := Some "http://x.org"; hours := None; description := None;
     requirements := None; source_url := None; source_site := None |}.

(** A stored record whose address was captured as the empty string, as
    the contact rule of [scrape_pantry_details] does on the text
    "Contact Information  X, IL - 62701". *)
Definition empty_address_pantry : Pantry :=
  {| name := "Community Pantry"; address := Some ""; city := Some "X";
     state := Some "IL"; zip := Some "62701"; phone := None; fax := None;
     email := None; website := None; hours := None; description := None;
     requirements := None; source_url := None;
     source_site := Some "foodpantries.org" |}.

(** The four strings that [get_fingerprint] joins. *)
Definition fp_inputs (p : Pantry) : string * string * string * string :=
  (name_norm p, addr_norm p, phone_norm p, zip_or_empty p).

(** Two records whose joined strings coincide although their fields differ:
    the bar of the address of the first closes the name of the second. *)
Definition hope_pantry : Pantry :=
  {| name := "Hope"; address := Some "Main|"; city := None; state := None;
     zip := None; phone := None; fax := None; email := None; website := None;
     hours := None; description := None; requirements := None;
     source_url := None; source_site := None |}.

Definition hope_main_pantry : Pantry := blank_pantry "Hope|Main".

(** Every key is the fingerprint of a record of [P]. *)
Definition keys_from (P : Pantry → Prop) (db : DeduplicatedPantryDatabase) : Prop :=
  ∀ k r, pantries db !! k = Some r → ∃ p, P p ∧ get_fingerprint p = k.

(** Every stored record has the joined strings of a record of [P] that has
    its key for fingerprint. *)
Definition inputs_from (P : Pantry → Prop) (db : DeduplicatedPantryDatabase) : Prop :=
  ∀ k r, pantries db !! k = Some r →
         ∃ p, P p ∧ get_fingerprint p = k ∧ fp_inputs r = fp_inputs p.

(** ** Sample pages *)

Definition nl : string := String "010"%char "".

Definition group_table (groups : list string) : nat -> string :=
  fun i => nth i groups "".

Definition empty_soup : Soup :=
  {| get_text := ""; get_text_lines := ""; find_h1 := None; find_title := None;
     find_all_a := [] |}.

(** A site whose pages are empty: no pattern of the scrapers matches the
    empty text. *)
Definition blank_web : Web :=
  {| fetch := fun _ => Some empty_soup;
     re_search := fun _ _ _ => None;
     geocode_address := fun _ _ _ _ => None;
     state_pantry_urls := fun _ => Some ["https://www.foodpantries.org/li/closed"] |}.

(** The page of the extraction example of the specification.  Its links
    are a link to share the page by mail, the mail address of the pantry, a
    social network, and two links to the pantry's own site. *)
Definition example_text : string :=
  "Community Pantry" ++ nl ++ "Contact Information" ++ nl ++ "123 Elm St" ++ nl
  ++ "Springfield, IL - 62701" ++ nl ++ "Phone: (217) 555-0100".

Definition example_links : list Anchor :=
  [ {| href := "/st/illinois"; anchor_text := "Illinois"; parent_text := None |};
    {| href := "mailto:?subject=Community%20Pantry"; anchor_text := "Email this page";
       parent_text := None |};
    {| href := "mailto:info@communitypantry.org"; anchor_text := "Write to us";
       parent_text := None |};
    {| href := "https://facebook.com/communitypantry"; anchor_text := "Facebook";
       parent_text := None |};
    {| href := " https://communitypantry.org/about/ "; anchor_text := "Visit Website";
       parent_text := Some "Visit Website" |};
    {| href := "https://cp.org"; anchor_text := "Home"; parent_text := None |} ].

Definition example_soup : Soup :=
  {| get_text := example_text; get_text_lines := example_text;
     find_h1 := Some "Community Pantry"; find_title := None;
     find_all_a := example_links |}.

(** [re.search] on [example_text], tabulated for the patterns that match
    it. *)
Definition example_re_search (pattern : string) (flags : list re_flag)
    (text : string) : option (nat -> string) :=
  if negb (String.eqb text example_text) then None
  else if String.eqb pattern "^([^\n]+)\s*Contact Information"
  then Some (group_table ["Community Pantry" ++ nl ++ "Contact Information";
                          "Community Pantry"])
  else if String.eqb pattern
            "Contact Information\s*(.+?)\s*([^,\n]+),\s*([A-Z]{2})\s*-\s*(\d{5})"
  then Some (group_table ["Contact Information" ++ nl ++ "123 Elm St" ++ nl
                          ++ "Springfield, IL - 62701";
                          "123 Elm St"; "Springfield"; "IL"; "62701"])
  else if String.eqb pattern "Phone:\s*(\([0-9]{3}\)\s*[0-9]{3}-[0-9]{4})"
  then Some (group_table ["Phone: (217) 555-0100"; "(217) 555-0100"])
  else None.

Definition ten_urls : list string :=
  map (fun i => "https://www.foodpantries.org/li/pantry-" ++ i)
      ["1"; "2"; "3"; "4"; "5"; "6"; "7"; "8"; "9"; "10"].

Definition example_web : Web :=
  {| fetch := fun _ => Some example_soup;
     re_search := example_re_search;
     geocode_address := fun _ _ _ _ => None;
     state_pantry_urls :=
       fun state => if String.eqb state "Wisconsin" then Some ten_urls else None |}.

(** A profile page whose first hours rule captures a line of 600
    characters and whose second rule captures "9-5". *)
Definition long_line : string := string_of_list_ascii (repeat "x"%char 600).

Definition long_hours_text : string :=
  "Hours: " ++ long_line ++ nl ++ "Open: 9-5".

Definition long_hours_re_search (pattern : string) (flags : list re_flag)
    (text : string) : option (nat -> string) :=
  if negb (String.eqb text long_hours_text) then None
  else if String.eqb pattern "Hours?:?\s*([^\n]+(?:\n(?![A-Z][a-z]+:)[^\n]+){0,5})"
  then Some (group_table ["Hours: " ++ long_line; long_line])
  else if String.eqb pattern "Open:?\s*([^\n]+(?:\n(?![A-Z][a-z]+:)[^\n]+){0,3})"
  then Some (group_table ["Open: 9-5"; "9-5"])
  else None.

Definition long_hours_web : Web :=
  {| fetch := fun _ =>
       Some {| get_text := long_hours_text; get_text_lines := long_hours_text;
               find_h1 := Some "Riverside Pantry"; find_title := None;
               find_all_a := [] |};
     re_search := long_hours_re_search;
     geocode_address := fun _ _ _ _ => None;
     state_pantry_urls := fun _ => None |}.

(** The links [scan_links] tells apart: a mail link, a mail link with an
    address, an external link, and an external link that announces a web
    site. *)
Definition is_mailto (link : Anchor) : bool :=
  contains "mailto:" (strip (href link)).

Definition mailto_address (link : Anchor) : string :=
  strip (remove_all "mailto:" (strip (href link))).

Definition is_mail_address (link : Anchor) : bool :=
  is_mailto link && contains "@" (mailto_address link).

Definition is_external (link : Anchor) : bool :=
  negb (is_mailto link) && startswith "http" (strip (href link))
  && negb (contains "foodpantries.org" (strip (href link))).

Definition has_indicator (link : Anchor) : bool :=
  any_in ["website"; "visit"; "home"; "more info"] (lower (strip (anchor_text link)))
  || contains "website"
       (lower (match parent_text link with Some t => strip t | None => "" end)).

Definition is_website_link (link : Anchor) : bool :=
  is_external link && has_indicator link.

(** The links the loop reads: all of them up to the web site it keeps. *)
Fixpoint scanned (links : list Anchor) : list Anchor :=
  match links with
  | [] => []
  | link :: rest => if is_website_link link then [link] else link :: scanned rest
  end.

Definition first_website (links : list Anchor) : option string :=
  (fun link => strip (href link)) <$> find is_website_link links.

Definition first_mail_address (links : list Anchor) : option string :=
  mailto_address <$> find is_mail_address links.

(** The address of the first mail link, as the specification words it. *)
Definition first_mailto (links : list Anchor) : option string :=
  mailto_address <$> find is_mailto links.

(** The same for the backend, which reads [href] as it is. *)
Definition backend_is_mail_address (link : Anchor) : bool :=
  contains "mailto:" (href link)
  && contains "@" (strip (remove_all "mailto:" (href link))).

Definition backend_first_mail_address (links : list Anchor) : option string :=
  (fun link => strip (remove_all "mailto:" (href link)))
    <$> find backend_is_mail_address links.

(** What one rule of a cascade yields on a page: the stripped group of its
    match. *)
Definition capture `{Web} (flags : list re_flag) (group_of : string -> nat)
    (page_text pattern : string) : option string :=
  (fun m : nat -> string => strip (m (group_of pattern)))
    <$> re_search pattern flags page_text.

(** A capture is kept when it is shorter than the cap. *)
Definition accepted (cap : nat) (c : option string) : bool :=
  match c with
  | Some t => (len t <? cap)%nat
  | None => false
  end.

(** What a field gets from its rules: the capture of the first rule, in
    order, whose capture is kept; nothing when no rule has one. *)
Definition first_accepted `{Web} (flags : list re_flag) (group_of : string -> nat)
    (cap : nat) (page_text : string) (patterns : list string) : option string :=
  match find (fun pattern => accepted cap (capture flags group_of page_text pattern))
             patterns with
  | Some pattern => capture flags group_of page_text pattern
  | None => None
  end.

(** The rules that are attempted: those up to the first one whose capture
    is kept, that one included, and none after it. *)
Fixpoint attempted `{Web} (flags : list re_flag) (group_of : string -> nat)
    (cap : nat) (page_text : string) (patterns : list string) : list string :=
  match patterns with
  | [] => []
  | pattern :: rest =>
      if accepted cap (capture flags group_of page_text pattern) then [pattern]
      else pattern :: attempted flags group_of cap page_text rest
  end.

(** The rule of the requirements in [foodpantries-scraper.py] and in the
    backend. *)
Definition requirements_pattern : string :=
  "Requirements?:\s*([^\n]+(?:\n(?![A-Z][a-z]+:)[^\n]+)*)".

(** ** Sample requests and runs *)

Definition wisconsin_request (limit : option Z) : Backend.ScrapeRequest :=
  {| Backend.req_state := Some "Wisconsin";
     Backend.req_limit := Backend.IntLimit <$> limit;
     Backend.req_geocode := false |}.

(** A request whose body names no state. *)
Definition stateless_request : Backend.ScrapeRequest :=
  {| Backend.req_state := None; Backend.req_limit := None;
     Backend.req_geocode := true |}.

(** A run over three pages, from the request to its end. *)
Definition finished_job : Backend.Job :=
  @Backend.run example_web
    (Backend.Start (wisconsin_request (Some 3%Z)) :: repeat Backend.Tick 10)
    Backend.initial_job.

(** A run over ten pages, up to the pause after the third one. *)
Definition three_done : list Backend.event :=
  Backend.Start (wisconsin_request None) :: repeat Backend.Tick 8.

(** What holds of a job whatever requests and worker steps led to it. *)
Definition job_inv (job : Backend.Job) : Prop :=
  let s := Backend.scraping_state job in
  match Backend.worker job with
  | Backend.NoThread => Backend.is_scraping s = false
  | Backend.Begin _ _ _ | Backend.Discover _ _ _ =>
      Backend.is_scraping s = true ∧ Backend.current s = 0%nat
      ∧ Backend.requested job = []
  | Backend.LoopHead _ i _ _ =>
      Backend.is_scraping s = true ∧ Backend.current s = i
      ∧ length (Backend.requested job) = i
  | Backend.Body _ i _ _ _ =>
      Backend.is_scraping s = true ∧ Backend.current s = (i + 1)%nat
      ∧ length (Backend.requested job) = i
  | Backend.AfterLoop => Backend.is_scraping s = true
  end.

(** What holds once the signal is set in the loop after [k] pages, [urls]
    being the pages of the loop and [records] the data at that time. *)
Definition halting (k : nat) (urls : list string) (records : list Backend.PantryData)
    (job : Backend.Job) : Prop :=
  let s := Backend.scraping_state job in
  Backend.stop_event s = true
  ∧ records `prefix_of` Backend.data s
  ∧ match Backend.worker job with
    | Backend.Body _ i _ url rest =>
        i = k ∧ Backend.current s = (k + 1)%nat
        ∧ (Backend.requested job ++ url :: rest)%list = urls
        ∧ length (Backend.requested job) = k
    | Backend.LoopHead _ i _ rest =>
        Backend.current s = i ∧ (i ≤ k + 1)%nat
        ∧ (Backend.requested job ++ rest)%list = urls
        ∧ length (Backend.requested job) = i
    | Backend.AfterLoop | Backend.NoThread =>
        (Backend.current s ≤ k + 1)%nat
        ∧ (length (Backend.requested job) ≤ k + 1)%nat
        ∧ Backend.requested job `prefix_of` urls
    | _ => False
    end.

(** The worker steps the job still needs to end once the signal is set. *)
Definition steps_left (job : Backend.Job) : nat :=
  match Backend.worker job with
  | Backend.Begin _ _ _ => 4
  | Backend.Discover _ _ _ | Backend.Body _ _ _ _ _ => 3
  | Backend.LoopHead _ _ _ _ => 2
  | Backend.AfterLoop => 1
  | Backend.NoThread => 0
  end.

(** The signal is set and the worker is past the point where it clears
    it. *)
Definition armed (job : Backend.Job) : Prop :=
  Backend.stop_event (Backend.scraping_state job) = true
  ∧ match Backend.worker job with Backend.Begin _ _ _ => False | _ => True end.

(** The job ends, or will end, with the status "Stopped by user". *)
Definition stops (job : Backend.Job) : Prop :=
  match Backend.worker job with
  | Backend.Body _ _ _ _ (_ :: _) => True
  | Backend.LoopHead _ _ _ (_ :: _) => True
  | Backend.AfterLoop | Backend.NoThread =>
      Backend.status (Backend.scraping_state job) = Backend.StoppedByUser
  | _ => False
  end.

(** What holds once the signal is set while the worker looks for the pages
    of the state. *)
Definition halting_discovery (job : Backend.Job) : Prop :=
  let s := Backend.scraping_state job in
  Backend.stop_event s = true ∧ Backend.current s = 0%nat
  ∧ Backend.requested job = []
  ∧ match Backend.worker job with
    | Backend.Discover _ _ _ | Backend.LoopHead _ 0 _ _ | Backend.AfterLoop
    | Backend.NoThread => True
    | _ => False
    end.

Definition no_start (events : list Backend.event) : Prop :=
  Forall (fun e => Backend.is_start e = false) events.

(** ** Definitions for the store and its records *)

(** The length of a field, an absent value counting for nothing. *)
Definition value_len (o : option string) : nat :=
  match o with Some s => len s | None => 0%nat end.

(** The merge of a run of records, the first being the stored one. *)
Definition merged (records : list Pantry) : option Pantry :=
  match records with
  | [] => None
  | p :: rest => Some (fold_left merge_with rest p)
  end.

(** What [add_pantry] leaves under a key that held [stored]. *)
Definition absorb (stored : option Pantry) (p : Pantry) : option Pantry :=
  match stored with
  | Some existing => Some (merge_with existing p)
  | None => Some p
  end.

(** A record with the four inputs of its fingerprint in normal form. *)
Definition normalized (p : Pantry) : Pantry :=
  {| name := name_norm p; address := Some (addr_norm p); city := city p;
     state := state p; zip := Some (zip_or_empty p);
     phone := Some (phone_norm p); fax := fax p; email := email p;
     website := website p; hours := hours p; description := description p;
     requirements := requirements p; source_url := source_url p;
     source_site := source_site p |}.

(** The characters of a hexadecimal digest in lower case. *)
Definition is_hex_char (c : ascii) : bool :=
  let n := code c in
  ((48 <=? n) && (n <=? 57) || (97 <=? n) && (n <=? 102))%N.

Fixpoint all_chars (f : ascii -> bool) (s : string) : bool :=
  match s with
  | EmptyString => true
  | String c r => f c && all_chars f r
  end.

(** One count of [get_stats] is at most another, field by field. *)
Definition stats_le (a b : Stats) : Prop :=
  (total a ≤ total b ∧ with_website a ≤ with_website b
   ∧ with_phone a ≤ with_phone b ∧ with_email a ≤ with_email b
   ∧ with_hours a ≤ with_hours b)%nat.

(** ** Definitions for the background job *)




(** The counters of a job with one run: records, pages started, pages in
    all. *)
Definition progress_inv (job : Backend.Job) : Prop :=
  let s := Backend.scraping_state job in
  match Backend.worker job with
  | Backend.Begin _ _ _ | Backend.Discover _ _ _ =>
      Backend.current s = 0%nat ∧ Backend.total s = 0%nat ∧ Backend.data s = []
  | Backend.LoopHead _ i n rest =>
      Backend.current s = i ∧ Backend.total s = n
      ∧ (i + length rest = n)%nat ∧ (length (Backend.data s) ≤ i)%nat
  | Backend.Body _ i n _ rest =>
      Backend.current s = (i + 1)%nat ∧ Backend.total s = n
      ∧ (i + 1 + length rest = n)%nat ∧ (length (Backend.data s) ≤ i)%nat
  | Backend.AfterLoop | Backend.NoThread =>
      (length (Backend.data s) ≤ Backend.current s)%nat
      ∧ (Backend.current s ≤ Backend.total s)%nat
  end.



(** ** Definitions for the links of a page *)

(** The links the backend takes for the web site of a pantry. *)
Definition backend_is_external (link : Anchor) : bool :=
  negb (contains "mailto:" (href link)) && startswith "http" (href link)
  && negb (contains "foodpantries.org" (href link)).

(** The links the 211 scraper takes for the web site of a pantry. *)
Definition n211_is_website (link : Anchor) : bool :=
  startswith "http" (href link) && negb (contains "communityos.org" (href link))
  && negb (contains "211" (href link))
  && (contains "website" (lower (strip (anchor_text link)))
      || contains "visit" (lower (strip (anchor_text link)))
      || contains "home" (lower (strip (anchor_text link)))).

(** ** Definitions for the pages of a state *)

(** [link] is on the page [soup] and its target contains [marker]. *)
Definition marked_link (marker : string) (soup : Soup) (link : Anchor) : Prop :=
  link ∈ find_all_a soup ∧ contains marker (href link) = true.

(** [pantry_url] is the target of a detail link on a city page that answers
    and that the state page at [state_url] links to. *)
Definition listed `{Web} (state_url pantry_url : string) : Prop :=
  ∃ soup city_link city_soup link,
    fetch state_url = Some soup
    ∧ marked_link "/ci/" soup city_link
    ∧ fetch (absolute (href city_link)) = Some city_soup
    ∧ marked_link "/li/" city_soup link
    ∧ pantry_url = absolute (href link).

(** ** Definitions for the coordinator *)

(** The sources [scrape_state] has a scraper for. *)
Definition known_source (source : string) : bool :=
  String.eqb source "foodpantries.org"
  || (startswith "211-" source
      && bool_decide (is_Some (network211_base_url (remove_all "211-" source)))).

(** Every stored record has a name. *)
Definition named (db : DeduplicatedPantryDatabase) : Prop :=
  ∀ k r, pantries db !! k = Some r → truthy (name r) = true.

(** The number of records counted, over all sites. *)
Definition count_total (counts : gmap (option string) nat) : nat :=
  sum_list_with snd (map_to_list counts).

(** The count of one site, as [source_counts.get(source, 0)]. *)
Definition count_of (counts : gmap (option string) nat) (source : option string)
  : nat :=
  default 0%nat (counts !! source).

(** Sites with one state and ten search results. *)
Definition example_sites : Sites :=
  {| get_state_urls :=
       {["Wisconsin" := ("https://www.foodpantries.org/st/wisconsin", 10%Z)]};
     search_links := fun _ => Some ten_urls |}.

(** * Properties *)

(** ** Test vectors *)

Example md5_empty : MD5.hexdigest [] = "d41d8cd98f00b204e9800998ecf8427e".
Proof. vm_compute. reflexivity. Qed.

Example md5_abc : MD5.hexdigest (PyStr.encode "abc") = "900150983cd24fb0d6963f7d28e17f72".
Proof. vm_compute. reflexivity. Qed.

Example md5_two_blocks :
  MD5.hexdigest (repeat 97%Z 119) = "8a7bd0732ed6a28ce75f6dabc90e1613".
Proof. vm_compute. reflexivity. Qed.

Example md5_56 :
  MD5.hexdigest (repeat 97%Z 56) = "3b0c8ac703f828b04c6c197006d17218".
Proof. vm_compute. reflexivity. Qed.

Example md5_64 :
  MD5.hexdigest (repeat 97%Z 64) = "014842d480b571495a4a0363793f7367".
Proof. vm_compute. reflexivity. Qed.

Example encode_two_bytes :
  MD5.hexdigest (PyStr.encode (String (ascii_of_N 233) "x"))
  = "6d22e307ebc8f6b11b572685b9f8b4cc".
Proof. vm_compute. reflexivity. Qed.

(** ** Merging *)

Lemma merge_str_idem (x : string) : merge_str x x = x.
Proof.
  unfold merge_str. destruct (truthy x); simpl; [|done].
  by rewrite Nat.leb_refl.
Qed.

Lemma merge_opt_idem (v : option string) : merge_opt v v = v.
Proof.
  destruct v as [x|]; simpl; [|done].
  destruct (truthy x); simpl; [|done].
  by rewrite Nat.leb_refl.
Qed.

Lemma merge_with_idempotent (r : Pantry) : merge_with r r = r.
Proof.
  destruct r. unfold merge_with. simpl.
  by rewrite merge_str_idem, !merge_opt_idem.
Qed.

Ltac merge_cases x y :=
  let Hx := fresh "Hx" in
  let Hy := fresh "Hy" in
  let Hl := fresh "Hl" in
  destruct (truthy x) eqn:Hx, (truthy y) eqn:Hy, (len y <=? len x)%nat eqn:Hl;
  simpl;
  repeat (progress (rewrite ?Hx, ?Hy, ?Hl, ?Nat.leb_refl; simpl));
  try done.

Lemma merge_str_absorb (x y : string) :
  merge_str (merge_str x y) y = merge_str x y.
Proof. unfold merge_str. merge_cases x y. Qed.

Lemma merge_opt_absorb (a b : option string) :
  merge_opt (merge_opt a b) b = merge_opt a b.
Proof.
  destruct a as [x|], b as [y|]; simpl; try done.
  - merge_cases x y.
  - destruct (truthy x) eqn:Hx; simpl; by rewrite ?Hx.
  - destruct (truthy y) eqn:Hy; simpl; by rewrite ?Nat.leb_refl.
Qed.

Lemma merge_with_absorb (e r : Pantry) :
  merge_with (merge_with e r) r = merge_with e r.
Proof.
  unfold merge_with. simpl.
  by rewrite merge_str_absorb, !merge_opt_absorb.
Qed.

Lemma merge_str_cases (x y : string) : merge_str x y = x ∨ merge_str x y = y.
Proof.
  unfold merge_str.
  destruct (truthy x), (truthy y); simpl; auto.
  destruct (len y <=? len x)%nat; auto.
Qed.

Lemma merge_opt_cases (a b : option string) :
  merge_opt a b = a ∨ merge_opt a b = b.
Proof.
  destruct a as [x|], b as [y|]; simpl; auto.
  - destruct (truthy x), (truthy y); simpl; auto.
    destruct (len y <=? len x)%nat; auto.
  - destruct (truthy x); auto.
Qed.

(** ** The store *)

Lemma consistent_elem (db : DeduplicatedPantryDatabase) (k : string) :
  consistent db → (k ∈ fingerprints db ↔ is_Some (pantries db !! k)).
Proof. unfold consistent. intros ->. apply elem_of_dom. Qed.

Lemma add_pantry_new (db : DeduplicatedPantryDatabase) (p : Pantry) :
  consistent db → pantries db !! get_fingerprint p = None →
  add_pantry db p =
    Returns (true, {| pantries := <[get_fingerprint p := p]> (pantries db);
                      fingerprints := {[get_fingerprint p]} ∪ fingerprints db |}).
Proof.
  intros Hc Hn. unfold add_pantry.
  destruct (decide _) as [Hin|]; [|done].
  apply (consistent_elem _ _ Hc) in Hin. rewrite Hn in Hin.
  by destruct Hin.
Qed.

Lemma add_pantry_dup (db : DeduplicatedPantryDatabase) (p stored : Pantry) :
  consistent db → pantries db !! get_fingerprint p = Some stored →
  add_pantry db p =
    Returns (false,
             {| pantries := <[get_fingerprint p := merge_with stored p]> (pantries db);
                fingerprints := fingerprints db |}).
Proof.
  intros Hc Hs. unfold add_pantry.
  destruct (decide _) as [|Hout]; [by rewrite Hs|].
  exfalso. apply Hout, (consistent_elem _ _ Hc). by rewrite Hs.
Qed.

Lemma add_pantry_consistent (db db' : DeduplicatedPantryDatabase) (p : Pantry) (b : bool) :
  consistent db → add_pantry db p = Returns (b, db') → consistent db'.
Proof.
  unfold consistent, add_pantry. intros Hc.
  destruct (decide _) as [Hin|Hout].
  - destruct (pantries db !! get_fingerprint p) eqn:Hl; [|done].
    intros [= <- <-]. simpl. rewrite dom_insert_L, <- Hc.
    apply set_eq. intros z. rewrite elem_of_union, elem_of_singleton.
    split; [auto | by intros [->|]].
  - intros [= <- <-]. simpl. by rewrite dom_insert_L, Hc.
Qed.

Lemma add_pantry_returns (db : DeduplicatedPantryDatabase) (p : Pantry) :
  consistent db →
  ∃ b db', add_pantry db p = Returns (b, db') ∧ consistent db'.
Proof.
  intros Hc. destruct (pantries db !! get_fingerprint p) as [stored|] eqn:Hl.
  - eexists _, _. split; [by apply add_pantry_dup|].
    eapply add_pantry_consistent; [done | by apply add_pantry_dup].
  - eexists _, _. split; [by apply add_pantry_new|].
    eapply add_pantry_consistent; [done | by apply add_pantry_new].
Qed.

Lemma entries_keys_nodup (db : DeduplicatedPantryDatabase) : NoDup (entries db).*1.
Proof. apply NoDup_fst_map_to_list. Qed.

Lemma entries_functional (db : DeduplicatedPantryDatabase) (k : string) (r1 r2 : Pantry) :
  (k, r1) ∈ entries db → (k, r2) ∈ entries db → r1 = r2.
Proof.
  unfold entries. rewrite !elem_of_map_to_list. congruence.
Qed.

Lemma get_all_length (db : DeduplicatedPantryDatabase) :
  length (get_all db) = size (pantries db).
Proof.
  unfold get_all, entries. by rewrite length_fmap, length_map_to_list.
Qed.

(** C1. On a store whose two fields name the same keys, [add_pantry] never
    raises.  When the fingerprint of [p] is not a key it inserts [p] under
    it and returns [True]; when a record is stored under it, that record is
    replaced by its merge with [p] and the result is [False].  Afterwards
    the store lists every fingerprint once, with one record, and the number
    of records has grown by one exactly when the result is [True]. *)
Theorem add_pantry_spec (db : DeduplicatedPantryDatabase) (p : Pantry) :
  consistent db →
  let fp := get_fingerprint p in
  (pantries db !! fp = None →
   add_pantry db p =
     Returns (true, {| pantries := <[fp := p]> (pantries db);
                       fingerprints := {[fp]} ∪ fingerprints db |}))
  ∧ (∀ stored, pantries db !! fp = Some stored →
     add_pantry db p =
       Returns (false, {| pantries := <[fp := merge_with stored p]> (pantries db);
                          fingerprints := fingerprints db |}))
  ∧ ∃ is_new db',
      add_pantry db p = Returns (is_new, db')
      ∧ consistent db'
      ∧ NoDup (entries db').*1
      ∧ (∀ k r1 r2, (k, r1) ∈ entries db' → (k, r2) ∈ entries db' → r1 = r2)
      ∧ length (get_all db') = (length (get_all db) + if is_new then 1 else 0)%nat.
Proof.
  intros Hc fp. split; [|split].
  - by apply add_pantry_new.
  - intros stored. by apply add_pantry_dup.
  - destruct (pantries db !! fp) as [stored|] eqn:Hl.
    + pose proof (add_pantry_dup db p stored Hc Hl) as Ha.
      eexists false, _. split; [exact Ha|].
      split; [by eapply add_pantry_consistent|].
      split; [apply entries_keys_nodup|].
      split; [apply entries_functional|].
      rewrite !get_all_length. simpl.
      rewrite map_size_insert_Some; [lia | by eauto].
    + pose proof (add_pantry_new db p Hc Hl) as Ha.
      eexists true, _. split; [exact Ha|].
      split; [by eapply add_pantry_consistent|].
      split; [apply entries_keys_nodup|].
      split; [apply entries_functional|].
      rewrite !get_all_length. simpl.
      rewrite map_size_insert_None; [lia | done].
Qed.

Lemma new_database_consistent : consistent new_database.
Proof. unfold consistent, new_database. simpl. by rewrite dom_empty_L. Qed.

Lemma add_pantry_spec_witness :
  consistent new_database
  ∧ ∃ is_new db', add_pantry new_database community_pantry = Returns (is_new, db')
                  ∧ consistent db'.
Proof.
  split; [exact new_database_consistent|].
  destruct (add_pantry_spec new_database community_pantry new_database_consistent)
    as (_ & _ & is_new & db' & Hadd & Hc & _).
  exists is_new, db'. split; assumption.
Defined.

(** C4. Merging a record with itself gives the record back.  On a store
    whose two fields name the same keys, a second [add_pantry] of the same
    record returns [False] and changes nothing: the store after the second
    call is the store after the first, so the number of records and the
    record under the fingerprint are the same. *)
Theorem add_pantry_twice (db : DeduplicatedPantryDatabase) (r : Pantry) :
  merge_with r r = r
  ∧ (consistent db →
     ∃ b1 db1 b2 db2,
       add_pantry db r = Returns (b1, db1)
       ∧ add_pantry db1 r = Returns (b2, db2)
       ∧ b2 = false
       ∧ length (get_all db2) = length (get_all db1)
       ∧ size (pantries db2) = size (pantries db1)
       ∧ pantries db2 !! get_fingerprint r = pantries db1 !! get_fingerprint r
       ∧ db2 = db1).
Proof.
  split; [apply merge_with_idempotent|]. intros Hc.
  assert (∃ b1 db1 v, add_pantry db r = Returns (b1, db1)
                      ∧ pantries db1 !! get_fingerprint r = Some v
                      ∧ merge_with v r = v) as (b1 & db1 & v & Ha & Hl & Hm).
  { destruct (pantries db !! get_fingerprint r) as [stored|] eqn:Hl.
    - eexists false, _, (merge_with stored r).
      split; [by apply add_pantry_dup|]. simpl.
      split; [apply lookup_insert_eq | apply merge_with_absorb].
    - eexists true, _, r.
      split; [by apply add_pantry_new|]. simpl.
      split; [apply lookup_insert_eq | apply merge_with_idempotent]. }
  pose proof (add_pantry_consistent _ _ _ _ Hc Ha) as Hc1.
  pose proof (add_pantry_dup db1 r v Hc1 Hl) as Ha2.
  rewrite Hm in Ha2. rewrite (insert_id _ _ _ Hl) in Ha2.
  exists b1, db1, false, db1.
  destruct db1. simpl in *. done.
Qed.

Lemma add_pantry_twice_witness :
  consistent new_database
  ∧ ∃ is_new db1,
      add_pantry new_database community_pantry = Returns (is_new, db1)
      ∧ add_pantry db1 community_pantry = Returns (false, db1).
Proof.
  split; [exact new_database_consistent|].
  destruct (proj2 (add_pantry_twice new_database community_pantry)
              new_database_consistent)
    as (b1 & db1 & b2 & db2 & H1 & H2 & -> & _ & _ & _ & ->).
  exists b1, db1. split; [exact H1 | exact H2].
Defined.

(** ** Fingerprints *)

(** Lower-casing and trimming can be done in either order. *)
Lemma isspace_lower_char (c : ascii) : isspace (lower_char c) = isspace c.
Proof. destruct c as [[] [] [] [] [] [] [] []]; reflexivity. Qed.

Lemma lstrip_lower (s : string) : lstrip (lower s) = lower (lstrip s).
Proof.
  induction s as [|c s IH]; [done|]. simpl.
  rewrite isspace_lower_char. by destruct (isspace c).
Qed.

Lemma rstrip_lower (s : string) : rstrip (lower s) = lower (rstrip s).
Proof.
  induction s as [|c s IH]; [done|]. simpl. rewrite IH.
  destruct (rstrip s); simpl; [|done].
  rewrite isspace_lower_char. by destruct (isspace c).
Qed.

Lemma lower_trim_order (s : string) : lower_trim s = lower (strip s).
Proof. unfold lower_trim, strip. by rewrite lstrip_lower, rstrip_lower. Qed.

Lemma name_norm_spec (p : Pantry) : name_norm p = lower_trim (name p).
Proof. unfold name_norm, lower_trim. by destruct (name p). Qed.

Lemma addr_norm_spec (p : Pantry) :
  addr_norm p = lower_trim (absent_as_empty (address p)).
Proof. unfold addr_norm, lower_trim. by destruct (address p) as [[|]|]. Qed.

Lemma phone_norm_spec (p : Pantry) :
  phone_norm p = digit_sequence (absent_as_empty (phone p)).
Proof. unfold phone_norm, digit_sequence. by destruct (phone p) as [[|]|]. Qed.

Lemma zip_or_empty_spec (p : Pantry) : zip_or_empty p = absent_as_empty (zip p).
Proof. unfold zip_or_empty. by destruct (zip p) as [[|]|]. Qed.

(** C2. Two records whose names agree after lower-casing and trimming,
    whose addresses agree after lower-casing and trimming, whose phone
    numbers have the same digits and whose zip fields are equal, an absent
    value counting as the empty string, have the same fingerprint. *)
Theorem fingerprint_stable (p q : Pantry) :
  lower_trim (name p) = lower_trim (name q) →
  lower_trim (absent_as_empty (address p)) = lower_trim (absent_as_empty (address q)) →
  digit_sequence (absent_as_empty (phone p)) = digit_sequence (absent_as_empty (phone q)) →
  absent_as_empty (zip p) = absent_as_empty (zip q) →
  get_fingerprint p = get_fingerprint q.
Proof.
  intros Hn Ha Hp Hz. unfold get_fingerprint, fingerprint_str.
  rewrite !name_norm_spec, !addr_norm_spec, !phone_norm_spec, !zip_or_empty_spec.
  by rewrite Hn, Ha, Hp, Hz.
Qed.

Lemma fingerprint_stable_witness :
  name community_pantry ≠ name community_pantry_211
  ∧ phone community_pantry ≠ phone community_pantry_211
  ∧ get_fingerprint community_pantry = get_fingerprint community_pantry_211
  ∧ get_fingerprint community_pantry = "eaa095db1159ccc63d724cf5f03707f0".
Proof.
  split; [discriminate|]. split; [discriminate|].
  split.
  - apply (fingerprint_stable community_pantry community_pantry_211);
      vm_compute; reflexivity.
  - vm_compute. reflexivity.
Defined.

(** ** The merge policy, field by field *)

Lemma merge_with_getattr (a b : Pantry) (f : field) :
  getattr (merge_with a b) f = merge_opt (getattr a f) (getattr b f).
Proof.
  destruct f; try reflexivity.
  simpl. unfold merge_str.
  destruct (truthy (name a)), (truthy (name b)); simpl; try done.
  by destruct (len (name b) <=? len (name a))%nat.
Qed.

Lemma truthy_false (x : string) : truthy x = false → x = "".
Proof. by destruct x. Qed.

Lemma merge_opt_policy (a b : option string) :
  merge_opt a b = merge_policy_of_code a b.
Proof.
  unfold merge_policy_of_code.
  destruct a as [x|], b as [y|]; simpl; try done.
  - destruct (truthy x) eqn:Hx, (truthy y) eqn:Hy; simpl.
    + by destruct x.
    + apply truthy_false in Hy as ->. destruct x; [done|]. simpl. done.
    + apply truthy_false in Hx as ->. by destruct y.
    + apply truthy_false in Hx as ->. by apply truthy_false in Hy as ->.
  - by destruct x.
Qed.

(** C3, as the specification states it, fails where the stored record holds
    an empty string and the incoming one holds nothing: [merge_with] then
    leaves the field absent, while the policy keeps the one present
    value. *)
Lemma merge_policy_counterexample :
  getattr empty_address_pantry f_address = Some ""
  ∧ getattr (blank_pantry "Community Pantry") f_address = None
  ∧ getattr (merge_with empty_address_pantry (blank_pantry "Community Pantry")) f_address
    = None
  ∧ getattr (merge_with empty_address_pantry (blank_pantry "Community Pantry")) f_address
    ≠ merge_policy (getattr empty_address_pantry f_address)
                   (getattr (blank_pantry "Community Pantry") f_address).
Proof. repeat split. discriminate. Qed.

(** C3, as the code has it.  For every pair of records and every field,
    [merge_with] keeps the longer value when both are present, the stored
    one on equal lengths, the present value when one is present, and nothing
    when none is, except that a stored empty string merged with an absent
    value gives an absent value.  When the stored record has phone
    "555-0100" and no web site and the incoming one has web site
    "http://x.org" and no phone, or the other way round, the merged record
    has both. *)
Theorem merge_with_policy (a b : Pantry) (f : field) :
  getattr (merge_with a b) f = merge_policy_of_code (getattr a f) (getattr b f)
  ∧ (website a = None → phone a = Some "555-0100" →
     website b = Some "http://x.org" → phone b = None →
     (website (merge_with a b) = Some "http://x.org"
      ∧ phone (merge_with a b) = Some "555-0100")
     ∧ (website (merge_with b a) = Some "http://x.org"
        ∧ phone (merge_with b a) = Some "555-0100")).
Proof.
  split.
  - rewrite merge_with_getattr. apply merge_opt_policy.
  - intros Hwa Hpa Hwb Hpb. simpl. by rewrite Hwa, Hpa, Hwb, Hpb.
Qed.

Lemma merge_with_policy_witness :
  website (merge_with phone_only_pantry website_only_pantry) = Some "http://x.org"
  ∧ phone (merge_with phone_only_pantry website_only_pantry) = Some "555-0100".
Proof.
  exact (proj1 (proj2 (merge_with_policy phone_only_pantry website_only_pantry f_website)
                  eq_refl eq_refl eq_refl eq_refl)).
Defined.

(** ** Reachable stores *)

Lemma fingerprint_of_str (p q : Pantry) :
  fingerprint_str p = fingerprint_str q → get_fingerprint p = get_fingerprint q.
Proof. unfold get_fingerprint. by intros ->. Qed.

Lemma fingerprint_of_inputs (p q : Pantry) :
  fp_inputs p = fp_inputs q → get_fingerprint p = get_fingerprint q.
Proof.
  unfold fp_inputs. intros [= Hn Ha Hp Hz].
  apply fingerprint_of_str. unfold fingerprint_str. by rewrite Hn, Ha, Hp, Hz.
Qed.

Lemma merge_fp_inputs (a b : Pantry) :
  fp_inputs a = fp_inputs b → fp_inputs (merge_with a b) = fp_inputs a.
Proof.
  unfold fp_inputs, name_norm, addr_norm, phone_norm, zip_or_empty.
  cbn [merge_with name address phone zip].
  intros [= Hn Ha Hp Hz].
  destruct (merge_str_cases (name a) (name b)) as [-> | ->],
           (merge_opt_cases (address a) (address b)) as [-> | ->],
           (merge_opt_cases (phone a) (phone b)) as [-> | ->],
           (merge_opt_cases (zip a) (zip b)) as [-> | ->];
    by rewrite ?Hn, ?Ha, ?Hp, ?Hz.
Qed.

Section Reachable.
Variable P : Pantry → Prop.

Lemma add_pantry_keys_from db p :
  consistent db → keys_from P db → P p →
  ∃ b db', add_pantry db p = Returns (b, db') ∧ consistent db' ∧ keys_from P db'.
Proof.
  intros Hc Hk Hp.
  destruct (add_pantry_returns db p Hc) as (b & db' & Ha & Hc').
  exists b, db'. split; [done|]. split; [done|].
  intros k r. revert Ha. unfold add_pantry.
  destruct (decide _); [destruct (pantries db !! get_fingerprint p)|];
    intros [= <- <-] || done; simpl;
    (destruct (decide (get_fingerprint p = k)) as [<-|Hne];
     [intros _; by exists p | rewrite lookup_insert_ne by done; apply Hk]).
Qed.

Lemma add_all_keys_from ps :
  (∀ p, p ∈ ps → P p) →
  ∀ db, consistent db → keys_from P db →
  ∃ db', add_all ps db = Returns db' ∧ consistent db' ∧ keys_from P db'.
Proof.
  induction ps as [|p ps IH]; intros HP db Hc Hk; simpl.
  - by exists db.
  - destruct (add_pantry_keys_from db p Hc Hk) as (b & db1 & -> & Hc1 & Hk1).
    { apply HP. by left. }
    apply IH; [|done|done]. intros q Hq. apply HP. by right.
Qed.

Hypothesis P_separated :
  ∀ p q, P p → P q → get_fingerprint p = get_fingerprint q →
         fp_inputs p = fp_inputs q.

Lemma add_pantry_inputs_from db p b db' :
  inputs_from P db → P p → add_pantry db p = Returns (b, db') → inputs_from P db'.
Proof.
  intros Hi Hp. unfold add_pantry.
  destruct (decide _).
  - destruct (pantries db !! get_fingerprint p) as [existing|] eqn:Hl; [|done].
    intros [= <- <-] k r. simpl.
    destruct (decide (get_fingerprint p = k)) as [<-|Hne].
    + rewrite lookup_insert_eq. intros [= <-].
      destruct (Hi _ _ Hl) as (p0 & Hp0 & Hfp & Hin).
      exists p0. split; [done|]. split; [done|].
      rewrite merge_fp_inputs; [done|].
      rewrite Hin. by apply P_separated.
    + rewrite lookup_insert_ne by done. apply Hi.
  - intros [= <- <-] k r. simpl.
    destruct (decide (get_fingerprint p = k)) as [<-|Hne].
    + rewrite lookup_insert_eq. intros [= <-]. by exists p.
    + rewrite lookup_insert_ne by done. apply Hi.
Qed.

Lemma add_all_inputs_from ps :
  (∀ p, p ∈ ps → P p) →
  ∀ db db', inputs_from P db → add_all ps db = Returns db' → inputs_from P db'.
Proof.
  induction ps as [|p ps IH]; intros HP db db' Hi; simpl.
  - by intros [= <-].
  - destruct (add_pantry db p) as [[b db1]|] eqn:Ha; [|done].
    apply IH; [intros q Hq; apply HP; by right|].
    eapply add_pantry_inputs_from; [done| |done]. apply HP. by left.
Qed.
End Reachable.

(** C10, as the specification states it, fails: two records can share a
    fingerprint while their merge has another one.  After [hope_pantry] and
    [hope_main_pantry] are added to an empty store, the record under their
    common key has another fingerprint. *)
Lemma stored_fingerprint_counterexample :
  ∃ db k r,
    add_all [hope_pantry; hope_main_pantry] new_database = Returns db
    ∧ fingerprints db = dom (pantries db)
    ∧ pantries db !! k = Some r
    ∧ get_fingerprint r ≠ k.
Proof.
  assert (get_fingerprint hope_main_pantry = get_fingerprint hope_pantry) as Heq.
  { apply fingerprint_of_str. vm_compute. reflexivity. }
  pose proof (add_pantry_new new_database hope_pantry new_database_consistent
                (lookup_empty _)) as H1.
  pose proof (add_pantry_consistent _ _ _ _ new_database_consistent H1) as Hc1.
  assert (pantries {| pantries := <[get_fingerprint hope_pantry := hope_pantry]> ∅;
                      fingerprints := {[get_fingerprint hope_pantry]} ∪ ∅ |}
            !! get_fingerprint hope_main_pantry = Some hope_pantry) as Hl.
  { rewrite Heq. apply lookup_insert_eq. }
  pose proof (add_pantry_dup _ hope_main_pantry hope_pantry Hc1 Hl) as H2.
  pose proof (add_pantry_consistent _ _ _ _ Hc1 H2) as Hc2.
  eexists _, (get_fingerprint hope_main_pantry), (merge_with hope_pantry hope_main_pantry).
  split.
  { unfold add_all. rewrite H1, H2. reflexivity. }
  split; [exact Hc2|].
  split; [apply lookup_insert_eq|].
  assert (get_fingerprint (merge_with hope_pantry hope_main_pantry)
          = "10959e454e0c06d91f592106bc99b161") as ->
    by (vm_compute; reflexivity).
  assert (get_fingerprint hope_main_pantry = "201a76c528f225784ae73f4dcb4f09ff") as ->
    by (vm_compute; reflexivity).
  discriminate.
Qed.

Lemma new_database_keys_from (P : Pantry → Prop) : keys_from P new_database.
Proof. intros k r. simpl. by rewrite lookup_empty. Qed.

Lemma new_database_inputs_from (P : Pantry → Prop) : inputs_from P new_database.
Proof. intros k r. simpl. by rewrite lookup_empty. Qed.

(** C10, as the code has it.  A sequence of [add_pantry] calls on an empty
    store never raises.  In the store it reaches, the set [fingerprints] is
    the key set of [pantries] and every key is the fingerprint of one of the
    records added.  When any two added records with the same fingerprint
    also have the same normalised name, address, phone digits and zip, every
    stored record has the key it is stored under for fingerprint. *)
Theorem reachable_store_invariant (ps : list Pantry) :
  ∃ db,
    add_all ps new_database = Returns db
    ∧ fingerprints db = dom (pantries db)
    ∧ (∀ k r, pantries db !! k = Some r → ∃ p, p ∈ ps ∧ get_fingerprint p = k)
    ∧ ((∀ p q, p ∈ ps → q ∈ ps → get_fingerprint p = get_fingerprint q →
               fp_inputs p = fp_inputs q) →
       ∀ k r, pantries db !! k = Some r → get_fingerprint r = k).
Proof.
  destruct (add_all_keys_from (λ p, p ∈ ps) ps (λ p H, H) new_database
              new_database_consistent (new_database_keys_from _))
    as (db & Ha & Hc & Hk).
  exists db. split; [done|]. split; [done|]. split; [done|].
  intros Hsep k r Hl.
  destruct (add_all_inputs_from (λ p, p ∈ ps) Hsep ps (λ p H, H) new_database db
              (new_database_inputs_from _) Ha k r Hl) as (p & _ & <- & Hin).
  by apply fingerprint_of_inputs.
Qed.

Lemma reachable_store_invariant_witness :
  ∃ db,
    add_all [community_pantry; community_pantry_211] new_database = Returns db
    ∧ ∀ k r, pantries db !! k = Some r → get_fingerprint r = k.
Proof.
  destruct (reachable_store_invariant [community_pantry; community_pantry_211])
    as (db & Ha & _ & _ & Hfp).
  exists db. split; [exact Ha|].
  apply Hfp. intros p q Hp Hq _.
  assert (∀ x, x ∈ [community_pantry; community_pantry_211] →
               fp_inputs x = fp_inputs community_pantry) as Hall.
  { intros x Hx. apply list_elem_of_In in Hx.
    destruct Hx as [<- | [<- | []]]; vm_compute; reflexivity. }
  rewrite (Hall p Hp), (Hall q Hq). reflexivity.
Defined.

(** ** Extraction *)

(** The extraction example of the specification. *)
Example cascade_extraction_example :
  @scrape_pantry_details example_web "https://www.foodpantries.org/li/pantry-1"
  = Some {| name := "Community Pantry"; address := Some "123 Elm St";
            city := Some "Springfield"; state := Some "IL"; zip := Some "62701";
            phone := Some "(217) 555-0100"; fax := None;
            email := Some "info@communitypantry.org";
            website := Some "https://communitypantry.org/about/";
            hours := None; description := None; requirements := None;
            source_url := Some "https://www.foodpantries.org/li/pantry-1";
            source_site := Some "foodpantries.org" |}.
Proof. vm_compute. reflexivity. Qed.

(** *** Names *)

Lemma scrape_pantry_details_named `{Web} (pantry_url : string) (p : Pantry) :
  scrape_pantry_details pantry_url = Some p → truthy (name p) = true.
Proof.
  unfold scrape_pantry_details.
  destruct (fetch pantry_url) as [soup|]; [|done].
  destruct (re_search _ [MULTILINE] _) as [m|]; [|done].
  destruct (truthy (strip (m 1%nat))) eqn:Hn; simpl; [|done].
  destruct (scan_links _ _). by intros [= <-].
Qed.

Lemma scrape_pantry_details_no_name `{Web} (pantry_url : string) (soup : Soup) :
  fetch pantry_url = Some soup →
  (∀ m, re_search "^([^\n]+)\s*Contact Information" [MULTILINE] (get_text soup) = Some m →
        strip (m 1%nat) = "") →
  scrape_pantry_details pantry_url = None.
Proof.
  intros Hf Hn. unfold scrape_pantry_details. rewrite Hf.
  destruct (re_search _ [MULTILINE] _) as [m|]; [|done].
  by rewrite (Hn m eq_refl).
Qed.

Lemma scrape_pantry_detail_named `{Web} (region url : string) (p : Pantry) :
  scrape_pantry_detail region url = Some p → truthy (name p) = true.
Proof.
  unfold scrape_pantry_detail.
  destruct (fetch url) as [soup|]; [|done].
  destruct (n211_name soup) as [n|]; [|done].
  destruct (truthy n) eqn:Hn; simpl; [|done].
  by intros [= <-].
Qed.

Lemma scrape_pantry_detail_no_name `{Web} (region url : string) (soup : Soup) :
  fetch url = Some soup → otruthy (n211_name soup) = false →
  scrape_pantry_detail region url = None.
Proof.
  intros Hf Hn. unfold scrape_pantry_detail. rewrite Hf.
  destruct (n211_name soup) as [n|]; [|done].
  simpl in Hn. by rewrite Hn.
Qed.

(** In the backend the record is returned whatever the name rule gave. *)
Lemma backend_scrape_returns `{Web} (pantry_url : string) (soup : Soup) :
  fetch pantry_url = Some soup →
  ∃ d, Backend.scrape_pantry_details pantry_url = Some d
       ∧ Backend.name d =
           (fun m : nat -> string => strip (m 1%nat)) <$>
             re_search "^([^\n]+)\s*Contact Information" [MULTILINE] (get_text soup).
Proof.
  intros Hf. unfold Backend.scrape_pantry_details. rewrite Hf.
  destruct (Backend.scan_links _ _ _). by eexists.
Qed.

(** C5 does not hold in the backend.  On a page on which the name rule
    does not match, here an empty page, [scrape_pantry_details] of the
    backend returns a record whose name is [None], and the worker appends
    that record to the data it hands out. *)
Theorem backend_record_without_name :
  ∃ d,
    @Backend.scrape_pantry_details blank_web "https://www.foodpantries.org/li/closed"
    = Some d
    ∧ Backend.name d = None
    ∧ Backend.data (Backend.scraping_state
        (@Backend.run blank_web
           [Backend.Start {| Backend.req_state := Some "Wisconsin";
                             Backend.req_limit := None;
                             Backend.req_geocode := true |};
            Backend.Tick; Backend.Tick; Backend.Tick; Backend.Tick; Backend.Tick;
            Backend.Tick]
           Backend.initial_job)) = [d]
    ∧ @scrape_pantry_details blank_web "https://www.foodpantries.org/li/closed" = None.
Proof. eexists. repeat split; vm_compute; reflexivity. Qed.

(** *** Contact links *)

#[local] Arguments startswith : simpl never.
#[local] Arguments contains : simpl never.
#[local] Arguments any_in : simpl never.
#[local] Arguments strip : simpl never.
#[local] Arguments lower : simpl never.
#[local] Arguments remove_all : simpl never.

Lemma contains_truthy (p s : string) :
  truthy p = true → contains p s = true → truthy s = true.
Proof. destruct p; [done|]. by destruct s. Qed.

Lemma scan_links_cons (link : Anchor) (rest : list Anchor) (email : option string) :
  scan_links (link :: rest) email =
    if is_mailto link then
      if contains "@" (mailto_address link) && negb (otruthy email)
      then scan_links rest (Some (mailto_address link))
      else scan_links rest email
    else if is_website_link link then (email, Some (strip (href link)))
    else scan_links rest email.
Proof.
  unfold is_website_link, is_external, has_indicator, is_mailto, mailto_address.
  cbn [scan_links].
  destruct (contains "mailto:" (strip (href link))); [done|].
  destruct (startswith "http" (strip (href link))); [|done].
  destruct (contains "foodpantries.org" (strip (href link))); [done|].
  cbn [negb andb].
  destruct (any_in _ _); [done|].
  by destruct (contains "website" _).
Qed.

Lemma mailto_not_website (link : Anchor) :
  is_mailto link = true → is_website_link link = false.
Proof. unfold is_website_link, is_external. by intros ->. Qed.

Lemma scan_links_found (links : list Anchor) (e : string) :
  truthy e = true → scan_links links (Some e) = (Some e, first_website links).
Proof.
  intros He. unfold first_website.
  induction links as [|link rest IH]; [done|].
  rewrite scan_links_cons. cbn [find otruthy]. rewrite He, andb_false_r.
  destruct (is_mailto link) eqn:Hm.
  - by rewrite (mailto_not_website _ Hm).
  - by destruct (is_website_link link).
Qed.

Lemma scan_links_spec (links : list Anchor) :
  scan_links links None = (first_mail_address (scanned links), first_website links).
Proof.
  unfold first_website, first_mail_address.
  induction links as [|link rest IH]; [done|].
  rewrite scan_links_cons. cbn [find scanned otruthy negb].
  rewrite andb_true_r.
  destruct (is_mailto link) eqn:Hm.
  - rewrite (mailto_not_website _ Hm). cbn [find].
    unfold is_mail_address at 1. rewrite Hm. cbn [andb].
    destruct (contains "@" (mailto_address link)) eqn:Hat; [|exact IH].
    rewrite scan_links_found; [done|].
    by apply (contains_truthy "@").
  - destruct (is_website_link link) eqn:Hw; cbn [find].
    + unfold is_mail_address. by rewrite Hm.
    + unfold is_mail_address at 1. rewrite Hm. exact IH.
Qed.

Lemma backend_scan_links_email_found (links : list Anchor) (e : string)
    (w : option string) :
  truthy e = true → (Backend.scan_links links (Some e) w).1 = Some e.
Proof.
  intros He. revert w.
  induction links as [|link rest IH]; intros w; [done|].
  cbn [Backend.scan_links].
  destruct (contains "mailto:" (href link)); simpl.
  - rewrite He, andb_false_r. apply IH.
  - destruct (startswith "http" (href link) && negb (contains "foodpantries.org" (href link)));
      [|apply IH].
    destruct w as [w|]; [|apply IH].
    destruct (negb (truthy w) || (len (href link) <? len w)%nat); apply IH.
Qed.

Lemma backend_scan_links_email (links : list Anchor) (w : option string) :
  (Backend.scan_links links None w).1 = backend_first_mail_address links.
Proof.
  unfold backend_first_mail_address. revert w.
  induction links as [|link rest IH]; intros w; [done|].
  cbn [Backend.scan_links find]. unfold backend_is_mail_address.
  destruct (contains "mailto:" (href link)); simpl.
  - destruct (contains "@" _) eqn:Hat; simpl; [|apply IH].
    apply backend_scan_links_email_found. by apply (contains_truthy "@").
  - destruct (startswith "http" (href link) && negb (contains "foodpantries.org" (href link)));
      [|apply IH].
    destruct w as [w|]; [|apply IH].
    destruct (negb (truthy w) || (len (href link) <? len w)%nat); apply IH.
Qed.

(** On the links of the example page the backend keeps the shortest
    external target, whatever the text of the link. *)
Example backend_scan_links_example :
  Backend.scan_links example_links None None
  = (Some "info@communitypantry.org", Some "https://cp.org")
  ∧ scan_links example_links None
    = (Some "info@communitypantry.org", Some "https://communitypantry.org/about/").
Proof. split; vm_compute; reflexivity. Qed.

(** C6, as the specification states it, fails on the mail address: with a
    first mail link that carries no address, the field holds the address of
    the second one. *)
Lemma first_mailto_counterexample :
  ∃ e, (scan_links example_links None).1 = Some e
       ∧ first_mailto example_links ≠ Some e.
Proof. exists "info@communitypantry.org". split; [reflexivity | discriminate]. Qed.

(** C6, as the code has it.  In [foodpantries-scraper.py] the web site is
    the target of the first link that is no mail link, starts with "http",
    does not contain "foodpantries.org" and whose text contains "website",
    "visit", "home" or "more info", or whose parent's text contains
    "website"; the mail address is that of the first mail link whose address
    contains "@" among the links read up to that web site link.  In the
    backend the mail address is that of the first mail link whose address
    contains "@".  A field with no such link is [None], and a page whose
    name is found gives a record with these two fields whatever its links
    are. *)
Theorem contact_links_spec `{Web} (links : list Anchor) :
  scan_links links None = (first_mail_address (scanned links), first_website links)
  ∧ (Backend.scan_links links None None).1 = backend_first_mail_address links
  ∧ ((∀ link, link ∈ links → is_website_link link = false) →
     (scan_links links None).2 = None)
  ∧ ((∀ link, link ∈ links → is_mail_address link = false) →
     (scan_links links None).1 = None)
  ∧ (∀ pantry_url soup m,
       fetch pantry_url = Some soup → find_all_a soup = links →
       re_search "^([^\n]+)\s*Contact Information" [MULTILINE] (get_text soup) = Some m →
       truthy (strip (m 1%nat)) = true →
       ∃ p, scrape_pantry_details pantry_url = Some p
            ∧ email p = first_mail_address (scanned links)
            ∧ website p = first_website links).
Proof.
  split; [apply scan_links_spec|].
  split; [apply backend_scan_links_email|].
  split; [|split].
  - intros Hno. rewrite scan_links_spec. simpl. unfold first_website.
    destruct (find is_website_link links) as [link|] eqn:Hf; [|done].
    apply find_some in Hf as [Hin Hw]. apply list_elem_of_In in Hin.
    by rewrite (Hno _ Hin) in Hw.
  - intros Hno. rewrite scan_links_spec. simpl. unfold first_mail_address.
    destruct (find is_mail_address (scanned links)) as [link|] eqn:Hf; [|done].
    apply find_some in Hf as [Hin Hw].
    assert (link ∈ links) as Hin'.
    { clear -Hin. induction links as [|l rest IH]; [done|].
      simpl in Hin. destruct (is_website_link l).
      - destruct Hin as [<-|[]]. by left.
      - destruct Hin as [<-|Hin]; [by left | right; by apply IH]. }
    by rewrite (Hno _ Hin') in Hw.
  - intros pantry_url soup m Hf Hl Hm Hn.
    unfold scrape_pantry_details. rewrite Hf, Hm, Hn, Hl, scan_links_spec.
    simpl. by eexists.
Qed.

Lemma contact_links_spec_witness :
  (scan_links example_links None).2 = Some "https://communitypantry.org/about/"
  ∧ ∃ p, @scrape_pantry_details example_web "https://www.foodpantries.org/li/pantry-1"
         = Some p
         ∧ email p = Some "info@communitypantry.org"
         ∧ website p = Some "https://communitypantry.org/about/".
Proof.
  pose proof (@contact_links_spec example_web example_links) as (Hs & _ & _ & _ & Hp).
  split; [by rewrite Hs|].
  destruct (Hp "https://www.foodpantries.org/li/pantry-1" example_soup
              (group_table ["Community Pantry" ++ nl ++ "Contact Information";
                            "Community Pantry"])
              eq_refl eq_refl eq_refl eq_refl) as (p & Hd & He & Hw).
  exists p. by rewrite Hd, He, Hw.
Defined.

(** *** Length caps *)

Section Cascade.
Context `{Web}.
Variables (flags : list re_flag) (group_of : string -> nat) (cap : nat)
          (page_text : string).

Lemma cascade_cons (pattern : string) (rest : list string) :
  cascade flags group_of cap page_text (pattern :: rest) =
    if accepted cap (capture flags group_of page_text pattern)
    then (capture flags group_of page_text pattern, [pattern])
    else ((cascade flags group_of cap page_text rest).1,
          pattern :: (cascade flags group_of cap page_text rest).2).
Proof.
  unfold capture. cbn [cascade].
  destruct (re_search pattern flags page_text) as [m|]; cbn [fmap option_fmap option_map accepted].
  - destruct (len (strip (m (group_of pattern))) <? cap)%nat; [done|].
    by destruct (cascade flags group_of cap page_text rest).
  - by destruct (cascade flags group_of cap page_text rest).
Qed.

Lemma cascade_some (patterns : list string) (v : string) :
  (cascade flags group_of cap page_text patterns).1 = Some v →
  (len v < cap)%nat
  ∧ ∃ pre p post,
      patterns = (pre ++ p :: post)%list
      ∧ (cascade flags group_of cap page_text patterns).2 = (pre ++ [p])%list
      ∧ capture flags group_of page_text p = Some v
      ∧ ∀ q, q ∈ pre → accepted cap (capture flags group_of page_text q) = false.
Proof.
  induction patterns as [|pattern rest IH]; [done|].
  rewrite cascade_cons.
  destruct (accepted cap (capture flags group_of page_text pattern)) eqn:Hacc;
    cbn [fst snd].
  - intros Hv. rewrite Hv in Hacc. simpl in Hacc.
    apply Nat.ltb_lt in Hacc. split; [done|].
    exists [], pattern, rest. repeat split; try done.
    intros q Hq. by apply elem_of_nil in Hq.
  - intros Hv. destruct (IH Hv) as (Hlen & pre & p & post & -> & Ht & Hc & Hpre).
    split; [done|].
    exists (pattern :: pre), p, post. rewrite Ht. repeat split; try done.
    intros q Hq. apply elem_of_cons in Hq as [-> | Hq]; [done | by apply Hpre].
Qed.

Lemma cascade_none (patterns : list string) :
  (cascade flags group_of cap page_text patterns).1 = None →
  (cascade flags group_of cap page_text patterns).2 = patterns
  ∧ ∀ q, q ∈ patterns → accepted cap (capture flags group_of page_text q) = false.
Proof.
  induction patterns as [|pattern rest IH].
  - intros _. split; [done|]. intros q Hq. by apply elem_of_nil in Hq.
  - rewrite cascade_cons.
    destruct (accepted cap (capture flags group_of page_text pattern)) eqn:Hacc;
      cbn [fst snd].
    + intros Hv. by rewrite Hv in Hacc.
    + intros Hv. destruct (IH Hv) as (-> & Hall). split; [done|].
      intros q Hq. apply elem_of_cons in Hq as [-> | Hq]; [done | by apply Hall].
Qed.

Lemma cascade_first_accepted (patterns : list string) :
  cascade flags group_of cap page_text patterns
  = (first_accepted flags group_of cap page_text patterns,
     attempted flags group_of cap page_text patterns).
Proof.
  induction patterns as [|pattern rest IH]; [done|].
  rewrite cascade_cons, IH. unfold first_accepted. cbn [find attempted fst snd].
  by destruct (accepted cap (capture flags group_of page_text pattern)).
Qed.

Lemma cascade_keep (pattern : string) (rest : list string) (t : string) :
  capture flags group_of page_text pattern = Some t → (len t < cap)%nat →
  cascade flags group_of cap page_text (pattern :: rest) = (Some t, [pattern]).
Proof.
  intros Hc Hl. rewrite cascade_cons, Hc. cbn [accepted].
  by destruct (Nat.ltb_spec (len t) cap); [|lia].
Qed.

Lemma cascade_discard (pattern : string) (rest : list string) (t : string) :
  capture flags group_of page_text pattern = Some t → (cap ≤ len t)%nat →
  cascade flags group_of cap page_text (pattern :: rest)
  = ((cascade flags group_of cap page_text rest).1,
     pattern :: (cascade flags group_of cap page_text rest).2).
Proof.
  intros Hc Hl. rewrite cascade_cons, Hc. simpl.
  by destruct (Nat.ltb_spec (len t) cap); [lia|].
Qed.
End Cascade.

Lemma fp_requirements_cap `{Web} (page_text r : string) :
  fp_requirements page_text = Some r → (len r < 500)%nat.
Proof.
  unfold fp_requirements.
  destruct (re_search _ _ _) as [m|]; [|done].
  destruct (Nat.ltb_spec (len (strip (m 1%nat))) 500); [|done].
  by intros [= <-].
Qed.

Lemma backend_requirements_cap `{Web} (page_text r : string) :
  Backend.extract_requirements page_text = Some r → (len r < 500)%nat.
Proof.
  unfold Backend.extract_requirements.
  destruct (re_search _ _ _) as [m|]; [|done].
  destruct (Nat.ltb_spec (len (strip (m 1%nat))) 500); [|done].
  by intros [= <-].
Qed.

(** C9.  In every cascade a capture at least as long as the cap, so every
    capture longer than it, is discarded and the next rule is tried: the
    value kept is shorter than the cap, it is the capture of the first rule
    in order whose capture is shorter than the cap, and the rules handed to
    [re.search] are those up to that one, none after it.  With no such rule
    the field is absent and every rule was tried.  A requirements capture of
    500 characters or more in [foodpantries-scraper.py] or the backend
    leaves the field absent.  Hence in a record of any of the three
    extractions hours and requirements have at most 500 characters and the
    description at most 1000.  A cascade returns the capture of the first
    rule whose capture is kept and attempts the rules up to that one; a
    capture shorter than the cap is kept at once.  In each of the three
    extractions hours, requirements and description are what their own
    rules give on the text of the page, in their order, with the cap 500,
    for the description 1000, and the first group, in the backend the whole
    match for its second hours rule; the two extractions that have no
    description rule leave the description absent. *)
Theorem cascade_length_guard `{Web} :
  (∀ flags group_of cap page_text patterns,
     let result := cascade flags group_of cap page_text patterns in
     (∀ v, result.1 = Some v →
        (len v < cap)%nat
        ∧ ∃ pre p post,
            patterns = (pre ++ p :: post)%list
            ∧ result.2 = (pre ++ [p])%list
            ∧ capture flags group_of page_text p = Some v
            ∧ ∀ q, q ∈ pre → accepted cap (capture flags group_of page_text q) = false)
     ∧ (result.1 = None →
        result.2 = patterns
        ∧ ∀ q, q ∈ patterns → accepted cap (capture flags group_of page_text q) = false))
  ∧ (∀ flags group_of cap page_text pattern rest t,
       capture flags group_of page_text pattern = Some t → (cap ≤ len t)%nat →
       cascade flags group_of cap page_text (pattern :: rest)
       = ((cascade flags group_of cap page_text rest).1,
          pattern :: (cascade flags group_of cap page_text rest).2))
  ∧ (∀ page_text t,
       capture [IGNORECASE] (fun _ => 1%nat) page_text
         "Requirements?:\s*([^\n]+(?:\n(?![A-Z][a-z]+:)[^\n]+)*)" = Some t →
       (500 ≤ len t)%nat →
       fp_requirements page_text = None
       ∧ Backend.extract_requirements page_text = None)
  ∧ (∀ pantry_url p,
       scrape_pantry_details pantry_url = Some p →
       (∀ h, hours p = Some h → (len h ≤ 500)%nat)
       ∧ (∀ r, requirements p = Some r → (len r ≤ 500)%nat)
       ∧ (∀ d, description p = Some d → (len d ≤ 1000)%nat))
  ∧ (∀ region url p,
       scrape_pantry_detail region url = Some p →
       (∀ h, hours p = Some h → (len h ≤ 500)%nat)
       ∧ (∀ r, requirements p = Some r → (len r ≤ 500)%nat)
       ∧ (∀ d, description p = Some d → (len d ≤ 1000)%nat))
  ∧ (∀ pantry_url d,
       Backend.scrape_pantry_details pantry_url = Some d →
       (∀ h, Backend.hours d = Some h → (len h ≤ 500)%nat)
       ∧ (∀ r, Backend.requirements d = Some r → (len r ≤ 500)%nat)
       ∧ (∀ t, Backend.description d = Some t → (len t ≤ 1000)%nat))
  ∧ (∀ flags group_of cap page_text patterns,
       cascade flags group_of cap page_text patterns
       = (first_accepted flags group_of cap page_text patterns,
          attempted flags group_of cap page_text patterns))
  ∧ (∀ flags group_of cap page_text pattern rest t,
       capture flags group_of page_text pattern = Some t → (len t < cap)%nat →
       cascade flags group_of cap page_text (pattern :: rest) = (Some t, [pattern]))
  ∧ (∀ page_text,
       fp_requirements page_text
       = first_accepted [IGNORECASE] (fun _ => 1%nat) 500 page_text
           [requirements_pattern]
       ∧ Backend.extract_requirements page_text
         = first_accepted [IGNORECASE] (fun _ => 1%nat) 500 page_text
             [requirements_pattern])
  ∧ (∀ pantry_url soup p,
       fetch pantry_url = Some soup → scrape_pantry_details pantry_url = Some p →
       hours p
       = first_accepted [IGNORECASE] (fun _ => 1%nat) 500 (get_text soup)
           fp_hours_patterns
       ∧ requirements p
         = first_accepted [IGNORECASE] (fun _ => 1%nat) 500 (get_text soup)
             [requirements_pattern]
       ∧ description p = None)
  ∧ (∀ region url soup p,
       fetch url = Some soup → scrape_pantry_detail region url = Some p →
       hours p
       = first_accepted [IGNORECASE] (fun _ => 1%nat) 500 (get_text_lines soup)
           n211_hours_patterns
       ∧ description p
         = first_accepted [IGNORECASE] (fun _ => 1%nat) 1000 (get_text_lines soup)
             n211_desc_patterns
       ∧ requirements p
         = first_accepted [IGNORECASE] (fun _ => 1%nat) 500 (get_text_lines soup)
             n211_req_patterns)
  ∧ (∀ pantry_url soup d,
       fetch pantry_url = Some soup →
       Backend.scrape_pantry_details pantry_url = Some d →
       Backend.hours d
       = first_accepted [IGNORECASE] Backend.hours_group 500 (get_text soup)
           Backend.hours_patterns
       ∧ Backend.hours_group <$> Backend.hours_patterns = [1%nat; 0%nat]
       ∧ Backend.requirements d
         = first_accepted [IGNORECASE] (fun _ => 1%nat) 500 (get_text soup)
             [requirements_pattern]
       ∧ Backend.description d = None).
Proof.
  assert (Hreq : ∀ page_text,
            fp_requirements page_text
            = first_accepted [IGNORECASE] (fun _ => 1%nat) 500 page_text
                [requirements_pattern]
            ∧ Backend.extract_requirements page_text
              = first_accepted [IGNORECASE] (fun _ => 1%nat) 500 page_text
                  [requirements_pattern]).
  { intros page_text.
    unfold fp_requirements, Backend.extract_requirements, first_accepted, capture,
      requirements_pattern.
    cbn [find].
    destruct (re_search _ [IGNORECASE] page_text) as [m|] eqn:Hre;
      cbn [fmap option_fmap option_map accepted]; [|done].
    destruct (len (strip (m 1%nat)) <? 500)%nat; [|done].
    by rewrite Hre. }
  split; [|split; [|split; [|split; [|split; [|split; [|split; [|split; [|split;
    [|split; [|split]]]]]]]]]].
  - intros flags group_of cap page_text patterns result. split.
    + apply cascade_some.
    + apply cascade_none.
  - intros. by eapply cascade_discard.
  - intros page_text t. unfold capture, fp_requirements, Backend.extract_requirements.
    destruct (re_search _ _ _) as [m|]; [|done].
    intros [= <-] Hl.
    by destruct (Nat.ltb_spec (len (strip (m 1%nat))) 500); [lia|].
  - intros pantry_url p. unfold scrape_pantry_details.
    destruct (fetch pantry_url) as [soup|]; [|done].
    destruct (re_search _ [MULTILINE] _) as [m|]; [|done].
    destruct (negb _); [done|].
    destruct (scan_links _ _). intros [= <-]. cbn [hours requirements description].
    split; [|split; [|done]].
    + intros h Hh. apply cascade_some in Hh as [Hl _]. lia.
    + intros r Hr. apply fp_requirements_cap in Hr. lia.
  - intros region url p. unfold scrape_pantry_detail.
    destruct (fetch url) as [soup|]; [|done].
    destruct (n211_name soup) as [n|]; [|done].
    destruct (negb _); [done|].
    intros [= <-]. cbn [hours requirements description].
    split; [|split].
    + intros h Hh. apply cascade_some in Hh as [Hl _]. lia.
    + intros r Hr. apply cascade_some in Hr as [Hl _]. lia.
    + intros d Hd. apply cascade_some in Hd as [Hl _]. lia.
  - intros pantry_url d. unfold Backend.scrape_pantry_details.
    destruct (fetch pantry_url) as [soup|]; [|done].
    destruct (Backend.scan_links _ _ _). intros [= <-].
    cbn [Backend.hours Backend.requirements Backend.description].
    split; [|split; [|done]].
    + intros h Hh. apply cascade_some in Hh as [Hl _]. lia.
    + intros r Hr. apply backend_requirements_cap in Hr. lia.
  - intros. apply cascade_first_accepted.
  - intros. by eapply cascade_keep.
  - exact Hreq.
  - intros pantry_url soup p Hf. unfold scrape_pantry_details. rewrite Hf.
    destruct (re_search _ [MULTILINE] _) as [m|]; [|done].
    destruct (negb _); [done|].
    destruct (scan_links _ _). intros [= <-]. cbn [hours requirements description].
    unfold fp_hours. rewrite cascade_first_accepted. cbn [fst].
    split; [done|]. split; [apply Hreq|done].
  - intros region url soup p Hf. unfold scrape_pantry_detail. rewrite Hf.
    destruct (n211_name soup) as [n|]; [|done].
    destruct (negb _); [done|].
    intros [= <-]. cbn [hours requirements description].
    unfold n211_hours, n211_description, n211_requirements.
    by rewrite !cascade_first_accepted.
  - intros pantry_url soup d Hf. unfold Backend.scrape_pantry_details. rewrite Hf.
    destruct (Backend.scan_links _ _ _). intros [= <-].
    cbn [Backend.hours Backend.requirements Backend.description].
    unfold Backend.extract_hours. rewrite cascade_first_accepted. cbn [fst].
    split; [done|]. split; [vm_compute; reflexivity|]. split; [apply Hreq|done].
Qed.

Lemma cascade_length_guard_witness :
  @n211_hours long_hours_web long_hours_text
  = (Some "9-5", n211_hours_patterns)
  ∧ ∃ p, @scrape_pantry_detail long_hours_web "wisconsin"
           "https://211wisconsin.communityos.org/zf/profile/1" = Some p
         ∧ hours p = Some "9-5"
         ∧ (len "9-5" ≤ 500)%nat.
Proof.
  pose proof (@cascade_length_guard long_hours_web) as (_ & Hdiscard & _ & _ & H211 & _).
  split.
  - unfold n211_hours, n211_hours_patterns.
    rewrite (Hdiscard [IGNORECASE] (fun _ => 1%nat) 500%nat long_hours_text _ _ long_line);
      [reflexivity | vm_compute; reflexivity | vm_compute; lia ].
  - eexists. split; [vm_compute; reflexivity|].
    split; [reflexivity|].
    eapply (proj1 (H211 "wisconsin" "https://211wisconsin.communityos.org/zf/profile/1"
                    _ ltac:(vm_compute; reflexivity))).
    reflexivity.
Defined.

(** ** Job control *)

Section JobControl.
Import Backend.

(** C8, as the specification states it, fails when the request names no
    state: nothing is reset, and no run starts. *)
Lemma start_without_state_counterexample :
  is_scraping (scraping_state finished_job) = false
  ∧ current (scraping_state finished_job) = 3%nat
  ∧ (start_scrape stateless_request finished_job).1 = Error400 "State is required"
  ∧ current (scraping_state (start_scrape stateless_request finished_job).2) ≠ 0%nat
  ∧ data (scraping_state (start_scrape stateless_request finished_job).2) ≠ []
  ∧ is_scraping (scraping_state (start_scrape stateless_request finished_job).2) = false.
Proof. vm_compute. repeat split; discriminate. Qed.

(** C8, as the code has it.  While a run is in progress a start request is
    rejected with the error "Scraping already in progress" and the job is
    left as it was.  When no run is in progress and the request names a
    state, start sets [current] and [total] to zero, empties the data, sets
    [is_scraping] and starts the worker.  When no run is in progress and the
    request names no state, it is rejected with "State is required" and the
    job is left as it was. *)
Theorem start_scrape_spec (request : ScrapeRequest) (job : Job) :
  (is_scraping (scraping_state job) = true →
   start_scrape request job = (Error400 "Scraping already in progress", job))
  ∧ (is_scraping (scraping_state job) = false →
     ∀ state, req_state request = Some state → truthy state = true →
     ∃ job',
       start_scrape request job = (Ok200 "Scraping started", job')
       ∧ is_scraping (scraping_state job') = true
       ∧ current (scraping_state job') = 0%nat
       ∧ total (scraping_state job') = 0%nat
       ∧ data (scraping_state job') = []
       ∧ status (scraping_state job') = Starting
       ∧ worker job' = Begin state (req_limit request) (req_geocode request))
  ∧ (is_scraping (scraping_state job) = false →
     otruthy (req_state request) = false →
     start_scrape request job = (Error400 "State is required", job)).
Proof.
  unfold start_scrape. split; [|split].
  - by intros ->.
  - intros -> state -> ->. simpl. by eexists.
  - intros ->. destruct (req_state request) as [state|]; simpl; [|done].
    by intros ->.
Qed.

Lemma start_scrape_spec_witness :
  (∃ job',
     start_scrape (wisconsin_request None) finished_job
     = (Ok200 "Scraping started", job')
     ∧ current (scraping_state job') = 0%nat
     ∧ data (scraping_state job') = [])
  ∧ start_scrape (wisconsin_request None)
      (start_scrape (wisconsin_request None) finished_job).2
    = (Error400 "Scraping already in progress",
       (start_scrape (wisconsin_request None) finished_job).2).
Proof.
  split.
  - destruct (proj1 (proj2 (start_scrape_spec (wisconsin_request None) finished_job))
                eq_refl "Wisconsin" eq_refl eq_refl)
      as (job' & Hs & _ & Hc & _ & Hd & _).
    exists job'. by rewrite Hs, Hc, Hd.
  - apply (proj1 (start_scrape_spec (wisconsin_request None)
                    (start_scrape (wisconsin_request None) finished_job).2)).
    reflexivity.
Defined.
End JobControl.

(** ** Cancellation *)

Section Cancellation.
Import Backend.
Context `{Web}.

Lemma run_app (pre post : list event) (job : Job) :
  run (pre ++ post) job = run post (run pre job).
Proof. apply fold_left_app. Qed.

Lemma job_inv_step (job : Job) (e : event) : job_inv job → job_inv (step job e).
Proof.
  destruct job as [s w r]. unfold job_inv, step. destruct e as [| |request].
  - unfold worker_step. cbn [worker scraping_state requested].
    destruct w as [|st l g|st l g|g i n [|url rest]|g i n url rest|];
      cbn [worker scraping_state requested is_scraping current]; try tauto.
    + destruct (state_pantry_urls st) as [[|u us]|];
        [|destruct (limit_pages l (u :: us)) as [pages|]|];
        cbn [worker scraping_state requested is_scraping current]; try tauto.
      intros (? & ? & ->). done.
    + destruct (stop_event s);
        cbn [worker scraping_state requested is_scraping current]; tauto.
    + destruct (scrape_pantry_details url) as [d|].
      * destruct (geocode_record g d) as [d' called].
        cbn [worker scraping_state requested is_scraping current].
        rewrite length_app. simpl. intros (? & ? & ?). repeat split; try done; lia.
      * cbn [worker scraping_state requested is_scraping current].
        rewrite length_app. simpl. intros (? & ? & ?). repeat split; try done; lia.
  - unfold stop_scrape. cbn [snd worker scraping_state requested is_scraping current].
    by destruct w.
  - intros Hj. unfold start_scrape. cbn [scraping_state].
    destruct (is_scraping s) eqn:Hs; [exact Hj|].
    destruct (req_state request) as [st|]; [|exact Hj].
    destruct (negb (truthy st)); [exact Hj|]. done.
Qed.

Lemma job_inv_run (events : list event) (job : Job) :
  job_inv job → job_inv (run events job).
Proof.
  revert job. induction events as [|e events IH]; intros job Hj; [done|].
  apply IH. by apply job_inv_step.
Qed.

Lemma job_inv_initial : job_inv initial_job.
Proof. done. Qed.

Lemma armed_step (job : Job) (e : event) :
  is_start e = false → armed job →
  armed (step job e)
  ∧ (steps_left (step job e) ≤ steps_left job - (if is_tick e then 1 else 0))%nat.
Proof.
  destruct job as [s w r]. unfold armed, steps_left, step.
  destruct e as [| |request]; [| |done].
  2:{ intros _ [? ?]. unfold stop_scrape.
      cbn [snd worker scraping_state stop_event is_tick].
      split; [done | lia]. }
  intros _. unfold worker_step. cbn [worker scraping_state requested is_tick].
  destruct w as [|st l g|st l g|g i n [|url rest]|g i n url rest|];
    cbn [worker scraping_state stop_event]; try (intros [? ?]; done || (split; [done|lia])).
  - destruct (state_pantry_urls st) as [[|u us]|];
      [|destruct (limit_pages l (u :: us)) as [pages|]|];
      cbn [worker scraping_state stop_event]; intros [? ?]; (split; [done|lia]).
  - intros [-> ?]. cbn [worker scraping_state stop_event]. split; [done|lia].
  - destruct (scrape_pantry_details url) as [d|];
      [destruct (geocode_record g d) as [d' called]|];
      cbn [worker scraping_state stop_event]; intros [? ?]; (split; [done|lia]).
Qed.

Lemma armed_run (events : list event) (job : Job) :
  no_start events → armed job → (steps_left job ≤ ticks events)%nat →
  worker (run events job) = NoThread.
Proof.
  revert job. induction events as [|e events IH]; intros job Hns Ha Hl.
  - simpl in Hl. destruct job as [s w r]. unfold steps_left in Hl.
    cbn [worker] in Hl. simpl. destruct w; simpl in Hl; done || lia.
  - apply Forall_cons in Hns as [He Hns].
    destruct (armed_step job e He Ha) as [Ha' Hs].
    apply IH; [done|done|]. simpl in Hl. lia.
Qed.

Lemma halting_step (k : nat) (urls : list string) (records : list PantryData)
    (job : Job) (e : event) :
  is_start e = false → halting k urls records job →
  halting k urls records (step job e).
Proof.
  destruct job as [s w r]. unfold halting, step.
  destruct e as [| |request]; [| |done].
  2:{ intros _ (? & ? & ?). unfold stop_scrape.
      cbn [snd worker scraping_state requested stop_event data current].
      by destruct w. }
  intros _. unfold worker_step. cbn [worker scraping_state requested].
  destruct w as [|st l g|st l g|g i n [|url rest]|g i n url rest|];
    cbn [worker scraping_state requested stop_event data current]; try tauto.
  - intros (? & ? & ? & ? & Hu & ?). repeat split; try done; try lia.
    exists []. by rewrite <- Hu.
  - intros (-> & ? & ? & ? & Hu & ?).
    cbn [worker scraping_state requested stop_event data current].
    repeat split; try done; try lia. exists (url :: rest). by rewrite <- Hu.
  - destruct (scrape_pantry_details url) as [d|];
      [destruct (geocode_record g d) as [d' called]|];
      cbn [worker scraping_state requested stop_event data current];
      rewrite length_app; simpl;
      intros (? & ? & -> & ? & Hu & ?); rewrite <- app_assoc; simpl;
      repeat split; try done; try lia.
    by apply prefix_app_r.
Qed.

Lemma halting_run (k : nat) (urls : list string) (records : list PantryData)
    (events : list event) (job : Job) :
  no_start events → halting k urls records job →
  halting k urls records (run events job).
Proof.
  revert job. induction events as [|e events IH]; intros job Hns Hh; [done|].
  apply Forall_cons in Hns as [He Hns].
  apply IH; [done|]. by apply halting_step.
Qed.

Lemma halting_bounds (k : nat) (urls : list string) (records : list PantryData)
    (job : Job) :
  halting k urls records job →
  (current (scraping_state job) ≤ k + 1)%nat
  ∧ requested job `prefix_of` take (k + 1) urls
  ∧ records `prefix_of` data (scraping_state job).
Proof.
  destruct job as [s w r]. unfold halting. cbn [worker scraping_state requested].
  assert (∀ t : list string, (length r ≤ k + 1)%nat →
            r `prefix_of` take (k + 1) (r ++ t)) as Hp.
  { intros t Hl. rewrite take_app_ge by done. by exists (take (k + 1 - length r) t). }
  intros (_ & Hd & Hw). destruct w; try done.
  - destruct Hw as (? & ? & [t ->]). repeat split; [done| |done]. by apply Hp.
  - destruct Hw as (? & ? & <- & ?). repeat split; [lia| |done]. apply Hp. lia.
  - destruct Hw as (? & ? & <- & ?). repeat split; [lia| |done]. apply Hp. lia.
  - destruct Hw as (? & ? & [t ->]). repeat split; [done| |done]. by apply Hp.
Qed.

Lemma halting_enter (k : nat) (job : Job) :
  job_inv job → completed job = Some k →
  halting k (run_urls job) (data (scraping_state job)) (step job Stop).
Proof.
  destruct job as [s w r]. unfold job_inv, completed, run_urls, halting, step, stop_scrape.
  cbn [snd worker scraping_state requested stop_event data current].
  destruct w; try done; intros (? & ? & ?) [= <-]; repeat split; try done; lia.
Qed.

Lemma stops_step (job : Job) (e : event) :
  is_start e = false → stop_event (scraping_state job) = true → stops job →
  stops (step job e).
Proof.
  destruct job as [s w r]. unfold stops, step.
  destruct e as [| |request]; [| |done].
  - intros _. unfold worker_step. cbn [worker scraping_state requested].
    destruct w as [|st l g|st l g|g i n [|url rest]|g i n url rest|];
      cbn [worker scraping_state status]; try tauto.
    + by intros -> _.
    + intros Hs. destruct rest as [|url' rest]; [done|]. intros _.
      destruct (scrape_pantry_details url) as [d|];
        [destruct (geocode_record g d) as [d' called]|]; done.
    + by intros ->.
  - intros _ _. unfold stop_scrape. cbn [snd worker scraping_state status].
    by destruct w as [| | |? ? ? [|]|? ? ? ? [|]|].
Qed.

Lemma stops_run (events : list event) (job : Job) :
  no_start events → armed job → stops job → stops (run events job).
Proof.
  revert job. induction events as [|e events IH]; intros job Hns Ha Hs; [done|].
  apply Forall_cons in Hns as [He Hns].
  apply IH; [done| |].
  - by apply armed_step.
  - apply stops_step; [done| |done]. apply Ha.
Qed.

Lemma halting_discovery_step (job : Job) (e : event) :
  is_start e = false → halting_discovery job → halting_discovery (step job e).
Proof.
  destruct job as [s w r]. unfold halting_discovery, step.
  destruct e as [| |request]; [| |done].
  2:{ intros _ (? & ? & ? & ?). unfold stop_scrape.
      cbn [snd worker scraping_state requested stop_event data current].
      by destruct w. }
  intros _. unfold worker_step. cbn [worker scraping_state requested].
  destruct w as [|st l g|st l g|g i n [|url rest]|g i n url rest|];
    cbn [worker scraping_state requested stop_event current]; try tauto.
  - destruct (state_pantry_urls st) as [[|u us]|];
      [|destruct (limit_pages l (u :: us)) as [pages|]|];
      cbn [worker scraping_state requested stop_event current]; tauto.
  - intros (-> & ? & ? & ?).
    cbn [worker scraping_state requested stop_event current]. tauto.
Qed.

Lemma halting_discovery_run (events : list event) (job : Job) :
  no_start events → halting_discovery job → halting_discovery (run events job).
Proof.
  revert job. induction events as [|e events IH]; intros job Hns Hh; [done|].
  apply Forall_cons in Hns as [He Hns].
  apply IH; [done|]. by apply halting_discovery_step.
Qed.
Lemma checkpoint_step (job : Job) (g : bool) (i n : nat) (url : string)
    (rest : list string) :
  worker job = LoopHead g i n (url :: rest) →
  stop_event (scraping_state job) = true →
  worker (worker_step job) = AfterLoop
  ∧ status (scraping_state (worker_step job)) = StoppedByUser
  ∧ current (scraping_state (worker_step job)) = current (scraping_state job)
  ∧ data (scraping_state (worker_step job)) = data (scraping_state job)
  ∧ requested (worker_step job) = requested job.
Proof.
  destruct job as [s w r]. cbn [worker scraping_state]. intros -> Hs.
  unfold worker_step. cbn [worker scraping_state]. by rewrite Hs.
Qed.

(** What the code does keep of C7.  Once the signal is set after the worker
    has cleared it at its start, and no new run is started: at the check before
    a page the worker leaves the loop without asking for the page, with the
    status "Stopped by user".  If the signal is set when [k] pages are
    finished, [current] never exceeds [k + 1], no page after page [k + 1] is
    asked for, and the records gathered so far stay in the data; after three
    more worker steps the run is over, and its status is "Stopped by user"
    provided the loop had a page it had not started.  If the signal is set
    while the worker looks for the pages, no page is asked for at all. *)
Theorem stop_after_clear (pre post : list event) :
  no_start post →
  let job1 := run pre initial_job in
  let job2 := run (pre ++ Stop :: post) initial_job in
  (∀ job g i n url rest,
     worker job = LoopHead g i n (url :: rest) →
     stop_event (scraping_state job) = true →
     worker (worker_step job) = AfterLoop
     ∧ status (scraping_state (worker_step job)) = StoppedByUser
     ∧ current (scraping_state (worker_step job)) = current (scraping_state job)
     ∧ data (scraping_state (worker_step job)) = data (scraping_state job)
     ∧ requested (worker_step job) = requested job)
  ∧ (∀ k, completed job1 = Some k →
       (current (scraping_state job2) ≤ k + 1)%nat
       ∧ requested job2 `prefix_of` take (k + 1) (run_urls job1)
       ∧ data (scraping_state job1) `prefix_of` data (scraping_state job2)
       ∧ ((3 ≤ ticks post)%nat →
          worker job2 = NoThread
          ∧ is_scraping (scraping_state job2) = false
          ∧ (unstarted job1 ≠ [] →
             status (scraping_state job2) = StoppedByUser)))
  ∧ (∀ state limit geocode, worker job1 = Discover state limit geocode →
       current (scraping_state job2) = 0%nat
       ∧ requested job2 = []
       ∧ ((3 ≤ ticks post)%nat →
          worker job2 = NoThread ∧ is_scraping (scraping_state job2) = false)).
Proof.
  intros Hns job1 job2.
  assert (job2 = run post (step job1 Stop)) as Hjob2.
  { unfold job2. by rewrite run_app. }
  pose proof (job_inv_run pre initial_job job_inv_initial) as Hinv1.
  fold job1 in Hinv1.
  pose proof (job_inv_run (Stop :: post) job1 Hinv1) as Hinv2.
  change (run (Stop :: post) job1) with (run post (step job1 Stop)) in Hinv2.
  rewrite <- Hjob2 in Hinv2.
  assert (∀ j, worker j = NoThread → job_inv j →
               is_scraping (scraping_state j) = false) as Hdone.
  { intros [s w r]. unfold job_inv. cbn [worker scraping_state]. by intros ->. }
  split; [apply checkpoint_step|]. split.
  - intros k Hk.
    pose proof (halting_enter k job1 Hinv1 Hk) as Hh.
    pose proof (halting_run _ _ _ post _ Hns Hh) as Hh2. rewrite <- Hjob2 in Hh2.
    destruct (halting_bounds _ _ _ _ Hh2) as (Hc & Hr & Hd).
    split; [done|]. split; [done|]. split; [done|].
    intros Ht.
    assert (armed (step job1 Stop)) as Ha.
    { clear -Hk. destruct job1 as [s w r]. unfold completed in Hk.
      cbn [worker] in Hk. split; [done|]. unfold step, stop_scrape.
      cbn [snd worker]. by destruct w. }
    assert (worker job2 = NoThread) as Hw.
    { rewrite Hjob2. apply armed_run; [done|done|].
      clear -Hk Ht. destruct job1 as [s w r]. unfold completed in Hk.
      cbn [worker] in Hk. unfold steps_left, step, stop_scrape. cbn [snd worker].
      destruct w; try done; lia. }
    split; [done|]. split; [by apply Hdone|].
    intros Hu.
    assert (stops (step job1 Stop)) as Hst.
    { clear -Hk Hu. destruct job1 as [s w r]. unfold completed in Hk.
      unfold unstarted in Hu. cbn [worker] in Hk, Hu.
      unfold stops, step, stop_scrape. cbn [snd worker].
      destruct w as [| | |? ? ? [|]|? ? ? ? [|]|]; done. }
    pose proof (stops_run post _ Hns Ha Hst) as Hst2. rewrite <- Hjob2 in Hst2.
    unfold stops in Hst2. by rewrite Hw in Hst2.
  - intros state limit geocode Hw1.
    assert (halting_discovery (step job1 Stop)) as Hh.
    { clear -Hw1 Hinv1. destruct job1 as [s w r]. cbn [worker] in Hw1. subst w.
      unfold job_inv in Hinv1. cbn [worker scraping_state requested] in Hinv1.
      destruct Hinv1 as (? & ? & ?).
      unfold halting_discovery, step, stop_scrape.
      cbn [snd worker scraping_state requested stop_event current]. done. }
    pose proof (halting_discovery_run post _ Hns Hh) as Hh2. rewrite <- Hjob2 in Hh2.
    destruct Hh2 as (_ & Hc & Hr & _).
    split; [done|]. split; [done|].
    intros Ht.
    assert (worker job2 = NoThread) as Hw.
    { rewrite Hjob2. apply armed_run; [done| |].
      - clear -Hw1. destruct job1 as [s w r]. cbn [worker] in Hw1. subst w.
        by split.
      - clear -Hw1 Ht. destruct job1 as [s w r]. cbn [worker] in Hw1. subst w.
        unfold steps_left, step, stop_scrape. cbn [snd worker]. lia. }
    split; [done | by apply Hdone].
Qed.
End Cancellation.

Section CancellationExamples.
Import Backend.

(** C7 does not hold.  A request to stop that arrives after the start of a
    run and before the worker has cleared the signal is lost: the signal is
    set while the run is in progress, every page is processed all the same,
    and the run ends as completed. *)
Lemma lost_stop_counterexample :
  stop_event (scraping_state
    (@run example_web [Start (wisconsin_request None); Stop] initial_job)) = true
  ∧ is_scraping (scraping_state
      (@run example_web [Start (wisconsin_request None); Stop] initial_job)) = true
  ∧ requested (@run example_web
      (Start (wisconsin_request None) :: Stop :: repeat Tick 24) initial_job)
    = ten_urls
  ∧ current (scraping_state (@run example_web
      (Start (wisconsin_request None) :: Stop :: repeat Tick 24) initial_job))
    = 10%nat
  ∧ status (scraping_state (@run example_web
      (Start (wisconsin_request None) :: Stop :: repeat Tick 24) initial_job))
    = Completed 10.
Proof. repeat split; vm_compute; reflexivity. Qed.

(** C7 does not hold, a second way.  A request to stop that arrives while
    the last page is in flight ends the run with neither "Stopped by user"
    nor "Completed": the status stays that of the last page. *)
Lemma stale_status_counterexample :
  worker (@run example_web
    (Start (wisconsin_request (Some 3%Z)) :: repeat Tick 7) initial_job)
  = Body false 2 3 "https://www.foodpantries.org/li/pantry-3" []
  ∧ stop_event (scraping_state (@run example_web
      (Start (wisconsin_request (Some 3%Z)) :: repeat Tick 7 ++ [Stop])%list
      initial_job)) = true
  ∧ worker (@run example_web
      (Start (wisconsin_request (Some 3%Z)) :: repeat Tick 7 ++ Stop :: repeat Tick 3)%list
      initial_job) = NoThread
  ∧ is_scraping (scraping_state (@run example_web
      (Start (wisconsin_request (Some 3%Z)) :: repeat Tick 7 ++ Stop :: repeat Tick 3)%list
      initial_job)) = false
  ∧ status (scraping_state (@run example_web
      (Start (wisconsin_request (Some 3%Z)) :: repeat Tick 7 ++ Stop :: repeat Tick 3)%list
      initial_job)) = ScrapingPantry 3 3.
Proof. repeat split; vm_compute; reflexivity. Qed.

Lemma stop_after_clear_witness :
  completed (@run example_web three_done initial_job) = Some 3%nat
  ∧ total (scraping_state (@run example_web three_done initial_job)) = 10%nat
  ∧ (no_start [Tick; Stop; Tick; Tick]
     ∧ (current (scraping_state
          (@run example_web (three_done ++ Stop :: [Tick; Stop; Tick; Tick])
             initial_job)) ≤ 4)%nat
     ∧ status (scraping_state
         (@run example_web (three_done ++ Stop :: [Tick; Stop; Tick; Tick])
            initial_job)) = StoppedByUser)
  ∧ ∀ post, no_start post →
      (current (scraping_state
         (@run example_web (three_done ++ Stop :: post) initial_job)) ≤ 4)%nat
      ∧ requested (@run example_web (three_done ++ Stop :: post) initial_job)
          `prefix_of` take 4 ten_urls
      ∧ ((3 ≤ ticks post)%nat →
         is_scraping (scraping_state
           (@run example_web (three_done ++ Stop :: post) initial_job)) = false
         ∧ status (scraping_state
             (@run example_web (three_done ++ Stop :: post) initial_job))
           = StoppedByUser).
Proof.
  assert (completed (@run example_web three_done initial_job) = Some 3%nat) as Hk
    by (vm_compute; reflexivity).
  assert (unstarted (@run example_web three_done initial_job) ≠ []) as Hu
    by (vm_compute; discriminate).
  assert (no_start [Tick; Stop; Tick; Tick]) as Hns
    by (repeat constructor).
  split; [exact Hk|]. split; [vm_compute; reflexivity|]. split.
  - destruct (@stop_after_clear example_web three_done [Tick; Stop; Tick; Tick] Hns)
      as (_ & Hloop & _).
    destruct (Hloop 3%nat Hk) as (Hc & _ & _ & Hend).
    split; [exact Hns|]. split; [exact Hc|].
    apply (Hend ltac:(vm_compute; lia)). exact Hu.
  - intros post Hpost.
    destruct (@stop_after_clear example_web three_done post Hpost) as (_ & Hloop & _).
    destruct (Hloop 3%nat Hk) as (Hc & Hr & _ & Hend).
    split; [exact Hc|]. split.
    + assert (run_urls (@run example_web three_done initial_job) = ten_urls) as Hurls
        by (vm_compute; reflexivity).
      rewrite Hurls in Hr. exact Hr.
    + intros Ht. destruct (Hend Ht) as (_ & Hs & Hst).
      split; [exact Hs|]. apply Hst. exact Hu.
Defined.
End CancellationExamples.

(** * Further properties of the code *)

(** ** Merging, beyond the policy *)

Ltac merge_split :=
  repeat match goal with
  | H : truthy ?x = _ |- context [truthy ?x] => rewrite H; cbn [andb negb orb]
  | |- context [if (?a <=? ?b)%nat then _ else _] =>
      destruct (Nat.leb_spec a b); cbn [andb negb orb]
  end.

Lemma merge_str_assoc (x y z : string) :
  merge_str (merge_str x y) z = merge_str x (merge_str y z).
Proof.
  unfold merge_str.
  destruct (truthy x) eqn:Hx, (truthy y) eqn:Hy, (truthy z) eqn:Hz;
    cbn [andb]; merge_split; try done; unfold len in *; lia.
Qed.

Lemma merge_opt_assoc (a b c : option string) :
  merge_opt (merge_opt a b) c = merge_opt a (merge_opt b c).
Proof.
  destruct a as [x|], b as [y|], c as [z|]; cbn [merge_opt]; try done.
  - destruct (truthy x) eqn:Hx, (truthy y) eqn:Hy, (truthy z) eqn:Hz;
      cbn [andb merge_opt]; merge_split; cbn [merge_opt]; merge_split;
      try done; unfold len in *; lia.
  - destruct (truthy x) eqn:Hx, (truthy y) eqn:Hy;
      cbn [andb merge_opt]; merge_split; cbn [merge_opt]; merge_split; done.
  - destruct (truthy x) eqn:Hx, (truthy z) eqn:Hz;
      cbn [andb merge_opt]; merge_split; cbn [merge_opt]; merge_split; done.
  - destruct (truthy x) eqn:Hx; cbn [merge_opt]; merge_split; done.
Qed.

(** X1.  Merging is associative: merging the merge of [a] and [b] with [c]
    gives the record that merging [a] with the merge of [b] and [c] gives. *)
Theorem merge_with_assoc (a b c : Pantry) :
  merge_with (merge_with a b) c = merge_with a (merge_with b c).
Proof.
  unfold merge_with. cbn [name address city state zip phone fax email website
    hours description requirements source_url source_site].
  by rewrite merge_str_assoc, !merge_opt_assoc.
Qed.

Lemma value_len_merge_opt (a b : option string) :
  value_len (merge_opt a b) = Nat.max (value_len a) (value_len b).
Proof.
  destruct a as [x|], b as [y|]; cbn [merge_opt value_len]; try lia.
  - destruct (truthy x) eqn:Hx, (truthy y) eqn:Hy; cbn [andb]; merge_split;
      cbn [value_len]; try lia.
    + apply truthy_false in Hy as ->. cbn [len String.length]. lia.
    + apply truthy_false in Hx as ->. cbn [len String.length]. lia.
    + apply truthy_false in Hx as ->. apply truthy_false in Hy as ->. done.
  - destruct (truthy x) eqn:Hx; cbn [value_len]; [lia|].
    apply truthy_false in Hx as ->. done.
Qed.

Lemma otruthy_value_len (o : option string) :
  otruthy o = true ↔ (0 < value_len o)%nat.
Proof.
  destruct o as [[|c s]|]; cbn [otruthy truthy value_len len String.length];
    split; (done || lia).
Qed.

(** X2.  Whatever the two records hold, each field of the merged record is
    the value of one of them, and its length is the greater of the two
    lengths: no field that one record fills is empty after the merge, and
    no field gets shorter. *)
Theorem merge_with_longest (a b : Pantry) (f : field) :
  (getattr (merge_with a b) f = getattr a f
   ∨ getattr (merge_with a b) f = getattr b f)
  ∧ value_len (getattr (merge_with a b) f)
    = Nat.max (value_len (getattr a f)) (value_len (getattr b f))
  ∧ otruthy (getattr (merge_with a b) f)
    = otruthy (getattr a f) || otruthy (getattr b f).
Proof.
  rewrite merge_with_getattr. split; [apply merge_opt_cases|].
  split; [apply value_len_merge_opt|].
  pose proof (value_len_merge_opt (getattr a f) (getattr b f)) as Hl.
  pose proof (otruthy_value_len (merge_opt (getattr a f) (getattr b f))) as Hm.
  pose proof (otruthy_value_len (getattr a f)) as Ha.
  pose proof (otruthy_value_len (getattr b f)) as Hb.
  destruct (otruthy (merge_opt _ _)), (otruthy (getattr a f)), (otruthy (getattr b f));
    cbn [orb]; try done; exfalso;
    repeat match goal with
    | H : true = true ↔ _ |- _ => apply proj1 in H; specialize (H eq_refl)
    | H : false = true ↔ _ |- _ =>
        apply proj2 in H;
        assert (¬ (0 < _)%nat) by (let K := fresh in intros K; by apply H in K);
        clear H
    end; lia.
Qed.

(** ** The contents of the store *)

Lemma add_pantry_lookup (db db' : DeduplicatedPantryDatabase) (p : Pantry) (b : bool)
    (k : string) :
  consistent db → add_pantry db p = Returns (b, db') →
  pantries db' !! k =
    if decide (get_fingerprint p = k) then absorb (pantries db !! k) p
    else pantries db !! k.
Proof.
  intros Hc Ha.
  destruct (pantries db !! get_fingerprint p) as [stored|] eqn:Hl.
  - rewrite (add_pantry_dup db p stored Hc Hl) in Ha. injection Ha as <- <-.
    cbn [pantries]. destruct (decide _) as [<-|Hne].
    + by rewrite lookup_insert_eq, Hl.
    + by rewrite lookup_insert_ne.
  - rewrite (add_pantry_new db p Hc Hl) in Ha. injection Ha as <- <-.
    cbn [pantries]. destruct (decide _) as [<-|Hne].
    + by rewrite lookup_insert_eq, Hl.
    + by rewrite lookup_insert_ne.
Qed.

Lemma add_all_lookup (ps : list Pantry) :
  ∀ db, consistent db →
  ∃ db', add_all ps db = Returns db' ∧ consistent db'
         ∧ ∀ k, pantries db' !! k
                = fold_left absorb (filter (λ p, get_fingerprint p = k) ps)
                    (pantries db !! k).
Proof.
  induction ps as [|p ps IH]; intros db Hc.
  - by exists db.
  - destruct (add_pantry_returns db p Hc) as (b & db1 & Ha & Hc1).
    destruct (IH db1 Hc1) as (db' & Hall & Hc' & Hl).
    exists db'. cbn [add_all]. rewrite Ha. split; [done|]. split; [done|].
    intros k. rewrite Hl, (add_pantry_lookup db db1 p b k Hc Ha).
    rewrite filter_cons. by destruct (decide _).
Qed.

Lemma fold_left_absorb (rest : list Pantry) (p : Pantry) :
  fold_left absorb rest (Some p) = Some (fold_left merge_with rest p).
Proof. revert p. induction rest as [|q rest IH]; intros p; [done|]. apply IH. Qed.

(** X3.  After any sequence of [add_pantry] calls on an empty store, what is
    stored under a key is the merge, in the order of the calls, of the
    records added with that fingerprint: the first of them merged with the
    second, the result with the third, and so on; a key with no such record
    holds nothing. *)
Theorem store_contents (ps : list Pantry) :
  ∃ db,
    add_all ps new_database = Returns db
    ∧ ∀ k, pantries db !! k = merged (filter (λ p, get_fingerprint p = k) ps).
Proof.
  destruct (add_all_lookup ps new_database new_database_consistent)
    as (db & Ha & _ & Hl).
  exists db. split; [done|]. intros k. rewrite Hl.
  cbn [new_database pantries]. rewrite lookup_empty.
  destruct (filter _ ps) as [|p rest]; [done|].
  cbn [fold_left merged absorb]. apply fold_left_absorb.
Qed.

Lemma add_pantry_dom (db db' : DeduplicatedPantryDatabase) (p : Pantry) (b : bool) :
  consistent db → add_pantry db p = Returns (b, db') →
  dom (pantries db') = {[get_fingerprint p]} ∪ dom (pantries db).
Proof.
  intros Hc Ha.
  destruct (pantries db !! get_fingerprint p) as [stored|] eqn:Hl.
  - rewrite (add_pantry_dup db p stored Hc Hl) in Ha. injection Ha as <- <-.
    cbn [pantries]. apply dom_insert_L.
  - rewrite (add_pantry_new db p Hc Hl) in Ha. injection Ha as <- <-.
    cbn [pantries]. apply dom_insert_L.
Qed.

Lemma add_all_dom (ps : list Pantry) :
  ∀ db db', consistent db → add_all ps db = Returns db' →
  dom (pantries db') = list_to_set (get_fingerprint <$> ps) ∪ dom (pantries db).
Proof.
  induction ps as [|p ps IH]; intros db db' Hc; cbn [add_all].
  - intros [= <-]. cbn [fmap list_fmap list_to_set]. by rewrite (left_id_L ∅ (∪)).
  - destruct (add_pantry db p) as [[b db1]|] eqn:Ha; [|done].
    intros Hall.
    rewrite (IH db1 db' (add_pantry_consistent _ _ _ _ Hc Ha) Hall).
    rewrite (add_pantry_dom db db1 p b Hc Ha).
    rewrite fmap_cons, list_to_set_cons.
    apply set_eq. intros z. rewrite !elem_of_union. tauto.
Qed.

Lemma size_list_to_set_le (l : list string) :
  (size (list_to_set l : gset string) ≤ length l)%nat.
Proof.
  induction l as [|x l IH]; cbn [list_to_set length].
  - by rewrite size_empty.
  - rewrite size_union_alt, size_singleton.
    pose proof (subseteq_size (list_to_set l ∖ {[x]}) (list_to_set l : gset string)) as Hs.
    assert (list_to_set l ∖ {[x]} ⊆ (list_to_set l : gset string)) as Hsub.
    { intros z. rewrite elem_of_difference. tauto. }
    specialize (Hs Hsub). lia.
Qed.

(** X4.  After any sequence of [add_pantry] calls on an empty store the keys
    are the fingerprints of the records added, so [total] in [get_stats]
    and the length of [get_all] count the distinct fingerprints, and are at
    most the number of calls. *)
Theorem store_counts_fingerprints (ps : list Pantry) :
  ∃ db,
    add_all ps new_database = Returns db
    ∧ dom (pantries db) = list_to_set (get_fingerprint <$> ps)
    ∧ fingerprints db = list_to_set (get_fingerprint <$> ps)
    ∧ total (get_stats db) = size (list_to_set (get_fingerprint <$> ps) : gset string)
    ∧ length (get_all db) = total (get_stats db)
    ∧ (total (get_stats db) ≤ length ps)%nat.
Proof.
  destruct (add_all_lookup ps new_database new_database_consistent)
    as (db & Ha & Hc & _).
  pose proof (add_all_dom ps new_database db new_database_consistent Ha) as Hd.
  cbn [new_database pantries] in Hd.
  rewrite dom_empty_L, (right_id_L ∅ (∪)) in Hd.
  exists db. split; [done|]. split; [done|].
  split; [by rewrite Hc|].
  cbn [get_stats total]. rewrite get_all_length, <- Hd, size_dom.
  split; [done|]. split; [done|].
  rewrite <- size_dom, Hd.
  etransitivity; [apply size_list_to_set_le|]. by rewrite length_fmap.
Qed.

(** ** Statistics *)

Lemma count_where_perm (f : Pantry → bool) (l1 l2 : list Pantry) :
  l1 ≡ₚ l2 → count_where f l1 = count_where f l2.
Proof.
  induction 1 as [|x l l' _ IH|x y l|l l' l'' _ IH1 _ IH2]; cbn [count_where];
    [done | by rewrite IH | lia | by rewrite IH1].
Qed.

Lemma count_where_le_length (f : Pantry → bool) (l : list Pantry) :
  (count_where f l ≤ length l)%nat.
Proof.
  induction l as [|p l IH]; cbn [count_where length]; [done|].
  destruct (f p); lia.
Qed.

Lemma values_insert_new (m : gmap string Pantry) (k : string) (v : Pantry) :
  m !! k = None → (map_to_list (<[k:=v]> m)).*2 ≡ₚ v :: (map_to_list m).*2.
Proof. intros Hn. by rewrite (map_to_list_insert m k v Hn). Qed.

Lemma values_lookup (m : gmap string Pantry) (k : string) (e : Pantry) :
  m !! k = Some e → (map_to_list m).*2 ≡ₚ e :: (map_to_list (delete k m)).*2.
Proof. intros Hs. by rewrite <- (map_to_list_delete m k e Hs). Qed.

Lemma values_insert_dup (m : gmap string Pantry) (k : string) (v : Pantry) :
  (map_to_list (<[k:=v]> m)).*2 ≡ₚ v :: (map_to_list (delete k m)).*2.
Proof.
  rewrite <- (insert_delete_eq m k v).
  apply values_insert_new, lookup_delete_eq.
Qed.

Lemma count_where_merge (g : Pantry → option string) (f : field) (e p : Pantry) :
  (∀ q, g q = getattr q f) →
  ((if otruthy (g e) then 1 else 0) ≤ (if otruthy (g (merge_with e p)) then 1 else 0))%nat.
Proof.
  intros Hg. rewrite !Hg, merge_with_getattr.
  destruct (otruthy (getattr e f)) eqn:He; [|lia].
  apply otruthy_value_len in He.
  pose proof (value_len_merge_opt (getattr e f) (getattr p f)) as Hl.
  destruct (otruthy (merge_opt _ _)) eqn:Hm; [done|].
  assert (¬ (0 < value_len (merge_opt (getattr e f) (getattr p f)))%nat) as Hn.
  { intros K. apply otruthy_value_len in K. congruence. }
  lia.
Qed.

(** X5.  A call of [add_pantry] on a store whose two fields name the same
    keys never lowers a count of [get_stats]: the total and the numbers of
    records with a web site, a phone, a mail address and hours stay or
    grow; and each of these four numbers is at most the total. *)
Theorem get_stats_monotone (db db' : DeduplicatedPantryDatabase) (p : Pantry)
    (b : bool) :
  consistent db → add_pantry db p = Returns (b, db') →
  stats_le (get_stats db) (get_stats db')
  ∧ (with_website (get_stats db') ≤ total (get_stats db'))%nat
  ∧ (with_phone (get_stats db') ≤ total (get_stats db'))%nat
  ∧ (with_email (get_stats db') ≤ total (get_stats db'))%nat
  ∧ (with_hours (get_stats db') ≤ total (get_stats db'))%nat.
Proof.
  intros Hc Ha. split.
  - unfold stats_le, get_stats, get_all, entries.
    cbn [total with_website with_phone with_email with_hours].
    destruct (pantries db !! get_fingerprint p) as [stored|] eqn:Hl.
    + rewrite (add_pantry_dup db p stored Hc Hl) in Ha. injection Ha as <- <-.
      cbn [pantries].
      rewrite !(count_where_perm _ _ _ (values_insert_dup _ _ _)).
      rewrite !(count_where_perm _ _ _ (values_lookup _ _ _ Hl)).
      rewrite (Permutation_length (values_insert_dup (pantries db) _ _)).
      rewrite (Permutation_length (values_lookup _ _ _ Hl)).
      cbn [count_where length].
      pose proof (count_where_merge website f_website stored p (λ _, eq_refl)).
      pose proof (count_where_merge phone f_phone stored p (λ _, eq_refl)).
      pose proof (count_where_merge email f_email stored p (λ _, eq_refl)).
      pose proof (count_where_merge hours f_hours stored p (λ _, eq_refl)).
      repeat split; lia.
    + rewrite (add_pantry_new db p Hc Hl) in Ha. injection Ha as <- <-.
      cbn [pantries].
      rewrite !(count_where_perm _ _ _ (values_insert_new _ _ _ Hl)).
      rewrite (Permutation_length (values_insert_new _ _ _ Hl)).
      cbn [count_where length]. repeat split; lia.
  - unfold get_stats. cbn [total with_website with_phone with_email with_hours].
    repeat split; apply count_where_le_length.
Qed.

Lemma get_stats_monotone_witness :
  consistent new_database
  ∧ ∃ db', add_pantry new_database community_pantry_211 = Returns (true, db')
           ∧ stats_le (get_stats new_database) (get_stats db').
Proof.
  split; [exact new_database_consistent|].
  eexists. split.
  - exact (add_pantry_new new_database community_pantry_211 new_database_consistent
             (lookup_empty _)).
  - exact (proj1 (get_stats_monotone _ _ community_pantry_211 true
                    new_database_consistent
                    (add_pantry_new new_database community_pantry_211
                       new_database_consistent (lookup_empty _)))).
Defined.

(** ** The form of a fingerprint *)

Lemma le_bytes_length (n : nat) (x : Z) : length (MD5.le_bytes n x) = n.
Proof. unfold MD5.le_bytes. by rewrite length_map, length_seq. Qed.

Lemma le_bytes_range (n : nat) (x b : Z) :
  In b (MD5.le_bytes n x) → (0 ≤ b < 256)%Z.
Proof.
  unfold MD5.le_bytes. rewrite in_map_iff. intros (i & <- & _).
  change 255%Z with (Z.ones 8). rewrite Z.land_ones by lia.
  apply Z.mod_pos_bound. lia.
Qed.

Lemma digest_length (msg : list Z) : length (MD5.digest msg) = 16%nat.
Proof.
  unfold MD5.digest. destruct (MD5.blocks _ _ _) as [[[a b] c] d].
  by rewrite !length_app, !le_bytes_length.
Qed.

Lemma digest_range (msg : list Z) (b : Z) :
  In b (MD5.digest msg) → (0 ≤ b < 256)%Z.
Proof.
  unfold MD5.digest. destruct (MD5.blocks _ _ _) as [[[a0 b0] c0] d0].
  rewrite !in_app_iff. intros [H|[H|[H|H]]]; by apply le_bytes_range in H.
Qed.

Lemma hex_digit_is_hex (x : Z) :
  (0 ≤ x < 16)%Z → is_hex_char (MD5.hex_digit x) = true.
Proof.
  intros Hx.
  assert (x = 0 ∨ x = 1 ∨ x = 2 ∨ x = 3 ∨ x = 4 ∨ x = 5 ∨ x = 6 ∨ x = 7 ∨ x = 8
          ∨ x = 9 ∨ x = 10 ∨ x = 11 ∨ x = 12 ∨ x = 13 ∨ x = 14 ∨ x = 15)%Z
    as Hc by lia.
  repeat (destruct Hc as [-> | Hc]; [reflexivity|]). by subst x.
Qed.

Lemma hex_length (bs : list Z) : String.length (MD5.hex bs) = (2 * length bs)%nat.
Proof.
  induction bs as [|b bs IH]; [done|].
  cbn [MD5.hex String.length length]. rewrite IH. lia.
Qed.

Lemma hex_is_hex (bs : list Z) :
  (∀ b, In b bs → (0 ≤ b < 256)%Z) → all_chars is_hex_char (MD5.hex bs) = true.
Proof.
  induction bs as [|b bs IH]; intros Hr; [done|].
  cbn [MD5.hex all_chars].
  pose proof (Hr b (or_introl eq_refl)) as Hb.
  rewrite !hex_digit_is_hex, IH; [done| | |].
  - intros b' Hb'. apply Hr. by right.
  - apply Z.mod_pos_bound. lia.
  - split; [apply Z.div_pos; lia | apply Z.div_lt_upper_bound; lia].
Qed.

(** X6.  The fingerprint of every record is a string of 32 characters, each
    a digit or a letter from a to f. *)
Theorem get_fingerprint_form (p : Pantry) :
  len (get_fingerprint p) = 32%nat
  ∧ all_chars is_hex_char (get_fingerprint p) = true.
Proof.
  unfold get_fingerprint, MD5.hexdigest, len. split.
  - by rewrite hex_length, digest_length.
  - apply hex_is_hex, digest_range.
Qed.

(** ** Normal forms *)

Lemma lower_char_idem (c : ascii) : lower_char (lower_char c) = lower_char c.
Proof. destruct c as [[] [] [] [] [] [] [] []]; reflexivity. Qed.

Lemma lower_cons (c : ascii) (s : string) :
  lower (String c s) = String (lower_char c) (lower s).
Proof. reflexivity. Qed.

Lemma lower_idem (s : string) : lower (lower s) = lower s.
Proof.
  induction s as [|c s IH]; [done|].
  by rewrite !lower_cons, lower_char_idem, IH.
Qed.

Lemma lstrip_head (s : string) :
  match lstrip s with
  | EmptyString => True
  | String c _ => isspace c = false
  end.
Proof.
  induction s as [|c s IH]; [done|]. cbn [lstrip].
  by destruct (isspace c) eqn:Hc.
Qed.

Lemma lstrip_fixed (c : ascii) (s : string) :
  isspace c = false → lstrip (String c s) = String c s.
Proof. intros Hc. cbn [lstrip]. by rewrite Hc. Qed.

Lemma rstrip_cons (c : ascii) (s : string) :
  rstrip (String c s) =
    match rstrip s with
    | EmptyString => if isspace c then EmptyString else String c EmptyString
    | r => String c r
    end.
Proof. reflexivity. Qed.

Lemma rstrip_idem (s : string) : rstrip (rstrip s) = rstrip s.
Proof.
  induction s as [|c s IH]; [done|]. rewrite rstrip_cons.
  destruct (rstrip s) as [|c' s'] eqn:Hr.
  - destruct (isspace c) eqn:Hc; [done|]. rewrite rstrip_cons. cbn [rstrip].
    by rewrite Hc.
  - by rewrite rstrip_cons, IH.
Qed.

Lemma rstrip_head (c : ascii) (s : string) :
  isspace c = false → ∃ s', rstrip (String c s) = String c s'.
Proof.
  intros Hc. rewrite rstrip_cons. destruct (rstrip s) as [|c' s'].
  - rewrite Hc. by eexists.
  - by eexists.
Qed.

Lemma strip_idem (s : string) : strip (strip s) = strip s.
Proof.
  unfold strip. pose proof (lstrip_head s) as Hh.
  destruct (lstrip s) as [|c t] eqn:Hl; [done|].
  destruct (rstrip_head c t Hh) as [s' Hs']. rewrite Hs'.
  rewrite (lstrip_fixed c s' Hh), <- Hs'. apply rstrip_idem.
Qed.

Lemma lower_strip (s : string) : lower (strip s) = strip (lower s).
Proof. unfold strip. by rewrite lstrip_lower, rstrip_lower. Qed.

Lemma lower_trim_idem (s : string) : lower_trim (lower_trim s) = lower_trim s.
Proof.
  unfold lower_trim. by rewrite lower_strip, lower_idem, strip_idem.
Qed.

Lemma sub_non_digits_idem (s : string) :
  sub_non_digits (sub_non_digits s) = sub_non_digits s.
Proof.
  induction s as [|c s IH]; [done|]. cbn [sub_non_digits].
  destruct (isdigit c) eqn:Hc; [|done]. cbn [sub_non_digits]. by rewrite Hc, IH.
Qed.

(** X7.  Writing the name and the address of a record in lower case without
    surrounding blanks, keeping only the digits of its phone number, and
    writing a missing zip as the empty string gives a record with the same
    fingerprint; doing it twice changes nothing more. *)
Theorem normalized_fingerprint (p : Pantry) :
  get_fingerprint (normalized p) = get_fingerprint p
  ∧ fp_inputs (normalized p) = fp_inputs p
  ∧ normalized (normalized p) = normalized p.
Proof.
  assert (fp_inputs (normalized p) = fp_inputs p) as Hin.
  { unfold fp_inputs.
    rewrite (name_norm_spec (normalized p)), (addr_norm_spec (normalized p)),
      (phone_norm_spec (normalized p)), (zip_or_empty_spec (normalized p)).
    cbn [normalized name address phone zip absent_as_empty].
    rewrite name_norm_spec, addr_norm_spec, phone_norm_spec.
    unfold digit_sequence. by rewrite !lower_trim_idem, sub_non_digits_idem. }
  split; [by apply fingerprint_of_inputs|]. split; [done|].
  injection Hin as Hn Ha Hp Hz.
  unfold normalized at 1.
  cbn [normalized city state fax email website hours description requirements
       source_url source_site].
  by rewrite Hn, Ha, Hp, Hz.
Qed.

(** ** Stripped fields *)

Lemma fmap_strip_fixed (o : option (nat → string)) (i : nat) (v : string) :
  (λ m : nat → string, strip (m i)) <$> o = Some v → strip v = v.
Proof. destruct o as [m|]; [|done]. intros [= <-]. apply strip_idem. Qed.

Lemma first_match_fixed `{Web} (flags : list re_flag) (page_text : string)
    (patterns : list string) (v : string) :
  first_match flags page_text patterns = Some v → strip v = v.
Proof.
  induction patterns as [|pattern rest IH]; [done|]. cbn [first_match].
  destruct (re_search pattern flags page_text) as [m|]; [|done].
  intros [= <-]. apply strip_idem.
Qed.

Lemma n211_name_fixed (soup : Soup) (n : string) :
  n211_name soup = Some n → strip n = n.
Proof.
  unfold n211_name.
  destruct (find_h1 soup) as [h1|]; cbn [otruthy negb].
  - destruct (truthy (strip h1)); cbn [negb].
    + intros [= <-]. apply strip_idem.
    + destruct (find_title soup) as [title|]; intros [= <-]; apply strip_idem.
  - destruct (find_title soup) as [title|]; [|done]. intros [= <-]. apply strip_idem.
Qed.

(** X8.  In a record of [scrape_pantry_details] or [scrape_pantry_detail]
    the name is not empty, and the name, the address, the city and the phone
    number, like the hours and the requirements, have no blank at either
    end: stripping them again changes nothing. *)
Theorem scraped_fields_stripped `{Web} :
  (∀ pantry_url p,
     scrape_pantry_details pantry_url = Some p →
     name p ≠ "" ∧ strip (name p) = name p
     ∧ ∀ f v, In f [f_address; f_city; f_phone; f_fax; f_hours; f_requirements] →
              getattr p f = Some v → strip v = v)
  ∧ (∀ region url p,
       scrape_pantry_detail region url = Some p →
       name p ≠ "" ∧ strip (name p) = name p
       ∧ ∀ f v, In f [f_address; f_city; f_phone; f_hours; f_description;
                      f_requirements] →
                getattr p f = Some v → strip v = v).
Proof.
  split.
  - intros pantry_url p. unfold scrape_pantry_details.
    destruct (fetch pantry_url) as [soup|]; [|done].
    destruct (re_search _ [MULTILINE] _) as [m|]; [|done].
    destruct (truthy (strip (m 1%nat))) eqn:Hn; cbn [negb]; [|done].
    destruct (scan_links _ _). intros [= <-]. cbn [name].
    split; [by destruct (strip (m 1%nat))|]. split; [apply strip_idem|].
    intros f v Hf. cbn [In] in Hf.
    destruct Hf as [<-|[<-|[<-|[<-|[<-|[<-|[]]]]]]];
      cbn [getattr address city phone fax hours requirements];
      try apply fmap_strip_fixed.
    + unfold fp_hours. intros Hv. apply cascade_some in Hv as (_ & pre & q & post & _ & _ & Hc & _).
      unfold capture in Hc. by apply fmap_strip_fixed in Hc.
    + unfold fp_requirements. destruct (re_search _ _ _) as [m'|]; [|done].
      destruct (_ <? _)%nat; [|done]. intros [= <-]. apply strip_idem.
  - intros region url p. unfold scrape_pantry_detail.
    destruct (fetch url) as [soup|]; [|done].
    destruct (n211_name soup) as [n|] eqn:Hname; [|done].
    destruct (truthy n) eqn:Hn; cbn [negb]; [|done].
    intros Heq. pose proof (f_equal (from_option id p) Heq) as Hp.
    cbn [from_option id] in Hp. subst p. clear Heq. cbn [name].
    split; [by destruct n|]. split; [by apply (n211_name_fixed soup)|].
    intros f v Hf. cbn [In] in Hf.
    destruct Hf as [<-|[<-|[<-|[<-|[<-|[<-|[]]]]]]];
      cbn [getattr address city phone hours description requirements];
      try apply fmap_strip_fixed; try apply first_match_fixed.
    all: intros Hv; apply cascade_some in Hv as (_ & pre & q & post & _ & _ & Hc & _);
      unfold capture in Hc; by apply fmap_strip_fixed in Hc.
Qed.

(** ** The counters of a run *)

Section JobInvariants.
Import Backend.
Context `{Web}.

Lemma progress_inv_step (job : Job) (e : event) :
  is_start e = false → progress_inv job → progress_inv (step job e).
Proof.
  destruct job as [s w r]. unfold progress_inv, step.
  destruct e as [| |request]; [| |done]; intros _.
  - unfold worker_step. cbn [worker scraping_state requested].
    destruct w as [|st l g|st l g|g i n [|url rest]|g i n url rest|];
      cbn [worker scraping_state current total data length]; try tauto.
    + destruct (state_pantry_urls st) as [[|u us]|];
        [|destruct (limit_pages l (u :: us)) as [pages|]|];
        cbn [worker scraping_state current total data length];
        intros (Hc & Ht & Hd); rewrite ?Hc, ?Ht, ?Hd; cbn [length];
        repeat split; lia.
    + intros (? & ? & ? & ?). lia.
    + destruct (stop_event s); cbn [worker scraping_state current total data length];
        intros (? & ? & ? & ?); repeat split; lia.
    + destruct (scrape_pantry_details url) as [d|];
        [destruct (geocode_record g d) as [d' called]|];
        cbn [worker scraping_state current total data length];
        rewrite ?length_app; cbn [length];
        intros (? & ? & ? & ?); repeat split; lia.
  - unfold stop_scrape. cbn [snd worker scraping_state current total data].
    by destruct w.
Qed.

Lemma progress_inv_run (events : list event) (job : Job) :
  no_start events → progress_inv job → progress_inv (run events job).
Proof.
  revert job. induction events as [|e events IH]; intros job Hns Hp; [done|].
  apply Forall_cons in Hns as [He Hns].
  apply IH; [done|]. by apply progress_inv_step.
Qed.

(** X9.  In a run started while no run is in progress and no thread of an
    earlier run is alive, whatever requests to stop arrive and however far
    the worker has got, also when the run ends early or on an error: the
    number of records gathered is at most the number of pages started,
    which is at most the number of pages in all. *)
Theorem progress_counters (job : Job) (request : ScrapeRequest) (state : string)
    (events : list event) :
  worker job = NoThread → is_scraping (scraping_state job) = false →
  req_state request = Some state → truthy state = true →
  no_start events →
  let s := scraping_state (run (Start request :: events) job) in
  (length (data s) ≤ current s)%nat ∧ (current s ≤ total s)%nat.
Proof.
  intros _ Hidle Hst Htr Hns.
  assert (progress_inv (run (Start request :: events) job)) as Hp.
  { change (run (Start request :: events) job)
      with (run events (start_scrape request job).2).
    apply progress_inv_run; [done|].
    unfold start_scrape. rewrite Hidle, Hst, Htr. by cbn. }
  revert Hp. unfold progress_inv.
  destruct (worker (run (Start request :: events) job));
    cbn zeta; intros Hp; decompose [and] Hp;
    repeat match goal with Hd : data _ = [] |- _ => rewrite Hd; clear Hd end;
    cbn [length]; split; lia.
Qed.
End JobInvariants.

(** ** One run, from the request to its end *)

Section OneRun.
Import Backend.
Context `{Web}.






End OneRun.

Section PartialRuns.
Import Backend.
Context `{Web}.







End PartialRuns.

Section RunExamples.
Import Backend.


Lemma progress_counters_witness :
  no_start [Tick; Tick; Tick; Tick; Tick; Stop; Tick; Tick; Tick]
  ∧ (length (data (scraping_state (@run example_web
       (Start (wisconsin_request None)
        :: [Tick; Tick; Tick; Tick; Tick; Stop; Tick; Tick; Tick]) initial_job)))
     ≤ current (scraping_state (@run example_web
       (Start (wisconsin_request None)
        :: [Tick; Tick; Tick; Tick; Tick; Stop; Tick; Tick; Tick]) initial_job)))%nat
  ∧ (current (scraping_state (@run example_web
       (Start (wisconsin_request None)
        :: [Tick; Tick; Tick; Tick; Tick; Stop; Tick; Tick; Tick]) initial_job))
     ≤ total (scraping_state (@run example_web
       (Start (wisconsin_request None)
        :: [Tick; Tick; Tick; Tick; Tick; Stop; Tick; Tick; Tick]) initial_job)))%nat.
Proof.
  assert (no_start [Tick; Tick; Tick; Tick; Tick; Stop; Tick; Tick; Tick]) as Hns
    by (repeat constructor).
  split; [exact Hns|].
  exact (@progress_counters example_web initial_job (wisconsin_request None)
           "Wisconsin" _ eq_refl eq_refl eq_refl eq_refl Hns).
Defined.


End RunExamples.

(** ** The web site the backend keeps *)

Lemma startswith_truthy (p s : string) :
  truthy p = true → startswith p s = true → truthy s = true.
Proof. destruct p; [done|]. by destruct s. Qed.

Lemma backend_scan_links_cons (link : Anchor) (rest : list Anchor)
    (e w : option string) :
  (Backend.scan_links (link :: rest) e w).2 =
    if backend_is_external link then
      match w with
      | Some x =>
          if negb (truthy x) || (len (href link) <? len x)%nat
          then (Backend.scan_links rest e (Some (href link))).2
          else (Backend.scan_links rest e w).2
      | None => (Backend.scan_links rest e (Some (href link))).2
      end
    else
      (Backend.scan_links rest
         (if contains "mailto:" (href link)
             && (contains "@" (strip (remove_all "mailto:" (href link)))
                 && negb (otruthy e))
          then Some (strip (remove_all "mailto:" (href link))) else e) w).2.
Proof.
  unfold backend_is_external. cbn [Backend.scan_links].
  destruct (contains "mailto:" (href link)); cbn [negb andb].
  - by destruct (contains "@" _ && negb (otruthy e)).
  - destruct (startswith "http" (href link)); cbn [andb]; [|done].
    destruct (contains "foodpantries.org" (href link)); cbn [negb]; [done|].
    destruct w as [x|]; [|done].
    by destruct (negb (truthy x) || (len (href link) <? len x)%nat).
Qed.

Lemma backend_scan_links_website (links : list Anchor) :
  ∀ (e w : option string),
  (∀ x, w = Some x → truthy x = true) →
  match (Backend.scan_links links e w).2 with
  | None => w = None ∧ ∀ l, l ∈ links → backend_is_external l = false
  | Some h =>
      (w = Some h
       ∧ ∀ l, l ∈ links → backend_is_external l = true → (len h ≤ len (href l))%nat)
      ∨ ∃ pre link post,
          links = (pre ++ link :: post)%list
          ∧ backend_is_external link = true ∧ href link = h
          ∧ (∀ x, w = Some x → (len h < len x)%nat)
          ∧ (∀ l, l ∈ pre → backend_is_external l = true → (len h < len (href l))%nat)
          ∧ (∀ l, l ∈ post → backend_is_external l = true → (len h ≤ len (href l))%nat)
  end.
Proof.
  induction links as [|link rest IH]; intros e w Hw.
  - cbn [Backend.scan_links snd]. destruct w as [x|].
    + left. split; [done|]. intros l Hl. by apply elem_of_nil in Hl.
    + split; [done|]. intros l Hl. by apply elem_of_nil in Hl.
  - assert (∀ e' w',
      (∀ x, w' = Some x → truthy x = true) →
      (w' = w ∧ backend_is_external link = false
       ∨ w' = w ∧ (∀ x, w = Some x → (len x ≤ len (href link))%nat)
                ∧ w ≠ None
       ∨ w' = Some (href link) ∧ backend_is_external link = true
         ∧ (∀ x, w = Some x → (len (href link) < len x)%nat)) →
      match (Backend.scan_links rest e' w').2 with
      | None => w = None ∧ ∀ l, l ∈ link :: rest → backend_is_external l = false
      | Some h =>
          (w = Some h
           ∧ ∀ l, l ∈ link :: rest → backend_is_external l = true
                  → (len h ≤ len (href l))%nat)
          ∨ ∃ pre link' post,
              link :: rest = (pre ++ link' :: post)%list
              ∧ backend_is_external link' = true ∧ href link' = h
              ∧ (∀ x, w = Some x → (len h < len x)%nat)
              ∧ (∀ l, l ∈ pre → backend_is_external l = true
                      → (len h < len (href l))%nat)
              ∧ (∀ l, l ∈ post → backend_is_external l = true
                      → (len h ≤ len (href l))%nat)
      end) as Hcase.
    { intros e' w' Hw' Hrel. specialize (IH e' w' Hw').
      destruct (Backend.scan_links rest e' w').2 as [h|].
      - destruct Hrel as [[-> Hext]|[(-> & Hle & Hsome)|(-> & Hext & Hlt)]].
        + destruct IH as [[-> Hall]|(pre & l' & post & -> & He & Hh & Hx & Hpre & Hpost)].
          * left. split; [done|]. intros l Hl.
            apply elem_of_cons in Hl as [->|Hl]; [by rewrite Hext | by apply Hall].
          * right. exists (link :: pre), l', post. repeat split; try done.
            intros l Hl. apply elem_of_cons in Hl as [->|Hl];
              [by rewrite Hext | by apply Hpre].
        + destruct IH as [[-> Hall]|(pre & l' & post & -> & He & Hh & Hx & Hpre & Hpost)].
          * left. split; [done|]. intros l Hl.
            apply elem_of_cons in Hl as [->|Hl]; [intros _; by apply Hle | by apply Hall].
          * right. exists (link :: pre), l', post. repeat split; try done.
            intros l Hl. apply elem_of_cons in Hl as [->|Hl]; [|by apply Hpre].
            intros _. destruct w as [x|]; [|done].
            specialize (Hx x eq_refl). specialize (Hle x eq_refl). lia.
        + destruct IH as [[[= <-] Hall]|(pre & l' & post & -> & He & Hh & Hx & Hpre & Hpost)].
          * right. exists [], link, rest. repeat split; try done.
            intros l Hl. by apply elem_of_nil in Hl.
          * right. exists (link :: pre), l', post. repeat split; try done.
            -- intros x Hx'. specialize (Hx _ eq_refl). specialize (Hlt _ Hx'). lia.
            -- intros l Hl. apply elem_of_cons in Hl as [->|Hl]; [|by apply Hpre].
               intros _. by apply Hx.
      - destruct IH as [-> Hall].
        destruct Hrel as [[<- Hext]|[(<- & _ & Hsome)|([=] & _)]]; [|done].
        split; [done|]. intros l Hl.
        apply elem_of_cons in Hl as [->|Hl]; [done | by apply Hall]. }
    rewrite backend_scan_links_cons.
    destruct (backend_is_external link) eqn:Hext.
    + assert (truthy (href link) = true) as Htr.
      { unfold backend_is_external in Hext.
        apply andb_prop in Hext as [Hext _]. apply andb_prop in Hext as [_ Hext].
        by apply (startswith_truthy "http"). }
      destruct w as [x|].
      * rewrite (Hw x eq_refl). cbn [negb orb].
        destruct (Nat.ltb_spec (len (href link)) (len x)).
        -- apply Hcase; [by intros ? [= <-]|]. right. right.
           split; [done|]. split; [done|]. by intros ? [= <-].
        -- apply Hcase; [done|]. right. left.
           split; [done|]. split; [by intros ? [= <-] | done].
      * apply Hcase; [by intros ? [= <-]|]. right. right.
        split; [done|]. split; [done|]. done.
    + apply Hcase; [done|]. by left.
Qed.

(** X14.  In the backend the web site of a page is the target of its
    shortest external link, the first one of that length: no web site when
    no link starts with "http" outside foodpantries.org, and otherwise every
    external link before the one kept is longer and none after it is
    shorter, whatever the texts of the links say. *)
Theorem backend_website_shortest (links : list Anchor) :
  ((Backend.scan_links links None None).2 = None
   ↔ ∀ l, l ∈ links → backend_is_external l = false)
  ∧ ∀ h, (Backend.scan_links links None None).2 = Some h →
      ∃ pre link post,
        links = (pre ++ link :: post)%list
        ∧ backend_is_external link = true ∧ href link = h
        ∧ (∀ l, l ∈ pre → backend_is_external l = true → (len h < len (href l))%nat)
        ∧ (∀ l, l ∈ post → backend_is_external l = true → (len h ≤ len (href l))%nat).
Proof.
  pose proof (backend_scan_links_website links None None ltac:(done)) as Hs.
  destruct (Backend.scan_links links None None).2 as [h|].
  - destruct Hs as [[[=] _]|(pre & link & post & -> & He & Hh & _ & Hpre & Hpost)].
    split.
    + split; [done|]. intros Hall.
      specialize (Hall link). rewrite He in Hall.
      assert (true = false) by (apply Hall; apply elem_of_app; right; by left). done.
    + intros h' [= <-]. by exists pre, link, post.
  - destruct Hs as [_ Hall]. split; [by split|]. done.
Qed.

(** ** The form of the contact fields *)

Lemma n211_website_find (links : list Anchor) :
  n211_website links = href <$> find n211_is_website links.
Proof.
  induction links as [|link rest IH]; [done|].
  cbn [n211_website find]. unfold n211_is_website at 1.
  destruct (startswith "http" (href link) && negb (contains "communityos.org" (href link))
            && negb (contains "211" (href link))); cbn [andb]; [|exact IH].
  destruct (contains "website" _ || contains "visit" _ || contains "home" _);
    [done | exact IH].
Qed.

(** X15.  A web site kept by [scrape_pantry_details] starts with "http" and
    contains neither "foodpantries.org" nor "mailto:"; one kept by
    [scrape_pantry_detail] starts with "http" and contains neither
    "communityos.org" nor "211"; one kept by the backend starts with "http"
    and does not contain "foodpantries.org".  A mail address kept from a
    link, in [scrape_pantry_details] and in the backend, contains "@". *)
Theorem contact_fields_form `{Web} :
  (∀ pantry_url p,
     scrape_pantry_details pantry_url = Some p →
     (∀ w, website p = Some w →
        startswith "http" w = true ∧ contains "foodpantries.org" w = false
        ∧ contains "mailto:" w = false)
     ∧ (∀ e, email p = Some e → contains "@" e = true))
  ∧ (∀ region url p,
       scrape_pantry_detail region url = Some p →
       ∀ w, website p = Some w →
         startswith "http" w = true ∧ contains "communityos.org" w = false
         ∧ contains "211" w = false)
  ∧ (∀ pantry_url d,
       Backend.scrape_pantry_details pantry_url = Some d →
       (∀ w, Backend.website d = Some w →
          startswith "http" w = true ∧ contains "foodpantries.org" w = false)
       ∧ (∀ e, Backend.email d = Some e → contains "@" e = true)).
Proof.
  split; [|split].
  - intros pantry_url p. unfold scrape_pantry_details.
    destruct (fetch pantry_url) as [soup|]; [|done].
    destruct (re_search _ [MULTILINE] _) as [m|]; [|done].
    destruct (negb _); [done|].
    rewrite scan_links_spec. intros Heq.
    pose proof (f_equal (from_option id p) Heq) as Hp.
    cbn [from_option id] in Hp. subst p. clear Heq. cbn [website email]. split.
    + intros w. unfold first_website.
      destruct (find is_website_link _) as [link|] eqn:Hf; [|done].
      intros [= <-]. apply find_some in Hf as [_ Hq].
      unfold is_website_link, is_external, is_mailto in Hq.
      apply andb_prop in Hq as [Hq _]. apply andb_prop in Hq as [Hq Hfp].
      apply andb_prop in Hq as [Hm Hh].
      apply negb_true_iff in Hm. apply negb_true_iff in Hfp. done.
    + intros e. unfold first_mail_address.
      destruct (find is_mail_address _) as [link|] eqn:Hf; [|done].
      intros [= <-]. apply find_some in Hf as [_ Hq].
      unfold is_mail_address in Hq. by apply andb_prop in Hq as [_ Hq].
  - intros region url p. unfold scrape_pantry_detail.
    destruct (fetch url) as [soup|]; [|done].
    destruct (n211_name soup) as [n|]; [|done].
    destruct (negb _); [done|].
    intros Heq. pose proof (f_equal (from_option id p) Heq) as Hp.
    cbn [from_option id] in Hp. subst p. clear Heq. cbn [website].
    intros w. rewrite n211_website_find.
    destruct (find n211_is_website _) as [link|] eqn:Hf; [|done].
    intros [= <-]. apply find_some in Hf as [_ Hq].
    unfold n211_is_website in Hq.
    apply andb_prop in Hq as [Hq _]. apply andb_prop in Hq as [Hq H211].
    apply andb_prop in Hq as [Hh Hc].
    apply negb_true_iff in Hc. apply negb_true_iff in H211. done.
  - intros pantry_url d. unfold Backend.scrape_pantry_details.
    destruct (fetch pantry_url) as [soup|]; [|done].
    pose proof (backend_scan_links_website (find_all_a soup) None None ltac:(done)) as Hw.
    pose proof (backend_scan_links_email (find_all_a soup) None) as He.
    destruct (Backend.scan_links (find_all_a soup) None None) as [e0 w0].
    cbn [fst snd] in Hw, He.
    intros Heq. pose proof (f_equal (from_option id d) Heq) as Hd.
    cbn [from_option id] in Hd. subst d. clear Heq.
    cbn [Backend.website Backend.email]. split.
    + intros w ->.
      destruct Hw as [[[=] _]|(pre & link & post & _ & Hq & <- & _)].
      unfold backend_is_external in Hq.
      apply andb_prop in Hq as [Hq Hfp]. apply andb_prop in Hq as [_ Hh].
      apply negb_true_iff in Hfp. done.
    + intros e ->. unfold backend_first_mail_address in He.
      destruct (find backend_is_mail_address _) as [link|] eqn:Hf; [|done].
      injection He as ->. apply find_some in Hf as [_ Hq].
      unfold backend_is_mail_address in Hq. by apply andb_prop in Hq as [_ Hq].
Qed.

(** ** The detail pages of a state *)

Lemma contains_cons (p : string) (c : ascii) (s : string) :
  contains p (String c s) = startswith p (String c s) || contains p s.
Proof. done. Qed.

Lemma contains_app_r (p a s : string) :
  contains p s = true → contains p (a ++ s) = true.
Proof.
  intros Hc. induction a as [|c a IH]; [done|].
  change (String c a ++ s) with (String c (a ++ s)).
  rewrite contains_cons, IH. apply orb_true_r.
Qed.

Lemma absolute_http (h : string) : startswith "http" (absolute h) = true.
Proof. unfold absolute. by destruct (startswith "http" h) eqn:E. Qed.

Lemma absolute_contains (marker h : string) :
  contains marker h = true → contains marker (absolute h) = true.
Proof.
  intros Hc. unfold absolute. destruct (startswith "http" h); [done|].
  by apply contains_app_r.
Qed.

Lemma gather_elem (marker : string) (links : list Anchor) (urls : list string)
    (u : string) :
  u ∈ gather marker links urls
  ↔ u ∈ urls ∨ ∃ link, link ∈ links ∧ contains marker (href link) = true
                        ∧ u = absolute (href link).
Proof.
  revert urls. induction links as [|link rest IH]; intros urls; cbn [gather].
  - split; [by left|]. intros [Hu|(link & Hl & _)]; [done|]. by apply elem_of_nil in Hl.
  - destruct (contains marker (href link)) eqn:Hm.
    + destruct (bool_decide_reflect (absolute (href link) ∈ urls)) as [Hin|Hin];
        rewrite IH; [|rewrite elem_of_app, list_elem_of_singleton].
      * split.
        -- intros [Hu|(l & Hl & Hc & ->)]; [by left|].
           right. exists l. split; [by apply list_elem_of_further|done].
        -- intros [Hu|(l & Hl & Hc & ->)]; [by left|].
           apply elem_of_cons in Hl as [->|Hl]; [by left|].
           right. by exists l.
      * split.
        -- intros [[Hu| ->]|(l & Hl & Hc & ->)]; [by left| |].
           ++ right. exists link. split; [apply list_elem_of_here|done].
           ++ right. exists l. split; [by apply list_elem_of_further|done].
        -- intros [Hu|(l & Hl & Hc & ->)]; [by left; left|].
           apply elem_of_cons in Hl as [->|Hl]; [by left; right|].
           right. by exists l.
    + rewrite IH. split.
      * intros [Hu|(l & Hl & Hc & ->)]; [by left|].
        right. exists l. split; [by apply list_elem_of_further|done].
      * intros [Hu|(l & Hl & Hc & ->)]; [by left|].
        apply elem_of_cons in Hl as [->|Hl]; [congruence|].
        right. by exists l.
Qed.

Lemma gather_NoDup (marker : string) (links : list Anchor) (urls : list string) :
  NoDup urls → NoDup (gather marker links urls).
Proof.
  revert urls. induction links as [|link rest IH]; intros urls Hnd; cbn [gather]; [done|].
  destruct (contains marker (href link)); [|by apply IH].
  destruct (bool_decide_reflect (absolute (href link) ∈ urls)) as [Hin|Hin];
    [by apply IH|].
  apply IH. apply NoDup_app. split; [done|]. split.
  - intros x Hx ->%list_elem_of_singleton. done.
  - apply NoDup_singleton.
Qed.

Section StatePages.
Context `{Web}.

Lemma gather_cities_elem (city_urls pantry_urls : list string) (u : string) :
  u ∈ gather_cities city_urls pantry_urls
  ↔ u ∈ pantry_urls
    ∨ ∃ city_url city_soup link,
        city_url ∈ city_urls ∧ fetch city_url = Some city_soup
        ∧ marked_link "/li/" city_soup link ∧ u = absolute (href link).
Proof.
  revert pantry_urls.
  induction city_urls as [|city_url rest IH]; intros pantry_urls; cbn [gather_cities].
  - split; [by left|]. intros [Hu|(c & s & l & Hc & _)]; [done|].
    by apply elem_of_nil in Hc.
  - destruct (fetch city_url) as [city_soup|] eqn:Hf; rewrite IH; [rewrite gather_elem|].
    + split.
      * intros [[Hu|(l & Hl & Hc & ->)]|(c & s & l & Hc & Hs & Hl & ->)]; [by left| |].
        -- right. exists city_url, city_soup, l.
           split; [apply list_elem_of_here|done].
        -- right. exists c, s, l. split; [by apply list_elem_of_further|done].
      * intros [Hu|(c & s & l & Hc & Hs & Hl & ->)]; [by left; left|].
        apply elem_of_cons in Hc as [->|Hc].
        -- left. right. exists l. destruct Hl as [Hl Hm].
           rewrite Hf in Hs. injection Hs as <-. done.
        -- right. by exists c, s, l.
    + split.
      * intros [Hu|(c & s & l & Hc & Hs & Hl & ->)]; [by left|].
        right. exists c, s, l. split; [by apply list_elem_of_further|done].
      * intros [Hu|(c & s & l & Hc & Hs & Hl & ->)]; [by left|].
        apply elem_of_cons in Hc as [->|Hc]; [congruence|].
        right. by exists c, s, l.
Qed.

Lemma gather_cities_NoDup (city_urls pantry_urls : list string) :
  NoDup pantry_urls → NoDup (gather_cities city_urls pantry_urls).
Proof.
  revert pantry_urls.
  induction city_urls as [|city_url rest IH]; intros pantry_urls Hnd;
    cbn [gather_cities]; [done|].
  destruct (fetch city_url); apply IH; [by apply gather_NoDup|done].
Qed.

(** X16.  [scrape_state_page] returns each detail page once, and returns
    exactly the targets of the links containing "/li/" on the city pages
    that answer, the city pages being the targets of the links containing
    "/ci/" on the state page; a state page whose request raises gives the
    empty list, a city page whose request raises is passed over.  Every URL
    returned starts with "http" and contains "/li/". *)
Theorem scrape_state_page_listed (state_url : string) :
  NoDup (scrape_state_page state_url)
  ∧ (∀ pantry_url,
       pantry_url ∈ scrape_state_page state_url ↔ listed state_url pantry_url)
  ∧ (∀ pantry_url,
       pantry_url ∈ scrape_state_page state_url →
       startswith "http" pantry_url = true ∧ contains "/li/" pantry_url = true)
  ∧ (fetch state_url = None → scrape_state_page state_url = []).
Proof.
  assert (Hiff : ∀ pantry_url,
            pantry_url ∈ scrape_state_page state_url ↔ listed state_url pantry_url).
  { intros u. unfold scrape_state_page, listed.
    destruct (fetch state_url) as [soup|] eqn:Hf.
    - rewrite gather_cities_elem. split.
      + intros [Hu|(c & s & l & Hc & Hs & Hl & ->)]; [by apply elem_of_nil in Hu|].
        apply gather_elem in Hc as [Hc|(cl & Hcl & Hm & ->)];
          [by apply elem_of_nil in Hc|].
        by exists soup, cl, s, l.
      + intros (soup' & cl & s & l & [= <-] & [Hcl Hm] & Hs & Hl & ->).
        right. exists (absolute (href cl)), s, l. split; [|done].
        apply gather_elem. right. by exists cl.
    - split; [by intros ?%elem_of_nil|]. by intros (? & ? & ? & ? & [=] & _). }
  split; [|split; [exact Hiff|split]].
  - unfold scrape_state_page. destruct (fetch state_url); [|apply NoDup_nil_2].
    apply gather_cities_NoDup, NoDup_nil_2.
  - intros u (soup & cl & s & l & _ & _ & _ & [_ Hm] & ->)%Hiff.
    split; [apply absolute_http|by apply absolute_contains].
  - unfold scrape_state_page. by intros ->.
Qed.

End StatePages.

(** ** The coordinator of the sources *)

Section Coordinator.
Context `{Web} `{Sites}.

Lemma scrape_urls_inv (scrape : string → option Pantry)
    (P : MultiSourceScraper → Prop) (Q : Pantry → Prop) :
  (∀ url pantry, scrape url = Some pantry → Q pantry) →
  (∀ self pantry self',
     Q pantry → P self → record_pantry pantry self = Returns self' → P self') →
  ∀ pantry_urls self, P self → P (scrape_urls scrape pantry_urls self).
Proof.
  intros HQ Hstep pantry_urls.
  induction pantry_urls as [|url rest IH]; intros self HP; cbn [scrape_urls]; [done|].
  destruct (scrape url) as [pantry|] eqn:Hs; [|by apply IH].
  destruct (record_pantry pantry self) as [self'|e] eqn:Hr; [|done].
  apply IH. eapply Hstep; [by eapply HQ|done|done].
Qed.

Lemma scrape_source_inv (P : MultiSourceScraper → Prop) :
  (∀ self pantry self',
     truthy (name pantry) = true → P self →
     record_pantry pantry self = Returns self' → P self') →
  ∀ state_name limit source self,
    P self → P (scrape_source state_name limit source self).
Proof.
  intros Hstep state_name limit source self HP. unfold scrape_source.
  destruct (String.eqb source "foodpantries.org").
  - unfold _scrape_foodpantries.
    destruct (get_state_urls !! state_name) as [[state_url c]|]; [|done].
    apply (scrape_urls_inv _ P (λ p, truthy (name p) = true)); [|done|done].
    intros url p. apply scrape_pantry_details_named.
  - destruct (startswith "211-" source); [|done]. unfold _scrape_211.
    destruct (network211_base_url _) as [b|]; [|done].
    apply (scrape_urls_inv _ P (λ p, truthy (name p) = true)); [|done|done].
    intros url p. apply scrape_pantry_detail_named.
Qed.

Lemma scrape_state_inv (P : MultiSourceScraper → Prop) :
  (∀ self pantry self',
     truthy (name pantry) = true → P self →
     record_pantry pantry self = Returns self' → P self') →
  ∀ state_name limit sources self,
    P self → P (scrape_state state_name limit sources self).
Proof.
  intros Hstep state_name limit sources. unfold scrape_state.
  induction (default ["foodpantries.org"] sources) as [|source rest IH];
    intros self HP; cbn [fold_left]; [done|].
  apply IH. by apply scrape_source_inv.
Qed.

Lemma unknown_source_skipped (state_name : string) (limit : option Z)
    (source : string) (self : MultiSourceScraper) :
  known_source source = false → scrape_source state_name limit source self = self.
Proof.
  unfold known_source, scrape_source.
  destruct (String.eqb source "foodpantries.org"); [done|]. cbn [orb].
  destruct (startswith "211-" source); [|done]. cbn [andb].
  unfold _scrape_211. destruct (network211_base_url _) as [b|]; [|done].
  intros Hk. apply bool_decide_eq_false in Hk. by destruct Hk.
Qed.

(** X17.  [scrape_state] passes over the sources it has no scraper for,
    wherever they stand in the list: a source that is neither
    "foodpantries.org" nor "211-" followed by a region of
    [COMMUNITYOS_SITES] changes neither the store nor the counts, and the
    sources after it are scraped as if it were not listed. *)
Theorem scrape_state_known_sources (state_name : string) (limit : option Z)
    (sources : list string) (self : MultiSourceScraper) :
  scrape_state state_name limit (Some sources) self
  = scrape_state state_name limit (Some (List.filter known_source sources)) self.
Proof.
  unfold scrape_state. cbn [default from_option id].
  revert self. induction sources as [|source rest IH]; intros self; [done|].
  cbn [List.filter fold_left].
  destruct (known_source source) eqn:Hk; cbn [fold_left]; [apply IH|].
  rewrite unknown_source_skipped by done. apply IH.
Qed.

Lemma record_pantry_store (pantry : Pantry) (self self' : MultiSourceScraper) :
  truthy (name pantry) = true →
  consistent (database self) ∧ named (database self) →
  record_pantry pantry self = Returns self' →
  consistent (database self') ∧ named (database self').
Proof.
  intros Hn [Hc Hnamed]. unfold record_pantry.
  destruct (add_pantry (database self) pantry) as [[is_new db]|e] eqn:Ha; [|done].
  intros [= <-]. cbn [database]. split; [by eapply add_pantry_consistent|].
  intros k r. rewrite (add_pantry_lookup _ _ _ _ k Hc Ha).
  destruct (decide (get_fingerprint pantry = k)) as [<-|]; [|apply Hnamed].
  destruct (pantries (database self) !! get_fingerprint pantry) as [stored|] eqn:Hl;
    cbn [absorb]; intros [= <-]; [|done].
  change (name (merge_with stored pantry)) with (merge_str (name stored) (name pantry)).
  destruct (merge_str_cases (name stored) (name pantry)) as [-> | ->]; [|done].
  by eapply Hnamed.
Qed.

Lemma record_pantry_keeps (pantry : Pantry) (self self' : MultiSourceScraper) :
  record_pantry pantry self = Returns self' →
  fingerprints (database self) ⊆ fingerprints (database self')
  ∧ dom (pantries (database self)) ⊆ dom (pantries (database self')).
Proof.
  unfold record_pantry, add_pantry. cbv zeta.
  destruct (decide _) as [Hin|Hout].
  - destruct (pantries (database self) !! get_fingerprint pantry); [|done].
    intros [= <-]. cbn [database fingerprints pantries]. split; [done|].
    rewrite dom_insert_L. apply union_subseteq_r.
  - intros [= <-]. cbn [database fingerprints pantries]. split.
    + apply union_subseteq_r.
    + rewrite dom_insert_L. apply union_subseteq_r.
Qed.

(** X18.  Whatever the pages hold, [scrape_state] keeps the store sound:
    from a store whose fingerprints are the keys of its records and whose
    records all have a name, it leaves such a store, and no fingerprint and
    no key that was there is gone. *)
Theorem scrape_state_store (state_name : string) (limit : option Z)
    (sources : option (list string)) (self : MultiSourceScraper) :
  consistent (database self) → named (database self) →
  consistent (database (scrape_state state_name limit sources self))
  ∧ named (database (scrape_state state_name limit sources self))
  ∧ fingerprints (database self)
      ⊆ fingerprints (database (scrape_state state_name limit sources self))
  ∧ dom (pantries (database self))
      ⊆ dom (pantries (database (scrape_state state_name limit sources self))).
Proof.
  intros Hc Hn.
  pose proof (scrape_state_inv
    (λ s, consistent (database s) ∧ named (database s))
    (λ s p s' Hp Hs Hr, record_pantry_store p s s' Hp Hs Hr)
    state_name limit sources self (conj Hc Hn)) as [Hc' Hn'].
  split; [done|]. split; [done|].
  apply (scrape_state_inv
    (λ s, fingerprints (database self) ⊆ fingerprints (database s)
          ∧ dom (pantries (database self)) ⊆ dom (pantries (database s)))); [|done].
  intros s p s' _ [Hf Hd] [Hf' Hd']%record_pantry_keeps.
  split; by etrans.
Qed.

End Coordinator.

Lemma scrape_state_store_witness :
  consistent (database new_scraper) ∧ named (database new_scraper)
  ∧ consistent
      (database (@scrape_state example_web example_sites "Wisconsin" (Some 5%Z)
                   (Some ["foodpantries.org"; "211-wisconsin"]) new_scraper)).
Proof.
  assert (Hn : named (database new_scraper)).
  { intros k r. cbn [new_scraper database new_database pantries].
    by rewrite lookup_empty. }
  split; [apply new_database_consistent|]. split; [exact Hn|].
  apply (@scrape_state_store example_web example_sites "Wisconsin" (Some 5%Z)
           (Some ["foodpantries.org"; "211-wisconsin"]) new_scraper
           new_database_consistent Hn).
Defined.

(** ** The counts of the coordinator *)

Lemma count_total_insert (counts : gmap (option string) nat) (k : option string)
    (n : nat) :
  (count_total (<[k := n]> counts) + count_of counts k = count_total counts + n)%nat.
Proof.
  unfold count_total, count_of.
  destruct (counts !! k) as [x|] eqn:Hk; cbn [default from_option id].
  - rewrite <- (map_to_list_delete counts k x Hk).
    rewrite <- (insert_delete_eq counts k n).
    rewrite (map_to_list_insert (delete k counts) k n) by apply lookup_delete_eq.
    cbn [sum_list_with snd]. lia.
  - rewrite (map_to_list_insert counts k n Hk). cbn [sum_list_with snd]. lia.
Qed.

Lemma record_pantry_counts (pantry : Pantry) (self self' : MultiSourceScraper) :
  record_pantry pantry self = Returns self' →
  count_total (source_counts self') = (count_total (source_counts self) + 1)%nat
  ∧ (size (pantries (database self')) ≤ size (pantries (database self)) + 1)%nat
  ∧ ∀ source,
      (count_of (source_counts self) source ≤ count_of (source_counts self') source)%nat.
Proof.
  unfold record_pantry.
  destruct (add_pantry (database self) pantry) as [[is_new db]|e] eqn:Ha; [|done].
  intros [= <-]. cbn [database source_counts]. split; [|split].
  - pose proof (count_total_insert (source_counts self) (source_site pantry)
                  (default 0 (source_counts self !! source_site pantry) + 1)%nat) as Hi.
    unfold count_of in Hi. lia.
  - revert Ha. unfold add_pantry. cbv zeta.
    destruct (decide _); [destruct (pantries (database self) !! _); [|done]|];
      intros [= _ <-]; cbn [pantries]; rewrite map_size_insert;
      destruct (pantries (database self) !! _); cbn [id]; lia.
  - intros source. unfold count_of. rewrite lookup_insert.
    destruct (decide (source_site pantry = source)) as [<-|]; [|done].
    cbn [default from_option id]. lia.
Qed.

Lemma scrape_urls_counts (scrape : string → option Pantry) (pantry_urls : list string)
    (self : MultiSourceScraper) :
  (count_total (source_counts (scrape_urls scrape pantry_urls self))
   ≤ count_total (source_counts self) + length pantry_urls)%nat.
Proof.
  revert self. induction pantry_urls as [|url rest IH]; intros self;
    cbn [scrape_urls length]; [lia|].
  destruct (scrape url) as [pantry|]; [|specialize (IH self); lia].
  destruct (record_pantry pantry self) as [self'|e] eqn:Hr; [|lia].
  apply record_pantry_counts in Hr as [Hr _]. specialize (IH self'). lia.
Qed.

Lemma apply_limit_length (n : Z) (l : list string) :
  (0 < n)%Z → (length (Backend.apply_limit (Some n) l) ≤ Z.to_nat n)%nat.
Proof.
  intros Hn. unfold Backend.apply_limit, Backend.slice_to.
  destruct (Z.eqb_spec n 0); [lia|]. destruct (Z.leb_spec 0 n); [|lia].
  rewrite length_firstn. lia.
Qed.

Section Counts.
Context `{Web} `{Sites}.

Lemma scrape_source_counts (state_name : string) (n : Z) (source : string)
    (self : MultiSourceScraper) :
  (0 < n)%Z →
  (count_total (source_counts (scrape_source state_name (Some n) source self))
   ≤ count_total (source_counts self) + Z.to_nat n)%nat.
Proof.
  intros Hn. unfold scrape_source.
  destruct (String.eqb source "foodpantries.org").
  - unfold _scrape_foodpantries.
    destruct (get_state_urls !! state_name) as [[state_url c]|]; [|lia].
    etrans; [apply scrape_urls_counts|].
    pose proof (apply_limit_length n (scrape_state_page state_url) Hn). lia.
  - destruct (startswith "211-" source); [|lia]. unfold _scrape_211.
    destruct (network211_base_url _) as [b|]; [|lia].
    etrans; [apply scrape_urls_counts|]. unfold search_food_pantries.
    destruct (search_links b) as [l|]; [|cbn [length]; lia].
    pose proof (apply_limit_length n l Hn). lia.
Qed.

(** X19.  The counts [scrape_state] keeps by site go up only, and their sum
    is never below the number of stored records when it was not before;
    with a limit [n > 0], a call adds at most [n] to the sum for each
    source it is given. *)
Theorem scrape_state_counts (state_name : string) (n : Z)
    (sources : option (list string)) (self : MultiSourceScraper) :
  (0 < n)%Z →
  (size (pantries (database self)) ≤ count_total (source_counts self))%nat →
  (size (pantries (database (scrape_state state_name (Some n) sources self)))
   ≤ count_total (source_counts (scrape_state state_name (Some n) sources self)))%nat
  ∧ (count_total (source_counts (scrape_state state_name (Some n) sources self))
     ≤ count_total (source_counts self)
       + length (default ["foodpantries.org"] sources) * Z.to_nat n)%nat
  ∧ ∀ source,
      (count_of (source_counts self) source
       ≤ count_of (source_counts (scrape_state state_name (Some n) sources self))
           source)%nat.
Proof.
  intros Hn Hs. split; [|split].
  - apply (scrape_state_inv
      (λ s, (size (pantries (database s)) ≤ count_total (source_counts s))%nat));
      [|done].
    intros s p s' _ Hle (Ht & Hsz & _)%record_pantry_counts. lia.
  - unfold scrape_state. clear Hs. revert self.
    induction (default ["foodpantries.org"] sources) as [|source rest IH];
      intros self; cbn [fold_left length]; [lia|].
    etrans; [apply IH|].
    pose proof (scrape_source_counts state_name n source self Hn). lia.
  - apply (scrape_state_inv
      (λ s, ∀ source,
         (count_of (source_counts self) source ≤ count_of (source_counts s) source)%nat));
      [|done].
    intros s p s' _ Hle (_ & _ & Hup)%record_pantry_counts source.
    etrans; [apply Hle|apply Hup].
Qed.

End Counts.

Lemma scrape_state_counts_witness :
  (0 < 5)%Z
  ∧ (size (pantries (database new_scraper))
     ≤ count_total (source_counts new_scraper))%nat
  ∧ (count_total
       (source_counts
          (@scrape_state example_web example_sites "Wisconsin" (Some 5%Z)
             (Some ["foodpantries.org"; "211-wisconsin"]) new_scraper))
     ≤ count_total (source_counts new_scraper)
       + length (default ["foodpantries.org"]
                   (Some ["foodpantries.org"; "211-wisconsin"])) * Z.to_nat 5)%nat.
Proof.
  assert (Hs : (size (pantries (database new_scraper))
                ≤ count_total (source_counts new_scraper))%nat).
  { cbn [new_scraper database new_database pantries]. rewrite map_size_empty. lia. }
  split; [lia|]. split; [exact Hs|].
  exact (proj1 (proj2
    (@scrape_state_counts example_web example_sites "Wisconsin" 5%Z
       (Some ["foodpantries.org"; "211-wisconsin"]) new_scraper
       ltac:(lia) Hs))).
Defined.
